(** * DBnest: container runtime abstraction and provisioning state machine

    A shallow embedding of the Go sources of sirrobot01/dbnest:
    - [pkg/runtime/containerd], [pkg/runtime/docker], [pkg/runtime/cli]:
      status mapping, image-name normalisation, byte-size parsing and the
      container-create invocations of the three runtime backends;
    - [pkg/storage]: the persisted records and the key-value store contract;
    - [pkg/database] (manager.go): port allocation, asynchronous
      provisioning, status reconciliation, deletion, resource updates;
    - [pkg/scheduler]: count-based backup retention.

    Go values are modelled as follows.  A Go [string] is a Rocq [string]
    (a sequence of bytes); an [int]/[int64] is a [Z]; a Go [error] is an
    [option string] carrying the error text, [None] being [nil]; a pair
    [(T, error)] is a Rocq pair.  The persistent store is a [gmap] keyed by
    record identifier.  Calls that leave the process (container runtime,
    file system, operating system) are answered by an explicit oracle and
    recorded in a call log, so that "is attempted" and "is never invoked"
    are statements about that log. *)

From Stdlib Require Import ZArith Lia Bool List Ascii String Floats.
From Stdlib Require Import Sorting.Permutation Sorting.Sorted.
From stdpp Require Import base option list gmap strings fin_maps pretty sorting.

Local Open Scope Z_scope.
Set Warnings "-clear-no-such-hyp,-inexact-float".


(** ** Go values *)

(** A Go [error]: [None] is [nil], [Some msg] an error whose [Error()]
    text is [msg]. *)
Abbreviation error := (option string).

(** ** The [strings] package, as far as the sources use it *)

Module GoStrings.

(** [strings.HasPrefix]. *)
Fixpoint HasPrefix (s pre : string) {struct pre} : bool :=
  match pre, s with
  | EmptyString, _ => true
  | String c pre', String d s' => if Ascii.eqb c d then HasPrefix s' pre' else false
  | String _ _, EmptyString => false
  end.

(** [strings.Contains]: does [substr] occur somewhere in [s]? *)
Fixpoint Contains (s substr : string) : bool :=
  if HasPrefix s substr then true
  else match s with
       | EmptyString => false
       | String _ s' => Contains s' substr
       end.

(** [strings.Split(s, sep)] for a one-byte separator, which is the only
    way the sources call it.  The result is never empty. *)
Fixpoint Split (s : string) (sep : ascii) : list string :=
  match s with
  | EmptyString => [EmptyString]
  | String c s' =>
      if Ascii.eqb c sep then EmptyString :: Split s' sep
      else match Split s' sep with
           | [] => [String c EmptyString]
           | hd :: tl => String c hd :: tl
           end
  end.

(** Indexing [xs[0]] on a slice that is known to be non-empty. *)
Definition first (xs : list string) : string :=
  match xs with
  | [] => EmptyString
  | x :: _ => x
  end.

End GoStrings.

(** ** pkg/runtime/containerd *)

Module Containerd.
Import GoStrings.

(** The [containerd.ProcessStatus] constants ([ProcessStatus] is a string
    type in the containerd client). *)
Definition Running := "running".
Definition Created := "created".
Definition Stopped := "stopped".
Definition Paused := "paused".
Definition Pausing := "pausing".
Definition Unknown := "unknown".

(** What the three containerd calls of [GetContainerStatus] answer, in
    the order the function makes them: [LoadContainer], [container.Task],
    [task.Status]. *)
Inductive TaskView :=
| LoadError (err : string)
| TaskError (err : string)
| StatusError (err : string)
| TaskStatus (status : string).

(** [Client.GetContainerStatus]. *)
Definition GetContainerStatus (v : TaskView) : string * error :=
  match v with
  | LoadError _ => ("error", None)
  | TaskError _ => ("stopped", None)
  | StatusError _ => ("error", None)
  | TaskStatus status =>
      if String.eqb status Running then ("running", None)
      else if String.eqb status Created || String.eqb status Pausing then ("creating", None)
      else if String.eqb status Stopped || String.eqb status Paused then ("stopped", None)
      else ("error", None)
  end.

(** [normalizeImageName]. *)
Definition normalizeImageName (name : string) : string :=
  if Contains name "/" && Contains (first (Split name "/"%char)) "." then name
  else if negb (Contains name "/") then "docker.io/library/" +:+ name
  else "docker.io/" +:+ name.

End Containerd.

(** ** pkg/runtime/docker: status query *)

Module DockerStatus.

(** The fields of the Docker API's [container.State] that
    [GetContainerStatus] reads. *)
Record State := {
  Running : bool;
  Paused : bool;
  Restarting : bool;
  OOMKilled : bool;
  Dead : bool
}.

(** The answer of [ContainerInspect]: the state, an error for which
    [client.IsErrNotFound] holds, or any other error. *)
Inductive InspectResult :=
| Inspected (st : State)
| NotFound (err : string)
| InspectFailed (err : string).

(** [Client.GetContainerStatus]. *)
Definition GetContainerStatus (r : InspectResult) : string * error :=
  match r with
  | NotFound _ => ("error", None)
  | InspectFailed err => ("", Some err)
  | Inspected st =>
      if Running st then ("running", None)
      else if Paused st then ("stopped", None)
      else if Restarting st then ("creating", None)
      else if Dead st || OOMKilled st then ("error", None)
      else ("stopped", None)
  end.

End DockerStatus.

(** ** pkg/runtime/cli: status query *)

Module CliStatus.
Import GoStrings.

(** [Client.GetContainerStatus], from the result of
    [runCommand("inspect", "--format", "{{.State.Status}}", id)]. *)
Definition GetContainerStatus (r : string * error) : string * error :=
  match r with
  | (_, Some err) =>
      if Contains err "No such" then ("error", None) else ("", Some err)
  | (output, None) =>
      if String.eqb output "running" then ("running", None)
      else if String.eqb output "paused" || String.eqb output "exited"
              || String.eqb output "dead" then ("stopped", None)
      else if String.eqb output "restarting" || String.eqb output "created"
      then ("creating", None)
      else ("error", None)
  end.

End CliStatus.

(** ** Machine integers *)

(** Go's [int] and [int64] are 64-bit two's-complement integers:
    arithmetic wraps around. *)
Definition wrap64 (z : Z) : Z := (z + 2 ^ 63) mod 2 ^ 64 - 2 ^ 63.

(** ** pkg/storage *)

Module Storage.

(** [DatabaseInstance].  [time.Time] values are instants on an integer
    time line; [*time.Time] is an [option]. *)
Record DatabaseInstance := mkDatabaseInstance {
  ID : string;
  Name : string;
  Engine : string;
  Version : string;
  Status : string;
  Host : string;
  Port : Z;
  Username : string;
  Password : string;
  Database : string;
  ContainerID : string;
  CreatedAt : Z;
  StorageUsed : Z;
  StorageLimit : Z;
  MemoryLimit : Z;
  CPULimit : float;
  Connections : Z;
  MaxConnections : Z;
  ErrorMessage : string;
  ExposePort : bool;
  Network : string;
  BackupEnabled : bool;
  BackupSchedule : string;
  BackupRetentionCount : Z;
  LastBackupAt : option Z
}.

(** Field assignments [db.F = v] used by the manager. *)
Definition set_Status (v : string) (db : DatabaseInstance) : DatabaseInstance :=
  let 'mkDatabaseInstance a1 a2 a3 a4 _ a6 a7 a8 a9 a10 a11 a12 a13 a14 a15 a16
        a17 a18 a19 a20 a21 a22 a23 a24 a25 := db in
  mkDatabaseInstance a1 a2 a3 a4 v a6 a7 a8 a9 a10 a11 a12 a13 a14 a15 a16
    a17 a18 a19 a20 a21 a22 a23 a24 a25.

Definition set_ContainerID (v : string) (db : DatabaseInstance) : DatabaseInstance :=
  let 'mkDatabaseInstance a1 a2 a3 a4 a5 a6 a7 a8 a9 a10 _ a12 a13 a14 a15 a16
        a17 a18 a19 a20 a21 a22 a23 a24 a25 := db in
  mkDatabaseInstance a1 a2 a3 a4 a5 a6 a7 a8 a9 a10 v a12 a13 a14 a15 a16
    a17 a18 a19 a20 a21 a22 a23 a24 a25.

Definition set_MemoryLimit (v : Z) (db : DatabaseInstance) : DatabaseInstance :=
  let 'mkDatabaseInstance a1 a2 a3 a4 a5 a6 a7 a8 a9 a10 a11 a12 a13 a14 _ a16
        a17 a18 a19 a20 a21 a22 a23 a24 a25 := db in
  mkDatabaseInstance a1 a2 a3 a4 a5 a6 a7 a8 a9 a10 a11 a12 a13 a14 v a16
    a17 a18 a19 a20 a21 a22 a23 a24 a25.

Definition set_CPULimit (v : float) (db : DatabaseInstance) : DatabaseInstance :=
  let 'mkDatabaseInstance a1 a2 a3 a4 a5 a6 a7 a8 a9 a10 a11 a12 a13 a14 a15 _
        a17 a18 a19 a20 a21 a22 a23 a24 a25 := db in
  mkDatabaseInstance a1 a2 a3 a4 a5 a6 a7 a8 a9 a10 a11 a12 a13 a14 a15 v
    a17 a18 a19 a20 a21 a22 a23 a24 a25.

Definition set_ErrorMessage (v : string) (db : DatabaseInstance) : DatabaseInstance :=
  let 'mkDatabaseInstance a1 a2 a3 a4 a5 a6 a7 a8 a9 a10 a11 a12 a13 a14 a15 a16
        a17 a18 _ a20 a21 a22 a23 a24 a25 := db in
  mkDatabaseInstance a1 a2 a3 a4 a5 a6 a7 a8 a9 a10 a11 a12 a13 a14 a15 a16
    a17 a18 v a20 a21 a22 a23 a24 a25.

(** [Backup]; its fields carry a [b] prefix where the name is already a
    field of [DatabaseInstance]. *)
Record Backup := mkBackup {
  bID : string;
  DatabaseID : string;
  DatabaseName : string;
  bCreatedAt : Z;
  Size : Z;
  bStatus : string;
  FilePath : string
}.

(** The state behind the [Storage] interface, as [BoltStorage] keeps it:
    one bucket per record kind, keyed by record ID, and the data
    directory.  The user, session and settings buckets play no part in
    the operations modelled here. *)
Record Store := mkStore {
  databases : gmap string DatabaseInstance;
  backups : gmap string Backup;
  dataDir : string
}.

Definition with_databases (m : gmap string DatabaseInstance) (s : Store) : Store :=
  mkStore m (backups s) (dataDir s).

Definition with_backups (m : gmap string Backup) (s : Store) : Store :=
  mkStore (databases s) m (dataDir s).

(** [BoltStorage.DataDir]. *)
Definition DataDir (s : Store) : string := dataDir s.

(** In every write operation below, [fault] stands for a transaction that
    bbolt could not commit: [db.Update] returns that error and rolls
    back.  [None] means the transaction goes through. *)

(** [BoltStorage.CreateDatabase]: an unconditional [Put]. *)
Definition CreateDatabase (fault : error) (db : DatabaseInstance) (s : Store)
  : Store * error :=
  match fault with
  | Some e => (s, Some e)
  | None => (with_databases (<[ID db := db]> (databases s)) s, None)
  end.

(** [BoltStorage.GetDatabase]. *)
Definition GetDatabase (id : string) (s : Store) : option DatabaseInstance * error :=
  match databases s !! id with
  | None => (None, Some ("database not found: " +:+ id))
  | Some db => (Some db, None)
  end.

(** [BoltStorage.ListDatabases]: every record of the bucket. *)
Definition ListDatabases (s : Store) : list DatabaseInstance :=
  (map_to_list (databases s)).*2.

(** [BoltStorage.UpdateDatabase]: fails on a key that is not present. *)
Definition UpdateDatabase (fault : error) (db : DatabaseInstance) (s : Store)
  : Store * error :=
  match fault with
  | Some e => (s, Some e)
  | None =>
      match databases s !! ID db with
      | None => (s, Some ("database not found: " +:+ ID db))
      | Some _ => (with_databases (<[ID db := db]> (databases s)) s, None)
      end
  end.

(** [BoltStorage.DeleteDatabase]: fails on a key that is not present. *)
Definition DeleteDatabase (fault : error) (id : string) (s : Store) : Store * error :=
  match fault with
  | Some e => (s, Some e)
  | None =>
      match databases s !! id with
      | None => (s, Some ("database not found: " +:+ id))
      | Some _ => (with_databases (delete id (databases s)) s, None)
      end
  end.

(** [BoltStorage.ListBackups]: all backups when [databaseID] is empty,
    else those of that database. *)
Definition ListBackups (databaseID : string) (s : Store) : list Backup :=
  filter (fun b => databaseID = "" ∨ DatabaseID b = databaseID)
         (map_to_list (backups s)).*2.

(** [BoltStorage.DeleteBackup]: fails on a key that is not present. *)
Definition DeleteBackup (fault : error) (id : string) (s : Store) : Store * error :=
  match fault with
  | Some e => (s, Some e)
  | None =>
      match backups s !! id with
      | None => (s, Some ("backup not found: " +:+ id))
      | Some _ => (with_backups (delete id (backups s)) s, None)
      end
  end.

End Storage.

(** ** Go library functions used by the CLI backend's parser *)

Module GoText.
Import GoStrings.

(** A string given by its bytes. *)
Definition bytes (l : list nat) : string :=
  string_of_list_ascii (List.map ascii_of_nat l).

(** The UTF-8 encodings of the runes for which [unicode.IsSpace] holds:
    tab, LF, VT, FF, CR, space, U+0085, U+00A0, U+1680, U+2000..U+200A,
    U+2028, U+2029, U+202F, U+205F, U+3000. *)
Definition spaceRunes : list string :=
  List.map bytes
    (List.app
       [[9]; [10]; [11]; [12]; [13]; [32]; [194; 133]; [194; 160]; [225; 154; 128]]
       (List.app
          (List.map (fun k => [226; 128; k]) (List.seq 128 11))
          [[226; 128; 168]; [226; 128; 169]; [226; 128; 175]; [226; 129; 159];
           [227; 128; 128]]))%nat.

(** [s[n:]]. *)
Fixpoint dropBytes (n : nat) (s : string) : string :=
  match n, s with
  | O, _ => s
  | S n', String _ s' => dropBytes n' s'
  | S _, EmptyString => EmptyString
  end.

Fixpoint revString (s acc : string) : string :=
  match s with
  | EmptyString => acc
  | String c s' => revString s' (String c acc)
  end.

(** Strip leading runes whose encoding is in [runes]. *)
Fixpoint trimLeft (runes : list string) (fuel : nat) (s : string) : string :=
  match fuel with
  | O => s
  | S fuel' =>
      match List.find (HasPrefix s) runes with
      | Some r => trimLeft runes fuel' (dropBytes (String.length r) s)
      | None => s
      end
  end.

(** [strings.TrimSpace]: leading and trailing white space removed. *)
Definition TrimSpace (s : string) : string :=
  let s1 := trimLeft spaceRunes (String.length s) s in
  let back := List.map (fun r => revString r "") spaceRunes in
  revString (trimLeft back (String.length s1) (revString s1 "")) "".

(** [strings.ToLower] on the ASCII letters; the strings it is applied to
    here consist of ASCII letters only. *)
Definition lowerByte (c : ascii) : ascii :=
  let n := nat_of_ascii c in
  if (65 <=? n)%nat && (n <=? 90)%nat then ascii_of_nat (n + 32) else c.

Fixpoint ToLower (s : string) : string :=
  match s with
  | EmptyString => EmptyString
  | String c s' => String (lowerByte c) (ToLower s')
  end.

(** The character classes of the regular expression in [parseBytes]. *)
Definition isDigit (c : ascii) : bool :=
  let n := nat_of_ascii c in (48 <=? n)%nat && (n <=? 57)%nat.

(** [[\d.]] *)
Definition isNumberByte (c : ascii) : bool := isDigit c || Ascii.eqb c "."%char.

(** [\s], which in Go's regexp syntax is [[\t\n\f\r ]]. *)
Definition isReSpace (c : ascii) : bool :=
  let n := nat_of_ascii c in
  (n =? 9)%nat || (n =? 10)%nat || (n =? 12)%nat || (n =? 13)%nat || (n =? 32)%nat.

(** [[A-Za-z]] *)
Definition isLetter (c : ascii) : bool :=
  let n := nat_of_ascii c in
  ((65 <=? n)%nat && (n <=? 90)%nat) || ((97 <=? n)%nat && (n <=? 122)%nat).

(** The longest prefix of [s] whose bytes satisfy [p], and the rest. *)
Fixpoint span (p : ascii -> bool) (s : string) : string * string :=
  match s with
  | EmptyString => (EmptyString, EmptyString)
  | String c s' =>
      if p c then let '(a, b) := span p s' in (String c a, b)
      else (EmptyString, s)
  end.

Fixpoint allBytes (p : ascii -> bool) (s : string) : bool :=
  match s with
  | EmptyString => true
  | String c s' => p c && allBytes p s'
  end.

(** [regexp.MustCompile(`^([\d.]+)\s*([A-Za-z]+)$`).FindStringSubmatch(s)]:
    the two groups when [s] matches, [None] for the [nil] result.  The
    three classes are pairwise disjoint, so a match splits [s] in exactly
    one way: the longest run of number bytes, the longest run of [\s],
    and letters up to the end. *)
Definition FindStringSubmatch (s : string) : option (string * string) :=
  let '(num, r1) := span isNumberByte s in
  let '(_, unit) := span isReSpace r1 in
  if String.eqb num "" then None
  else if String.eqb unit "" then None
  else if allBytes isLetter unit then Some (num, unit)
  else None.

(** [strconv.ParseFloat(s, 64)] on a string of digits and dots.  Such a
    string is well formed when it has at least one digit and at most one
    dot; its value is then [n / 10^d], [n] the digits read as an integer
    and [d] the number of digits after the dot. *)
Fixpoint readDecimal (s : string) (n d : Z) (sawdot sawdigits : bool)
  : option (Z * Z) :=
  match s with
  | EmptyString => if sawdigits then Some (n, d) else None
  | String c s' =>
      if Ascii.eqb c "."%char then
        if sawdot then None else readDecimal s' n d true sawdigits
      else if isDigit c then
        readDecimal s' (10 * n + (Z.of_nat (nat_of_ascii c) - 48))
                    (if sawdot then d + 1 else d) sawdot true
      else None
  end.

(** The integer part of [num / (den * 2^e)]. *)
Definition floorScaled (num den e : Z) : Z :=
  if 0 <=? e then num / (den * 2 ^ e) else (num * 2 ^ (- e)) / den.

(** The integer nearest to [num / (den * 2^e)], ties to the even one. *)
Definition roundHalfEven (num den e : Z) : Z :=
  let num' := if 0 <=? e then num else num * 2 ^ (- e) in
  let den' := if 0 <=? e then den * 2 ^ e else den in
  let q := num' / den' in
  let r := num' mod den' in
  if 2 * r <? den' then q
  else if den' <? 2 * r then q + 1
  else if Z.even q then q else q + 1.

(** The binary64 number nearest to [n / 10^d] (round to nearest, ties to
    even), as mantissa and exponent: the value is [m * 2^e] with
    [m < 2^53] and [-1074 <= e <= 971].  [None] when the rounded value is
    beyond the largest finite binary64 number, where [ParseFloat] returns
    an [ErrRange] error. *)
Definition nearestBinary64 (n d : Z) : option (Z * Z) :=
  if n =? 0 then Some (0, 0)
  else
    let den := 10 ^ d in
    let e1 := Z.log2 n - Z.log2 den - 52 in
    let e2 := if floorScaled n den e1 <? 2 ^ 52 then e1 - 1 else e1 in
    let e := Z.max e2 (- 1074) in
    let m := roundHalfEven n den e in
    let '(m, e) := if m =? 2 ^ 53 then (2 ^ 52, e + 1) else (m, e) in
    if 971 <? e then None else Some (m, e).

(** The float64 with value [m * 2^e]. *)
Definition float_of_binary (m e : Z) : float :=
  match m with
  | Zpos p => SF2Prim (S754_finite false p e)
  | _ => 0%float
  end.

(** [strconv.ParseFloat(s, 64)] for [s] made of digits and dots: the
    value, or [None] when it returns an error. *)
Definition ParseFloat (s : string) : option float :=
  match readDecimal s 0 0 false false with
  | None => None
  | Some (n, d) =>
      match nearestBinary64 n d with
      | None => None
      | Some (m, e) => Some (float_of_binary m e)
      end
  end.

(** The conversion [int64(f)]: the fraction is discarded.  When the
    result does not fit 64 bits, or [f] is not finite, the Go
    specification leaves the value to the implementation: [undef]. *)
Definition int64_of_float (undef : Z) (f : float) : Z :=
  match Prim2SF f with
  | S754_zero _ => 0
  | S754_finite sign m e =>
      let mag := if 0 <=? e then Zpos m * 2 ^ e else Zpos m / 2 ^ (- e) in
      let v := if sign then - mag else mag in
      if (- 2 ^ 63 <=? v) && (v <? 2 ^ 63) then v else undef
  | _ => undef
  end.

(** [fmt.Sprintf("%d", n)]. *)
Definition Sprintf_d (n : Z) : string := pretty n.

(** [fmt.Sprintf("%.2f", f)]: [f] rounded to two decimals, ties to
    even. *)
Definition Sprintf_2f (f : float) : string :=
  match Prim2SF f with
  | S754_nan => "NaN"
  | S754_infinity false => "+Inf"
  | S754_infinity true => "-Inf"
  | S754_zero sign => (if sign then "-" else "") +:+ "0.00"
  | S754_finite sign m e =>
      let r := roundHalfEven (100 * Zpos m) 1 (- e) in
      (if sign then "-" else "") +:+ pretty (r / 100) +:+ "." +:+
      (if r mod 100 <? 10 then "0" else "") +:+ pretty (r mod 100)
  end.

End GoText.

(** ** pkg/runtime/types *)

Module RuntimeTypes.

(** [ContainerConfig].  The three [map[string]string] fields are finite
    maps. *)
Record ContainerConfig := mkContainerConfig {
  Name : string;
  Image : string;
  Cmd : list string;
  Env : list string;
  PortBindings : gmap string string;
  Volumes : gmap string string;
  MemoryLimit : Z;
  CPULimit : float;
  Labels : gmap string string;
  Network : string;
  ExposePort : bool
}.

Definition set_Network (v : string) (cfg : ContainerConfig) : ContainerConfig :=
  mkContainerConfig (Name cfg) (Image cfg) (Cmd cfg) (Env cfg) (PortBindings cfg)
    (Volumes cfg) (MemoryLimit cfg) (CPULimit cfg) (Labels cfg) v (ExposePort cfg).

Definition set_ExposePort (v : bool) (cfg : ContainerConfig) : ContainerConfig :=
  mkContainerConfig (Name cfg) (Image cfg) (Cmd cfg) (Env cfg) (PortBindings cfg)
    (Volumes cfg) (MemoryLimit cfg) (CPULimit cfg) (Labels cfg) (Network cfg) v.

(** What the Go implementation decides and the sources leave open: the
    order in which a [range] loop visits a map, and the result of an
    [int64] conversion that does not fit. *)
Record GoImpl := mkGoImpl {
  rangeOrder : gmap string string -> list (string * string);
  int64_undef : Z
}.

(** One such implementation: maps are visited in the order of
    [map_to_list], and a conversion that does not fit yields the smallest
    [int64], as on amd64. *)
Definition goAmd64 : GoImpl := mkGoImpl map_to_list (- 2 ^ 63).

(** Two configurations that differ at most in [Network] and
    [ExposePort]. *)
Definition sameButNetworkAndExposePort (a b : ContainerConfig) : Prop :=
  Name a = Name b ∧ Image a = Image b ∧ Cmd a = Cmd b ∧ Env a = Env b ∧
  PortBindings a = PortBindings b ∧ Volumes a = Volumes b ∧
  MemoryLimit a = MemoryLimit b ∧ CPULimit a = CPULimit b ∧ Labels a = Labels b.

End RuntimeTypes.

(** ** pkg/runtime/cli *)

Module Cli.
Import GoStrings GoText RuntimeTypes.

(** [cli.Client]. *)
Record Client := mkClient {
  binary : string;
  network : string
}.

(** The multiplier [parseBytes] picks for a lower-cased unit: the
    [switch] has no [default], so any other unit leaves the initial
    value 1. *)
Definition unitMultiplier (unit : string) : float :=
  if String.eqb unit "b" then 1
  else if String.eqb unit "kb" || String.eqb unit "kib" then 1024
  else if String.eqb unit "mb" || String.eqb unit "mib" then 1024 * 1024
  else if String.eqb unit "gb" || String.eqb unit "gib" then 1024 * 1024 * 1024
  else if String.eqb unit "tb" || String.eqb unit "tib"
  then 1024 * 1024 * 1024 * 1024
  else 1.

(** [parseBytes]. *)
Definition parseBytes (go : GoImpl) (s : string) : Z :=
  let s := TrimSpace s in
  if String.eqb s "" || String.eqb s "--" then 0
  else
    match FindStringSubmatch s with
    | None => 0
    | Some (number, unit) =>
        match ParseFloat number with
        | None => 0
        | Some value =>
            let unit := ToLower unit in
            let multiplier := unitMultiplier unit in
            int64_of_float (int64_undef go) (value * multiplier)
        end
    end.

(** The argument vector [CreateContainer] hands to [runCommand]. *)
Definition CreateContainerArgs (go : GoImpl) (c : Client) (cfg : ContainerConfig)
  : list string :=
  let args := ["create"; "--name"; Name cfg] in
  let args := (args ++ ["--network"; network c]) in
  let args := foldl (fun args env => (args ++ ["-e"; env])) args (Env cfg) in
  let args :=
    foldl (fun args '(containerPort, hostPort) =>
             (args ++ ["-p"; hostPort +:+ ":" +:+ containerPort]))
          args (rangeOrder go (PortBindings cfg)) in
  let args :=
    foldl (fun args '(hostPath, containerPath) =>
             (args ++ ["-v"; hostPath +:+ ":" +:+ containerPath]))
          args (rangeOrder go (Volumes cfg)) in
  let args :=
    if 0 <? MemoryLimit cfg
    then (args ++ ["--memory"; Sprintf_d (MemoryLimit cfg)]) else args in
  let args :=
    if (0 <? CPULimit cfg)%float
    then (args ++ ["--cpus"; Sprintf_2f (CPULimit cfg)]) else args in
  let args :=
    foldl (fun args '(k, v) => (args ++ ["--label"; k +:+ "=" +:+ v]))
          args (rangeOrder go (Labels cfg)) in
  let args := (args ++ ["--restart"; "unless-stopped"]) in
  let args := (args ++ [Image cfg]) in
  if (0 <? Z.of_nat (length (Cmd cfg))) then (args ++ Cmd cfg) else args.

(** [Client.CreateContainer]: [run] is [runCommand], the subprocess. *)
Definition CreateContainer (go : GoImpl) (run : list string -> string * error)
  (c : Client) (cfg : ContainerConfig) : string * error :=
  match run (CreateContainerArgs go c cfg) with
  | (_, Some err) => ("", Some err)
  | (containerID, None) => (containerID, None)
  end.

End Cli.

(** ** pkg/runtime/docker: container creation *)

Module Docker.
Import GoStrings GoText RuntimeTypes.

(** [docker.Client]; the SDK handle [cli] is the [create] oracle below. *)
Record Client := mkClient {
  network : string
}.

(** [nat.PortBinding]. *)
Record PortBinding := mkPortBinding {
  HostIP : string;
  HostPort : string
}.

(** [mount.Mount], with [mount.TypeBind = "bind"] and
    [mount.TypeVolume = "volume"]. *)
Record Mount := mkMount {
  Type_ : string;
  Source : string;
  Target : string
}.

(** The fields of [container.Config] the backend fills in. *)
Record Config := mkConfig {
  cImage : string;
  cCmd : list string;
  cEnv : list string;
  ExposedPorts : gset string;
  cLabels : gmap string string
}.

(** The fields of [container.HostConfig] the backend fills in; [Memory]
    and [NanoCPUs] keep their zero value unless assigned. *)
Record HostConfig := mkHostConfig {
  hPortBindings : gmap string (list PortBinding);
  Mounts : list Mount;
  NetworkMode : string;
  RestartPolicy : string;
  Memory : Z;
  NanoCPUs : Z
}.

(** The arguments of [cli.ContainerCreate]: config, host config and the
    container name (the networking config and platform are [nil]). *)
Record CreateRequest := mkCreateRequest {
  config : Config;
  hostConfig : HostConfig;
  containerName : string
}.

(** The request [CreateContainer] builds. *)
Definition CreateContainerRequest (go : GoImpl) (c : Client) (cfg : ContainerConfig)
  : CreateRequest :=
  let '(exposedPorts, portBindings) :=
    foldl (fun '(exposedPorts, portBindings) '(containerPort, hostPort) =>
             (({[containerPort]} ∪ exposedPorts) : gset string,
              <[containerPort := [mkPortBinding "0.0.0.0" hostPort]]> portBindings))
          (∅, ∅) (rangeOrder go (PortBindings cfg)) in
  let mounts :=
    foldl (fun mounts '(source, containerPath) =>
             let mountType :=
               if negb (HasPrefix source "/") && negb (HasPrefix source ".")
               then "volume" else "bind" in
             (mounts ++ [mkMount mountType source containerPath]))
          [] (rangeOrder go (Volumes cfg)) in
  let containerCfg :=
    mkConfig (Image cfg) (Cmd cfg) (Env cfg) exposedPorts (Labels cfg) in
  let memory := if 0 <? MemoryLimit cfg then MemoryLimit cfg else 0 in
  let nanoCPUs :=
    if (0 <? CPULimit cfg)%float
    then int64_of_float (int64_undef go) (CPULimit cfg * 1e9) else 0 in
  let hostCfg :=
    mkHostConfig portBindings mounts (network c) "unless-stopped" memory nanoCPUs in
  mkCreateRequest containerCfg hostCfg (Name cfg).

(** [Client.CreateContainer]: [create] is the SDK's [ContainerCreate],
    answering with the new container's ID or an error. *)
Definition CreateContainer (go : GoImpl) (create : CreateRequest -> string * error)
  (c : Client) (cfg : ContainerConfig) : string * error :=
  match create (CreateContainerRequest go c cfg) with
  | (_, Some err) => ("", Some ("failed to create container: " +:+ err))
  | (id, None) => (id, None)
  end.

End Docker.


(** ** pkg/database: the manager *)

Module Database.
Import GoStrings RuntimeTypes.

(** The part of the [Engine] interface that provisioning uses. *)
Record Engine := mkEngine {
  Type_ : string;
  Image : string;
  DefaultPort : Z;
  DataPath : string;
  EnvVars : string -> string -> string -> list string;
  ContainerCmd : string -> list string
}.

(** The [runtime.Client] interface, as far as the manager calls it: what
    the container runtime answers to each call. *)
Record Client := mkClient {
  PullImage : string -> error;
  CreateContainer : ContainerConfig -> string * error;
  StartContainer : string -> error;
  RemoveContainer : string -> bool -> error;
  GetContainerStatus : string -> string * error;
  UpdateContainerResources : string -> Z -> float -> error;
  DeleteVolume : string -> error
}.

(** A write operation on the store, for [storeFault] below. *)
Inductive StoreOp :=
| OpCreateDatabase (id : string)
| OpUpdateDatabase (id : string)
| OpDeleteDatabase (id : string)
| OpDeleteBackup (id : string).

(** The rest of the world the manager depends on: the operating system
    ([net.Listen], [filepath.Abs], [filepath.Join], [os.MkdirAll],
    [os.RemoveAll]), the UUID generator, the clock and the store's
    transaction failures. *)
Record Host := mkHost {
  netListen : Z -> error;
  filepathAbs : string -> string * error;
  filepathJoin : list string -> string;
  osMkdirAll : string -> error;
  osRemoveAll : string -> error;
  uuidForPassword : string;
  uuidForID : string;
  timeNow : Z;
  storeFault : StoreOp -> error
}.

(** A call that leaves the process, as recorded in the call log. *)
Inductive Call :=
| CallPullImage (image : string)
| CallCreateContainer (cfg : ContainerConfig)
| CallStartContainer (id : string)
| CallRemoveContainer (id : string) (force : bool)
| CallGetContainerStatus (id : string)
| CallUpdateContainerResources (id : string) (memoryLimit : Z) (cpuLimit : float)
| CallDeleteVolume (name : string)
| CallListen (port : Z)
| CallMkdirAll (path : string)
| CallRemoveAll (path : string).

(** A goroutine started with [go] and not yet run. *)
Inductive Goroutine :=
| GoProvision (db : Storage.DatabaseInstance) (imageName dataDir : string)
    (port : Z) (engine : Engine) (seedSource seedContent : string)
| GoApplySeed (db : Storage.DatabaseInstance) (source content : string).

(** The state the manager works on: the store, the log of outside calls
    (oldest first) and the goroutines started so far. *)
Record World := mkWorld {
  store : Storage.Store;
  calls : list Call;
  goroutines : list Goroutine
}.

(** A manager operation either returns a value in a new state or
    panics. *)
Inductive Result (A : Type) :=
| Return (a : A) (w : World)
| Panic (w : World).
Arguments Return {A} a w.
Arguments Panic {A} w.

Definition M (A : Type) : Type := World -> Result A.

#[export] Instance M_ret : MRet M := fun A a w => Return a w.

#[export] Instance M_bind : MBind M := fun A B f m w =>
  match m w with
  | Return a w' => f a w'
  | Panic w' => Panic w'
  end.

Definition getStore : M Storage.Store := fun w => Return (store w) w.

Definition putStore (s : Storage.Store) : M unit :=
  fun w => Return tt (mkWorld s (calls w) (goroutines w)).

(** Record an outside call. *)
Definition logCall (c : Call) : M unit :=
  fun w => Return tt (mkWorld (store w) (calls w ++ [c]) (goroutines w)).

(** The [go] statement. *)
Definition spawn (g : Goroutine) : M unit :=
  fun w => Return tt (mkWorld (store w) (calls w) (goroutines w ++ [g])).

Definition panic {A : Type} : M A := fun w => Panic w.

(** The slice expression [s[:n]], which panics when [s] is shorter than
    [n] bytes. *)
Definition sliceTo (n : nat) (s : string) : M string :=
  if (String.length s <? n)%nat then panic else mret (substring 0 n s).

Section Manager.
Context (client : Client) (host : Host) (engines : gmap string Engine).

(** *** Calls through the runtime client and the operating system *)

Definition callPullImage (image : string) : M error :=
  logCall (CallPullImage image);; mret (PullImage client image).

Definition callCreateContainer (cfg : ContainerConfig) : M (string * error) :=
  logCall (CallCreateContainer cfg);; mret (CreateContainer client cfg).

Definition callStartContainer (id : string) : M error :=
  logCall (CallStartContainer id);; mret (StartContainer client id).

Definition callRemoveContainer (id : string) (force : bool) : M error :=
  logCall (CallRemoveContainer id force);; mret (RemoveContainer client id force).

Definition callGetContainerStatus (id : string) : M (string * error) :=
  logCall (CallGetContainerStatus id);; mret (GetContainerStatus client id).

Definition callDeleteVolume (name : string) : M error :=
  logCall (CallDeleteVolume name);; mret (DeleteVolume client name).

Definition callMkdirAll (path : string) : M error :=
  logCall (CallMkdirAll path);; mret (osMkdirAll host path).

Definition callRemoveAll (path : string) : M error :=
  logCall (CallRemoveAll path);; mret (osRemoveAll host path).

(** *** Calls on the store *)

Definition storeCreateDatabase (db : Storage.DatabaseInstance) : M error :=
  s ← getStore;
  let '(s', err) :=
    Storage.CreateDatabase (storeFault host (OpCreateDatabase (Storage.ID db))) db s in
  putStore s';; mret err.

Definition storeUpdateDatabase (db : Storage.DatabaseInstance) : M error :=
  s ← getStore;
  let '(s', err) :=
    Storage.UpdateDatabase (storeFault host (OpUpdateDatabase (Storage.ID db))) db s in
  putStore s';; mret err.

Definition storeDeleteDatabase (id : string) : M error :=
  s ← getStore;
  let '(s', err) := Storage.DeleteDatabase (storeFault host (OpDeleteDatabase id)) id s in
  putStore s';; mret err.

Definition storeDeleteBackup (id : string) : M error :=
  s ← getStore;
  let '(s', err) := Storage.DeleteBackup (storeFault host (OpDeleteBackup id)) id s in
  putStore s';; mret err.

Definition storeGetDatabase (id : string) : M (option Storage.DatabaseInstance * error) :=
  s ← getStore; mret (Storage.GetDatabase id s).

(** [GetEngine]. *)
Definition GetEngine (engineType : string) : option Engine * error :=
  match engines !! engineType with
  | None => (None, Some ("unknown engine type: " +:+ engineType))
  | Some engine => (Some engine, None)
  end.

(** *** Port allocation *)

(** [isPortAvailable]: can a TCP listener be opened on the port? *)
Definition isPortAvailable (port : Z) : M bool :=
  logCall (CallListen port);;
  mret (match netListen host port with None => true | Some _ => false end).

(** The loop of [findAvailablePortLocked], with [n] iterations left. *)
Fixpoint portLoop (usedPorts : gset Z) (startPort : Z) (n : nat) (port : Z) : M Z :=
  match n with
  | O => mret port
  | S n' =>
      if bool_decide (port ∈ usedPorts) then
        portLoop usedPorts startPort n' (wrap64 (port + 1))
      else
        available ← isPortAvailable port;
        if available : bool then mret port
        else
          let port := wrap64 (port + 1) in
          let port := if 65535 <? port then startPort else port in
          portLoop usedPorts startPort n' port
  end.

Definition maxAttempts : nat := 1000.

(** [Manager.findAvailablePortLocked]. *)
Definition findAvailablePortLocked (startPort : Z) : M Z :=
  s ← getStore;
  let usedPorts : gset Z := list_to_set (Storage.Port <$> Storage.ListDatabases s) in
  portLoop usedPorts startPort maxAttempts startPort.

(** *** Creation *)

(** [CreateRequest]; [ExposePort] is a [*bool]. *)
Record CreateRequest := mkCreateRequest {
  rName : string;
  rEngine : string;
  rVersion : string;
  rUsername : string;
  rPassword : string;
  rDatabase : string;
  rPort : Z;
  rStorageLimit : Z;
  rMemoryLimit : Z;
  rNetwork : string;
  rExposePort : option bool;
  rRestoreFromBackupID : string;
  rSeedSource : string;
  rSeedContent : string
}.

Definition set_rPassword (v : string) (req : CreateRequest) : CreateRequest :=
  mkCreateRequest (rName req) (rEngine req) (rVersion req) (rUsername req) v
    (rDatabase req) (rPort req) (rStorageLimit req) (rMemoryLimit req)
    (rNetwork req) (rExposePort req) (rRestoreFromBackupID req)
    (rSeedSource req) (rSeedContent req).

(** [Manager.createDedicatedDatabase].  The port lock is held from the
    port selection to the store write; this sequential model runs the
    whole function as one step. *)
Definition createDedicatedDatabase (req : CreateRequest)
  : M (option Storage.DatabaseInstance * error) :=
  match GetEngine (rEngine req) with
  | (None, _) | (_, Some _) => mret (None, Some ("unsupported engine: " +:+ rEngine req))
  | (Some engine, None) =>
      let id := "db-" +:+ substring 0 8 (uuidForID host) in
      port ← (if rPort req =? 0 then findAvailablePortLocked (DefaultPort engine)
              else mret (rPort req));
      s ← getStore;
      match filepathAbs host (Storage.DataDir s) with
      | (_, Some err) => mret (None, Some ("failed to resolve data directory: " +:+ err))
      | (baseDataDir, None) =>
          let dataDir := filepathJoin host [baseDataDir; "databases"; id] in
          mkdirErr ← callMkdirAll dataDir;
          match mkdirErr with
          | Some err => mret (None, Some ("failed to create data directory: " +:+ err))
          | None =>
              let imageName :=
                if negb (String.eqb (rVersion req) "")
                then Image engine +:+ ":" +:+ rVersion req else Image engine in
              let db :=
                Storage.mkDatabaseInstance
                  id (rName req) (rEngine req) (rVersion req) "creating" "localhost"
                  port (rUsername req) (rPassword req) (rDatabase req) ""
                  (timeNow host) 0
                  (wrap64 (wrap64 (rStorageLimit req * 1024) * 1024))
                  (wrap64 (wrap64 (rMemoryLimit req * 1024) * 1024))
                  1%float 0 100 ""
                  (match rExposePort req with None => true | Some b => b end)
                  (rNetwork req) false "" 0 None in
              saveErr ← storeCreateDatabase db;
              match saveErr with
              | Some err => mret (None, Some ("failed to save database: " +:+ err))
              | None =>
                  spawn (GoProvision db imageName dataDir port engine
                           (rSeedSource req) (rSeedContent req));;
                  mret (Some db, None)
              end
          end
      end
  end.

(** [Manager.Create]. *)
Definition Create (req : CreateRequest) : M (option Storage.DatabaseInstance * error) :=
  let req :=
    if String.eqb (rPassword req) ""
    then set_rPassword (substring 0 16 (uuidForPassword host)) req else req in
  createDedicatedDatabase req.

(** The [ContainerConfig] that provisioning builds. *)
Definition containerConfig (db : Storage.DatabaseInstance) (imageName : string)
  (port : Z) (engine : Engine) : ContainerConfig :=
  mkContainerConfig
    ("dbnest-" +:+ Storage.ID db)
    imageName
    (ContainerCmd engine (Storage.Password db))
    (EnvVars engine (Storage.Username db) (Storage.Password db) (Storage.Database db))
    {[ GoText.Sprintf_d (DefaultPort engine) +:+ "/tcp" := GoText.Sprintf_d port ]}
    {[ "dbnest-vol-" +:+ Storage.ID db := DataPath engine ]}
    (Storage.MemoryLimit db)
    (Storage.CPULimit db)
    (<["dbnest.managed" := "true"]> {[ "dbnest.id" := Storage.ID db ]})
    (Storage.Network db)
    (Storage.ExposePort db).

(** [Manager.provisionDedicatedDatabase], the body of the goroutine that
    [createDedicatedDatabase] starts.  The result of every
    [UpdateDatabase] is dropped, as in the source. *)
Definition provisionDedicatedDatabase (db : Storage.DatabaseInstance)
  (imageName dataDir : string) (port : Z) (engine : Engine)
  (seedSource seedContent : string) : M unit :=
  pullErr ← callPullImage imageName;
  match pullErr with
  | Some err =>
      let db := Storage.set_Status "error" db in
      let db := Storage.set_ErrorMessage ("Failed to pull image: " +:+ err) db in
      storeUpdateDatabase db;; mret tt
  | None =>
      let containerCfg := containerConfig db imageName port engine in
      '(containerID, createErr) ← callCreateContainer containerCfg;
      match createErr with
      | Some err =>
          let db := Storage.set_Status "error" db in
          let db := Storage.set_ErrorMessage ("Failed to create container: " +:+ err) db in
          storeUpdateDatabase db;; mret tt
      | None =>
          let db := Storage.set_ContainerID containerID db in
          sliceTo 12 containerID;;
          startErr ← callStartContainer containerID;
          match startErr with
          | Some err =>
              let db := Storage.set_Status "error" db in
              let db :=
                Storage.set_ErrorMessage ("Failed to start container: " +:+ err) db in
              storeUpdateDatabase db;; mret tt
          | None =>
              let db := Storage.set_Status "running" db in
              let db := Storage.set_ErrorMessage "" db in
              storeUpdateDatabase db;;
              if negb (String.eqb seedSource "") && negb (String.eqb seedSource "none")
              then spawn (GoApplySeed db seedSource seedContent)
              else mret tt
          end
      end
  end.

(** *** Reconciliation *)

(** [Manager.syncStatus]. *)
Definition syncStatus (db : Storage.DatabaseInstance) : M unit :=
  if String.eqb (Storage.ContainerID db) "" || String.eqb (Storage.Status db) "creating"
  then mret tt
  else
    '(actualStatus, err) ← callGetContainerStatus (Storage.ContainerID db);
    match err with
    | Some _ =>
        if String.eqb (Storage.Status db) "running" then
          let db := Storage.set_Status "error" db in
          let db := Storage.set_ErrorMessage "Container not accessible" db in
          storeUpdateDatabase db;; mret tt
        else mret tt
    | None =>
        if negb (String.eqb actualStatus (Storage.Status db)) then
          let db := Storage.set_Status actualStatus db in
          let db :=
            if String.eqb actualStatus "running"
            then Storage.set_ErrorMessage "" db else db in
          storeUpdateDatabase db;; mret tt
        else mret tt
    end.

(** A [for ... range] loop over a slice. *)
Fixpoint forEach {A : Type} (body : A -> M unit) (xs : list A) : M unit :=
  match xs with
  | [] => mret tt
  | x :: xs' => body x;; forEach body xs'
  end.

(** [Manager.SyncAllStatuses]. *)
Definition SyncAllStatuses : M unit :=
  s ← getStore;
  forEach syncStatus (Storage.ListDatabases s).

(** *** Deletion *)

(** [Manager.Delete]. *)
Definition Delete (id : string) : M error :=
  '(found, err) ← storeGetDatabase id;
  match found, err with
  | None, _ | _, Some _ => mret err
  | Some db, None =>
      (if negb (String.eqb (Storage.ContainerID db) "")
       then callRemoveContainer (Storage.ContainerID db) true;; mret tt
       else mret tt);;
      let volumeName := "dbnest-vol-" +:+ id in
      callDeleteVolume volumeName;;
      s ← getStore;
      let '(baseDataDir, _) := filepathAbs host (Storage.DataDir s) in
      let dataDir := filepathJoin host [baseDataDir; "databases"; id] in
      callRemoveAll dataDir;;
      storeDeleteDatabase id
  end.

(** *** Resource limits *)

(** [Manager.UpdateResources]. *)
Definition UpdateResources (id : string) (memoryLimit : Z) (cpuLimit : float)
  : M (option Storage.DatabaseInstance * error) :=
  '(found, err) ← storeGetDatabase id;
  match found, err with
  | None, _ | _, Some _ => mret (None, err)
  | Some db, None =>
      let db := if 0 <? memoryLimit then Storage.set_MemoryLimit memoryLimit db else db in
      let db := if (0 <? cpuLimit)%float then Storage.set_CPULimit cpuLimit db else db in
      updErr ← storeUpdateDatabase db;
      match updErr with
      | Some e => mret (None, Some e)
      | None => mret (Some db, None)
      end
  end.

(** *** Running a goroutine *)

(** The body of a started goroutine.  Seeding ([applySeed]) is not
    modelled: it touches neither the store nor the container
    lifecycle. *)
Definition runGoroutine (g : Goroutine) : M unit :=
  match g with
  | GoProvision db imageName dataDir port engine seedSource seedContent =>
      provisionDedicatedDatabase db imageName dataDir port engine seedSource seedContent
  | GoApplySeed _ _ _ => mret tt
  end.

End Manager.

End Database.

(** ** pkg/scheduler: retention *)

Module Scheduler.
Import Database.

(** The comparison [applyRetention] hands to [sort.Slice]:
    [backups[i].CreatedAt.After(backups[j].CreatedAt)]. *)
Definition createdAfter (a b : Storage.Backup) : bool :=
  Storage.bCreatedAt b <? Storage.bCreatedAt a.

(** [Scheduler.applyRetention].  [sortSlice] is [sort.Slice], which is
    not stable: the order it leaves between backups of equal creation
    time is its own choice. *)
Definition applyRetention (host : Host)
  (sortSlice : (Storage.Backup -> Storage.Backup -> bool) ->
               list Storage.Backup -> list Storage.Backup)
  (databaseID : string) : M unit :=
  '(found, err) ← storeGetDatabase databaseID;
  match found, err with
  | None, _ | _, Some _ => mret tt
  | Some db, None =>
      if Storage.BackupRetentionCount db <=? 0 then mret tt
      else
        s ← getStore;
        let backups := Storage.ListBackups databaseID s in
        if Z.of_nat (length backups) <=? Storage.BackupRetentionCount db then mret tt
        else
          let backups := sortSlice createdAfter backups in
          forEach (fun backup => storeDeleteBackup host (Storage.bID backup);; mret tt)
                  (drop (Z.to_nat (Storage.BackupRetentionCount db)) backups)
  end.

(** A sort by straight insertion, one admissible [sort.Slice]. *)
Fixpoint insertBy {A : Type} (less : A -> A -> bool) (x : A) (xs : list A) : list A :=
  match xs with
  | [] => [x]
  | y :: ys => if less y x then y :: insertBy less x ys else x :: y :: ys
  end.

Fixpoint insertionSort {A : Type} (less : A -> A -> bool) (xs : list A) : list A :=
  match xs with
  | [] => []
  | x :: xs' => insertBy less x (insertionSort less xs')
  end.

End Scheduler.

(** ** Vocabulary of the statements *)

Module Props.
Import Database.

(** The four canonical statuses. *)
Definition canonical (status : string) : Prop :=
  status = "running" ∨ status = "stopped" ∨ status = "creating" ∨ status = "error".

(** The native states of the daemon-based backend that the status table
    names, and the state each shows to [ContainerInspect]: the flag of
    that name is set and no other; an exited container has no flag
    set. *)
Inductive DaemonNative :=
| NativeRunning
| NativePaused
| NativeExited
| NativeDead
| NativeRestarting
| NativeNotFound.

Definition inspect (n : DaemonNative) : DockerStatus.InspectResult :=
  let st r p s d := DockerStatus.Inspected (DockerStatus.Build_State r p s false d) in
  match n with
  | NativeRunning => st true false false false
  | NativePaused => st false true false false
  | NativeExited => st false false false false
  | NativeDead => st false false false true
  | NativeRestarting => st false false true false
  | NativeNotFound => DockerStatus.NotFound "No such container"
  end.

(** The status table as the claim words it for the daemon-based backend:
    paused, exited and dead map to stopped. *)
Definition tableDaemon (n : DaemonNative) : string :=
  match n with
  | NativeRunning => "running"
  | NativePaused | NativeExited | NativeDead => "stopped"
  | NativeRestarting => "creating"
  | NativeNotFound => "error"
  end.

(** An image reference is fully qualified when it has a slash and its
    first path segment contains a dot. *)
Definition qualified (name : string) : bool :=
  GoStrings.Contains name "/"
  && GoStrings.Contains (GoStrings.first (GoStrings.Split name "/"%char)) ".".

(** The first byte of [s], if any, is not in the class [p]. *)
Definition stopsAt (p : ascii -> bool) (s : string) : Prop :=
  match s with
  | EmptyString => True
  | String c _ => p c = false
  end.

(** One step of the loop in which the daemon-based backend builds its two
    port maps from a port binding. *)
Definition portStep (acc : gset string * gmap string (list Docker.PortBinding))
  (binding : string * string) : gset string * gmap string (list Docker.PortBinding) :=
  let '(exposedPorts, portBindings) := acc in
  let '(containerPort, hostPort) := binding in
  ({[containerPort]} ∪ exposedPorts,
   <[containerPort := [Docker.mkPortBinding "0.0.0.0" hostPort]]> portBindings).

(** The units [parseBytes] recognises, lower-cased. *)
Definition recognizedUnits : list string :=
  ["b"; "kb"; "kib"; "mb"; "mib"; "gb"; "gib"; "tb"; "tib"].

(** The records of the store are keyed by their own identifier. *)
Definition keyedByID (s : Storage.Store) : Prop :=
  (∀ k db, Storage.databases s !! k = Some db → Storage.ID db = k) ∧
  (∀ k b, Storage.backups s !! k = Some b → Storage.bID b = k).

(** Two instance records that differ at most in [MemoryLimit] and
    [CPULimit]. *)
Definition sameButLimits (a b : Storage.DatabaseInstance) : Prop :=
  Storage.ID a = Storage.ID b ∧ Storage.Name a = Storage.Name b ∧
  Storage.Engine a = Storage.Engine b ∧ Storage.Version a = Storage.Version b ∧
  Storage.Status a = Storage.Status b ∧ Storage.Host a = Storage.Host b ∧
  Storage.Port a = Storage.Port b ∧ Storage.Username a = Storage.Username b ∧
  Storage.Password a = Storage.Password b ∧ Storage.Database a = Storage.Database b ∧
  Storage.ContainerID a = Storage.ContainerID b ∧
  Storage.CreatedAt a = Storage.CreatedAt b ∧
  Storage.StorageUsed a = Storage.StorageUsed b ∧
  Storage.StorageLimit a = Storage.StorageLimit b ∧
  Storage.Connections a = Storage.Connections b ∧
  Storage.MaxConnections a = Storage.MaxConnections b ∧
  Storage.ErrorMessage a = Storage.ErrorMessage b ∧
  Storage.ExposePort a = Storage.ExposePort b ∧
  Storage.Network a = Storage.Network b ∧
  Storage.BackupEnabled a = Storage.BackupEnabled b ∧
  Storage.BackupSchedule a = Storage.BackupSchedule b ∧
  Storage.BackupRetentionCount a = Storage.BackupRetentionCount b ∧
  Storage.LastBackupAt a = Storage.LastBackupAt b.

(** Two instance records that differ at most in [Status] and
    [ErrorMessage]. *)
Definition sameButStatusAndError (a b : Storage.DatabaseInstance) : Prop :=
  Storage.set_Status "" (Storage.set_ErrorMessage "" a)
  = Storage.set_Status "" (Storage.set_ErrorMessage "" b).

(** Two instance records that differ at most in [Status], [ErrorMessage]
    and [ContainerID]. *)
Definition sameButProvisioning (a b : Storage.DatabaseInstance) : Prop :=
  Storage.set_ContainerID "" (Storage.set_Status "" (Storage.set_ErrorMessage "" a))
  = Storage.set_ContainerID "" (Storage.set_Status "" (Storage.set_ErrorMessage "" b)).

(** The outside calls of one [Delete] of the instance [db], in order. *)
Definition teardown (host : Host) (s : Storage.Store) (id : string)
  (db : Storage.DatabaseInstance) : list Call :=
  (if String.eqb (Storage.ContainerID db) "" then []
   else [CallRemoveContainer (Storage.ContainerID db) true])
  ++ [CallDeleteVolume ("dbnest-vol-" +:+ id);
      CallRemoveAll
        (filepathJoin host [(filepathAbs host (Storage.DataDir s)).1; "databases"; id])].

(** The record a reconciliation pass leaves for the instance [db], given
    the runtime's answer to the status query. *)
Definition reconciled (answer : string * error) (db : Storage.DatabaseInstance)
  : Storage.DatabaseInstance :=
  match answer with
  | (_, Some _) =>
      if String.eqb (Storage.Status db) "running"
      then Storage.set_ErrorMessage "Container not accessible"
             (Storage.set_Status "error" db)
      else db
  | (actualStatus, None) =>
      if String.eqb actualStatus (Storage.Status db) then db
      else if String.eqb actualStatus "running"
           then Storage.set_ErrorMessage "" (Storage.set_Status actualStatus db)
           else Storage.set_Status actualStatus db
  end.

(** The ports recorded on the instances of the store. *)
Definition usedPorts (s : Storage.Store) : gset Z :=
  list_to_set (Storage.Port <$> Storage.ListDatabases s).

(** A port the allocation loop accepts: no instance records it and a
    listener can be opened on it. *)
Definition free (host : Host) (used : gset Z) (port : Z) : bool :=
  bool_decide (port ∉ used)
  && match netListen host port with None => true | Some _ => false end.

(** The candidate the loop moves to from [port] when [port] is not
    accepted. *)
Definition nextCandidate (used : gset Z) (startPort port : Z) : Z :=
  if bool_decide (port ∈ used) then wrap64 (port + 1)
  else if 65535 <? wrap64 (port + 1) then startPort else wrap64 (port + 1).

(** The [i]-th candidate the loop looks at, counting from 0. *)
Fixpoint candidate (used : gset Z) (startPort : Z) (i : nat) : Z :=
  match i with
  | O => startPort
  | S i' => nextCandidate used startPort (candidate used startPort i')
  end.

(** The probe the loop makes at its [i]-th candidate: none when an
    instance records the port. *)
Definition probeAt (used : gset Z) (startPort : Z) (i : nat) : list Z :=
  if bool_decide (candidate used startPort i ∈ used) then []
  else [candidate used startPort i].

(** The probes of a loop that looks at the candidates [i], ..., [i+k-1]
    without accepting one and then, if [accepted], accepts candidate
    [i+k]. *)
Definition probesOf (used : gset Z) (startPort : Z) (i k : nat) (accepted : bool)
  : list Z :=
  concat (probeAt used startPort <$> seq i k)
  ++ (if accepted then [candidate used startPort (i + k)] else []).

(** The ports probed with [net.Listen], oldest first. *)
Definition probes (cs : list Call) : list Z :=
  omap (fun c => match c with CallListen p => Some p | _ => None end) cs.

(** The calls made through the runtime client, oldest first. *)
Definition isRuntimeCall (c : Call) : bool :=
  match c with
  | CallListen _ | CallMkdirAll _ | CallRemoveAll _ => false
  | _ => true
  end.

Definition runtimeCalls (cs : list Call) : list Call := List.filter isRuntimeCall cs.

(** Running the goroutine [task] in the state [w] makes exactly the
    outside calls [made], in this order, and leaves the store with [db']
    written under [id] and nothing else changed. *)
Definition leaves (client : Client) (host : Host) (task : Goroutine) (w : World)
  (id : string) (db' : Storage.DatabaseInstance) (made : list Call) : Prop :=
  ∃ started,
    runGoroutine client host task w
    = Return tt
        (mkWorld
           (Storage.with_databases (<[id := db']> (Storage.databases (store w))) (store w))
           (calls w ++ made) (goroutines w ++ started)).

(** The identifiers of the backups of [l] whose deletion the store
    carries out. *)
Definition deletable (host : Host) (l : list Storage.Backup) : list string :=
  Storage.bID <$> filter (fun b => storeFault host (OpDeleteBackup (Storage.bID b)) = None) l.

(** *** Worlds for the examples *)

(** A runtime client whose every call succeeds, creating the container
    "0123456789abcdef" and reporting it as [status]. *)
Definition clientReporting (status : string) : Client :=
  mkClient (fun _ => None) (fun _ => ("0123456789abcdef", None)) (fun _ => None)
    (fun _ _ => None) (fun _ => (status, None)) (fun _ _ _ => None) (fun _ => None).

(** A host on which [listen] answers [net.Listen], paths are joined with
    slashes, the file system and the store never fail, and the UUID
    generator and the clock give fixed values. *)
Definition hostListening (listen : Z -> error) : Host :=
  mkHost listen (fun path => (path, None))
    (fun parts => foldr (fun part rest => "/" +:+ part +:+ rest) "" parts)
    (fun _ => None) (fun _ => None)
    "9f1c2b3a-4d5e-4f60-8a7b-0c1d2e3f4a5b" "1a2b3c4d-5e6f-4a7b-8c9d-0e1f2a3b4c5d"
    1700000000 (fun _ => None).

(** The PostgreSQL engine of engine.go. *)
Definition postgres : Engine :=
  mkEngine "postgresql" "postgres" 5432 "/var/lib/postgresql/data"
    (fun username password database =>
       ["POSTGRES_USER=" +:+ username; "POSTGRES_PASSWORD=" +:+ password;
        "POSTGRES_DB=" +:+ database])
    (fun _ => []).

(** A request for a PostgreSQL 16 instance named "shop" on [port]. *)
Definition requestOn (port : Z) : CreateRequest :=
  mkCreateRequest "shop" "postgresql" "16" "admin" "" "shop" port 1024 512 "" None
    "" "" "".

(** A PostgreSQL instance named [id] on [port], with the given status
    and container. *)
Definition instance (id : string) (port : Z) (status containerID : string)
  : Storage.DatabaseInstance :=
  Storage.mkDatabaseInstance id "shop" "postgresql" "16" status "localhost" port
    "admin" "secret" "shop" containerID 1700000000 0 0 536870912 1 0 100 "" true ""
    false "" 0 None.

(** A world whose store holds the given instances. *)
Definition worldOf (dbs : list Storage.DatabaseInstance) : World :=
  mkWorld
    (Storage.mkStore (list_to_map ((fun db => (Storage.ID db, db)) <$> dbs)) ∅ "/data")
    [] [].

(** A completed backup of instance "db-1" created at [time]. *)
Definition backupAt (id : string) (time : Z) : Storage.Backup :=
  Storage.mkBackup id "db-1" "shop" time 1048576 "completed" ("/data/backups/" +:+ id).

(** A world with the instance "db-1", retention count 3, and five
    completed backups created at the times 1 to 5. *)
Definition retentionWorld : World :=
  mkWorld
    (Storage.mkStore
       {[ "db-1" :=
            Storage.mkDatabaseInstance "db-1" "shop" "postgresql" "16" "running"
              "localhost" 5432 "admin" "secret" "shop" "0123456789abcdef" 0 0 0
              536870912 1 0 100 "" true "" true "0 2 * * *" 3 None ]}
       (list_to_map
          ((fun b => (Storage.bID b, b))
             <$> [backupAt "backup-c" 3; backupAt "backup-a" 1; backupAt "backup-e" 5;
                  backupAt "backup-b" 2; backupAt "backup-d" 4]))
       "/data")
    [] [].

(** A world with no instance, no backup, no call made and no goroutine
    started. *)
Definition emptyWorld : World := mkWorld (Storage.mkStore ∅ ∅ "") [] [].

(** The state after one more outside call. *)
Definition logged (c : Call) (w : World) : World :=
  mkWorld (store w) (calls w ++ [c]) (goroutines w).

(** What [sort.Slice] promises for the comparison of [applyRetention]:
    the result is a rearrangement of the input in which no backup comes
    before one that was created after it. *)
Definition sortsByCreation
  (sortSlice : (Storage.Backup -> Storage.Backup -> bool) ->
               list Storage.Backup -> list Storage.Backup) : Prop :=
  ∀ l, sortSlice Scheduler.createdAfter l ≡ₚ l ∧
       StronglySorted (fun a b => Storage.bCreatedAt b ≤ Storage.bCreatedAt a)
                      (sortSlice Scheduler.createdAfter l).

End Props.

(** ** pkg/database: names, start and repair *)

Module Lifecycle.
Import GoText Database.

(** [[a-zA-Z0-9_-]] *)
Definition isNameByte (c : ascii) : bool :=
  isLetter c || isDigit c || Ascii.eqb c "_"%char || Ascii.eqb c "-"%char.

(** [validNameRegex.MatchString], for the expression
    [^[a-zA-Z][a-zA-Z0-9_-]*$]. *)
Definition validNameRegex (name : string) : bool :=
  match name with
  | EmptyString => false
  | String c rest => isLetter c && allBytes isNameByte rest
  end.

(** [sanitizeName]. *)
Definition sanitizeName (name : string) : string * error :=
  if (String.length name <? 1)%nat || (63 <? String.length name)%nat
  then ("", Some "name must be 1-63 characters")
  else if negb (validNameRegex name)
  then ("", Some "name must start with a letter and contain only alphanumeric, underscore, or hyphen")
  else (name, None).

Section Lifecycle.
Context (client : Client) (host : Host) (engines : gmap string Engine).

(** [Manager.Start]. *)
Definition Start (id : string) : M error :=
  '(found, err) ← storeGetDatabase id;
  match found, err with
  | None, _ | _, Some _ => mret err
  | Some db, None =>
      if String.eqb (Storage.ContainerID db) ""
      then mret (Some "no container associated with database")
      else
        startErr ← callStartContainer client (Storage.ContainerID db);
        match startErr with
        | Some e => mret (Some ("failed to start container: " +:+ e))
        | None =>
            let db := Storage.set_Status "running" db in
            storeUpdateDatabase host db
        end
  end.

(** [Manager.Repair].  The result of [RemoveContainer] is dropped, as in
    the source; the image is not pulled. *)
Definition Repair (id : string) : M error :=
  '(found, err) ← storeGetDatabase id;
  match found, err with
  | _, Some e => mret (Some ("database not found: " +:+ e))
  | None, None => panic
  | Some db, None =>
      (if negb (String.eqb (Storage.ContainerID db) "")
       then callRemoveContainer client (Storage.ContainerID db) true;; mret tt
       else mret tt);;
      match GetEngine engines (Storage.Engine db) with
      | (_, Some e) => mret (Some ("unsupported engine: " +:+ e))
      | (None, None) => panic
      | (Some engine, None) =>
          let imageName :=
            if negb (String.eqb (Storage.Version db) "")
            then Image engine +:+ ":" +:+ Storage.Version db else Image engine in
          s ← getStore;
          match filepathAbs host (Storage.DataDir s) with
          | (_, Some e) => mret (Some ("failed to resolve data directory: " +:+ e))
          | (baseDataDir, None) =>
              let dataDir := filepathJoin host [baseDataDir; "databases"; Storage.ID db] in
              mkdirErr ← callMkdirAll host dataDir;
              match mkdirErr with
              | Some e => mret (Some ("failed to create data directory: " +:+ e))
              | None =>
                  let containerCfg := containerConfig db imageName (Storage.Port db) engine in
                  '(containerID, createErr) ← callCreateContainer client containerCfg;
                  match createErr with
                  | Some e => mret (Some ("failed to create container: " +:+ e))
                  | None =>
                      let db := Storage.set_ContainerID containerID db in
                      startErr ← callStartContainer client containerID;
                      match startErr with
                      | Some e => mret (Some ("failed to start container: " +:+ e))
                      | None =>
                          let db := Storage.set_Status "running" db in
                          let db := Storage.set_ErrorMessage "" db in
                          storeUpdateDatabase host db
                      end
                  end
              end
          end
      end
  end.

End Lifecycle.

End Lifecycle.

(** ** pkg/database: metrics history *)

Module Metrics.

(** [MaxHistoryPoints]. *)
Definition MaxHistoryPoints : nat := 60.

(** [MetricsPoint]. *)
Record MetricsPoint := mkMetricsPoint {
  Timestamp : Z;
  CPUPercent : float;
  MemoryUsage : Z;
  MemoryLimit : Z;
  MemoryPercent : float;
  StorageUsed : Z;
  Connections : Z;
  NetworkRx : Z;
  NetworkTx : Z
}.

(** [MetricsHistory]: the map from database identifier to its points,
    oldest first.  A missing key reads as the [nil] slice. *)
Definition MetricsHistory : Type := gmap string (list MetricsPoint).

(** [NewMetricsHistory]. *)
Definition NewMetricsHistory : MetricsHistory := ∅.

(** [MetricsHistory.Record]. *)
Definition Record_ (dbID : string) (point : MetricsPoint) (mh : MetricsHistory)
  : MetricsHistory :=
  let points := default [] (mh !! dbID) in
  let points := points ++ [point] in
  let points :=
    if (MaxHistoryPoints <? length points)%nat
    then drop (length points - MaxHistoryPoints) points else points in
  <[dbID := points]> mh.

(** [MetricsHistory.Get]: a copy of the points, the empty slice for an
    unknown database. *)
Definition Get (dbID : string) (mh : MetricsHistory) : list MetricsPoint :=
  match mh !! dbID with
  | None => []
  | Some points => points
  end.

(** [MetricsHistory.Delete]. *)
Definition Delete (dbID : string) (mh : MetricsHistory) : MetricsHistory :=
  delete dbID mh.

(** [MetricsHistory.Clear]. *)
Definition Clear (mh : MetricsHistory) : MetricsHistory := ∅.

End Metrics.

(** ** Further vocabulary *)

Module MoreProps.
Import Database Props.

(** No two instances of the store record the same port. *)
Definition distinctPorts (s : Storage.Store) : Prop :=
  ∀ k1 k2 d1 d2,
    Storage.databases s !! k1 = Some d1 →
    Storage.databases s !! k2 = Some d2 →
    Storage.Port d1 = Storage.Port d2 → k1 = k2.

(** An instance the reconciliation pass asks the runtime about: it has
    a container and is not being created. *)
Definition tracked (db : Storage.DatabaseInstance) : bool :=
  negb (String.eqb (Storage.ContainerID db) "" || String.eqb (Storage.Status db) "creating").

(** The record one reconciliation pass leaves for the stored record
    [db]. *)
Definition passed (client : Client) (db : Storage.DatabaseInstance)
  : Storage.DatabaseInstance :=
  if tracked db
  then reconciled (GetContainerStatus client (Storage.ContainerID db)) db
  else db.

(** The status queries of one pass over the instances [dbs]. *)
Definition statusQueries (dbs : list Storage.DatabaseInstance) : list Call :=
  (fun db => CallGetContainerStatus (Storage.ContainerID db)) <$> List.filter tracked dbs.

(** The writes of a pass, one after the other. *)
Definition writes (client : Client) (dbs : list Storage.DatabaseInstance)
  (m : gmap string Storage.DatabaseInstance) : gmap string Storage.DatabaseInstance :=
  foldl (fun m db => <[Storage.ID db := passed client db]> m) m dbs.

(** The points recorded for [dbID] among the events [evs], oldest
    first. *)
Definition pointsOf (dbID : string) (evs : list (string * Metrics.MetricsPoint))
  : list Metrics.MetricsPoint :=
  (List.filter (fun ev => String.eqb ev.1 dbID) evs).*2.

(** The history after recording the events [evs] in order. *)
Definition recordAll (evs : list (string * Metrics.MetricsPoint))
  (mh : Metrics.MetricsHistory) : Metrics.MetricsHistory :=
  foldl (fun mh ev => Metrics.Record_ ev.1 ev.2 mh) mh evs.

(** The last [n] elements of a list. *)
Definition lastN {A : Type} (n : nat) (l : list A) : list A := drop (length l - n) l.

(** Bytes that end or escape an SQL identifier or a shell word: space,
    the three quotes (34 is the double quote), semicolon, backslash
    (92), slash, dot, dollar, NUL, tab, line feed and carriage
    return. *)
Definition unsafeBytes : list ascii :=
  [" "; "'"; "034"; "`"; ";"; "092"; "/"; "."; "$"; "000"; "009"; "010"; "013"]%char.

End MoreProps.

(** * Properties *)

(** ** Status mapping of the SDK backends *)

Module StatusMapping.
Import Props.

Local Ltac canon :=
  unfold canonical; first [ by left | by right; left | by right; right; left
                          | by right; right; right ].

(** The daemonless backend answers every query with a canonical status
    and no error. *)
Lemma containerd_status_total (v : Containerd.TaskView) :
  ∃ status, Containerd.GetContainerStatus v = (status, None) ∧ canonical status.
Proof.
  destruct v as [e | e | e | status]; simpl.
  - exists "error". split; [done | canon].
  - exists "stopped". split; [done | canon].
  - exists "error". split; [done | canon].
  - destruct (String.eqb status Containerd.Running);
      [exists "running"; split; [done | canon] |].
    destruct (String.eqb status Containerd.Created || String.eqb status Containerd.Pausing);
      [exists "creating"; split; [done | canon] |].
    destruct (String.eqb status Containerd.Stopped || String.eqb status Containerd.Paused);
      [exists "stopped"; split; [done | canon] |].
    exists "error". split; [done | canon].
Qed.

(** The daemon-based backend answers with a canonical status whenever the
    inspection succeeds or reports that the container does not exist. *)
Lemma docker_status_total (r : DockerStatus.InspectResult) :
  (∃ status, DockerStatus.GetContainerStatus r = (status, None) ∧ canonical status)
  ∨ (∃ err, r = DockerStatus.InspectFailed err
            ∧ DockerStatus.GetContainerStatus r = ("", Some err)).
Proof.
  destruct r as [[r p s o d] | e | e]; simpl.
  - left. destruct r, p, s, o, d; simpl; eexists; (split; [reflexivity | canon]).
  - left. exists "error". split; [done | canon].
  - right. by exists e.
Qed.

(** C1, as the code has it.  On the daemon-based backend the flags of the
    inspected state are read in the order Running, Paused, Restarting,
    Dead or OOMKilled: the first one set decides between running,
    stopped, creating and error, and a state with none of them set (an
    exited container) is stopped; in particular a dead container maps to
    error.  A container that is not found maps to error, and any other
    inspection failure is handed on as an error with an empty status.  On
    the daemonless backend running maps to running, created and pausing
    to creating, stopped and paused to stopped, a container that cannot
    be loaded to error, a container without task to stopped, and a failed
    status call or any other native status to error.  Every answer that
    carries no error is one of the four canonical statuses. *)
Theorem status_mapping :
  (∀ p s o d,
     DockerStatus.GetContainerStatus
       (DockerStatus.Inspected (DockerStatus.Build_State true p s o d))
     = ("running", None))
  ∧ (∀ s o d,
       DockerStatus.GetContainerStatus
         (DockerStatus.Inspected (DockerStatus.Build_State false true s o d))
       = ("stopped", None))
  ∧ (∀ o d,
       DockerStatus.GetContainerStatus
         (DockerStatus.Inspected (DockerStatus.Build_State false false true o d))
       = ("creating", None))
  ∧ (∀ o,
       DockerStatus.GetContainerStatus
         (DockerStatus.Inspected (DockerStatus.Build_State false false false o true))
       = ("error", None))
  ∧ (∀ d,
       DockerStatus.GetContainerStatus
         (DockerStatus.Inspected (DockerStatus.Build_State false false false true d))
       = ("error", None))
  ∧ DockerStatus.GetContainerStatus
      (DockerStatus.Inspected (DockerStatus.Build_State false false false false false))
    = ("stopped", None)
  ∧ (∀ err, DockerStatus.GetContainerStatus (DockerStatus.NotFound err)
            = ("error", None))
  ∧ (∀ err, DockerStatus.GetContainerStatus (DockerStatus.InspectFailed err)
            = ("", Some err))
  ∧ (∀ r,
       (∃ status, DockerStatus.GetContainerStatus r = (status, None)
                  ∧ canonical status)
       ∨ (∃ err, r = DockerStatus.InspectFailed err
                 ∧ DockerStatus.GetContainerStatus r = ("", Some err)))
  ∧ Containerd.GetContainerStatus (Containerd.TaskStatus Containerd.Running)
    = ("running", None)
  ∧ Containerd.GetContainerStatus (Containerd.TaskStatus Containerd.Stopped)
    = ("stopped", None)
  ∧ Containerd.GetContainerStatus (Containerd.TaskStatus Containerd.Paused)
    = ("stopped", None)
  ∧ Containerd.GetContainerStatus (Containerd.TaskStatus Containerd.Created)
    = ("creating", None)
  ∧ Containerd.GetContainerStatus (Containerd.TaskStatus Containerd.Pausing)
    = ("creating", None)
  ∧ Containerd.GetContainerStatus (Containerd.TaskStatus Containerd.Unknown)
    = ("error", None)
  ∧ (∀ err, Containerd.GetContainerStatus (Containerd.LoadError err)
            = ("error", None))
  ∧ (∀ err, Containerd.GetContainerStatus (Containerd.TaskError err)
            = ("stopped", None))
  ∧ (∀ err, Containerd.GetContainerStatus (Containerd.StatusError err)
            = ("error", None))
  ∧ (∀ v, ∃ status,
       Containerd.GetContainerStatus v = (status, None) ∧ canonical status).
Proof.
  repeat match goal with |- _ ∧ _ => split end; try reflexivity.
  - intros d. by destruct d.
  - apply docker_status_total.
  - apply containerd_status_total.
Qed.

(** C1 as stated fails on the daemon-based backend: a dead container is
    reported as error, where the table says stopped. *)
Lemma status_mapping_dead_is_error :
  DockerStatus.GetContainerStatus (inspect NativeDead) = ("error", None)
  ∧ DockerStatus.GetContainerStatus (inspect NativeDead)
    ≠ (tableDaemon NativeDead, None).
Proof. split; [reflexivity | discriminate]. Qed.

(** The other rows of the table, which the daemon-based backend does
    follow. *)
Lemma status_mapping_other_rows (n : DaemonNative) :
  n ≠ NativeDead →
  DockerStatus.GetContainerStatus (inspect n) = (tableDaemon n, None).
Proof. destruct n; intros Hn; try reflexivity. by destruct Hn. Qed.

End StatusMapping.

(** ** Image-name normalisation of the daemonless backend *)

Module ImageNames.
Import GoStrings Props.

Lemma qualified_library (name : string) :
  qualified ("docker.io/library/" +:+ name) = true.
Proof.
  unfold qualified. apply andb_true_iff. split; [reflexivity |].
  reflexivity.
Qed.

Lemma qualified_registry (name : string) :
  qualified ("docker.io/" +:+ name) = true.
Proof.
  unfold qualified. apply andb_true_iff. split; [reflexivity |].
  reflexivity.
Qed.

Lemma normalize_cases (name : string) :
  Containerd.normalizeImageName name
  = if qualified name then name
    else if Contains name "/" then "docker.io/" +:+ name
         else "docker.io/library/" +:+ name.
Proof.
  unfold Containerd.normalizeImageName, qualified.
  by destruct (Contains name "/"), (Contains (first (Split name "/"%char)) ".").
Qed.

(** C8, as the code has it.  The three examples of the specification
    hold.  A name without a slash gets the prefix "docker.io/library/",
    whether or not it contains a dot; a name with a slash whose first
    path segment has no dot gets the prefix "docker.io/"; a name with a
    slash whose first path segment contains a dot is returned unchanged.
    The result is always fully qualified, so normalising twice is
    normalising once. *)
Theorem normalizeImageName_spec (name : string) :
  Containerd.normalizeImageName "postgres:16" = "docker.io/library/postgres:16"
  ∧ Containerd.normalizeImageName "myuser/myimage:tag" = "docker.io/myuser/myimage:tag"
  ∧ Containerd.normalizeImageName "registry.example.com/ns/img:tag"
    = "registry.example.com/ns/img:tag"
  ∧ (Contains name "/" = false →
     Containerd.normalizeImageName name = "docker.io/library/" +:+ name)
  ∧ (Contains name "/" = true →
     Contains (first (Split name "/"%char)) "." = false →
     Containerd.normalizeImageName name = "docker.io/" +:+ name)
  ∧ (Contains name "/" = true →
     Contains (first (Split name "/"%char)) "." = true →
     Containerd.normalizeImageName name = name)
  ∧ qualified (Containerd.normalizeImageName name) = true
  ∧ Containerd.normalizeImageName (Containerd.normalizeImageName name)
    = Containerd.normalizeImageName name.
Proof.
  assert (Hq : qualified (Containerd.normalizeImageName name) = true).
  { rewrite normalize_cases. destruct (qualified name) eqn:Hn; [done |].
    destruct (Contains name "/");
      [apply qualified_registry | apply qualified_library]. }
  repeat match goal with |- _ ∧ _ => split end; try reflexivity; try done.
  - intros Hs. unfold Containerd.normalizeImageName. by rewrite Hs.
  - intros Hs Hd. unfold Containerd.normalizeImageName. by rewrite Hs, Hd.
  - intros Hs Hd. unfold Containerd.normalizeImageName. by rewrite Hs, Hd.
  - rewrite (normalize_cases (Containerd.normalizeImageName name)). by rewrite Hq.
Qed.

(** The three general clauses at the names of the specification's
    examples. *)
Lemma normalizeImageName_spec_witness :
  Containerd.normalizeImageName "mariadb:10.11" = "docker.io/library/mariadb:10.11"
  ∧ Containerd.normalizeImageName "myuser/myimage:tag" = "docker.io/myuser/myimage:tag"
  ∧ Containerd.normalizeImageName "registry.example.com/ns/img:tag"
    = "registry.example.com/ns/img:tag".
Proof.
  split; [| split].
  - destruct (normalizeImageName_spec "mariadb:10.11") as (_ & _ & _ & H & _).
    apply H. reflexivity.
  - destruct (normalizeImageName_spec "myuser/myimage:tag") as (_ & _ & _ & _ & H & _).
    apply H; reflexivity.
  - destruct (normalizeImageName_spec "registry.example.com/ns/img:tag")
      as (_ & _ & _ & _ & _ & H & _).
    apply H; reflexivity.
Defined.

(** C8 as stated fails: the reference "mariadb:10.11", which provisioning
    builds from the engine's image and version, has a first path segment
    with a dot and is not returned unchanged. *)
Lemma normalizeImageName_dotted_bare_name :
  Contains (first (Split "mariadb:10.11" "/"%char)) "." = true
  ∧ Containerd.normalizeImageName "mariadb:10.11" = "docker.io/library/mariadb:10.11"
  ∧ Containerd.normalizeImageName "mariadb:10.11" ≠ "mariadb:10.11".
Proof. split; [reflexivity | split; [reflexivity | discriminate]]. Qed.

End ImageNames.

(** ** The byte-size parser of the CLI backend *)

Module ByteSizes.
Import GoStrings GoText RuntimeTypes Props.

(** *** The regular expression *)

Lemma span_app (p : ascii → bool) (s a b : string) :
  span p s = (a, b) → s = a +:+ b ∧ allBytes p a = true.
Proof.
  revert a b. induction s as [| c s IH]; intros a b; simpl.
  - intros [= <- <-]. done.
  - destruct (p c) eqn:Hc.
    + destruct (span p s) as [a' b'] eqn:Hs. intros [= <- <-].
      destruct (IH a' b' eq_refl) as [-> Ha]. simpl. by rewrite Hc, Ha.
    + intros [= <- <-]. done.
Qed.

Lemma span_complete (p : ascii → bool) (a b : string) :
  allBytes p a = true → stopsAt p b → span p (a +:+ b) = (a, b).
Proof.
  induction a as [| c a IH]; simpl.
  - intros _ Hb. destruct b as [| c b]; [done |]. simpl in *. by rewrite Hb.
  - intros [Hc Ha]%andb_true_iff Hb. by rewrite Hc, (IH Ha Hb).
Qed.

Lemma letter_not_number (c : ascii) : isLetter c = true → isNumberByte c = false.
Proof. destruct c as [[] [] [] [] [] [] [] []]; vm_compute; congruence. Qed.

Lemma letter_not_space (c : ascii) : isLetter c = true → isReSpace c = false.
Proof. destruct c as [[] [] [] [] [] [] [] []]; vm_compute; congruence. Qed.

Lemma space_not_number (c : ascii) : isReSpace c = true → isNumberByte c = false.
Proof. destruct c as [[] [] [] [] [] [] [] []]; vm_compute; congruence. Qed.

Lemma eqb_empty_false (c : ascii) (s : string) : String.eqb (String c s) "" = false.
Proof. reflexivity. Qed.

(** Every string of the grammar "number bytes, white space, letters"
    matches, with the number and the unit as groups. *)
Lemma FindStringSubmatch_complete (number ws unit : string) :
  number ≠ "" → unit ≠ "" →
  allBytes isNumberByte number = true →
  allBytes isReSpace ws = true →
  allBytes isLetter unit = true →
  FindStringSubmatch (number +:+ ws +:+ unit) = Some (number, unit).
Proof.
  intros Hn Hu Hnum Hws Hunit. unfold FindStringSubmatch.
  destruct unit as [| u unit]; [done |].
  simpl in Hunit. apply andb_true_iff in Hunit as [Hu1 Hu2].
  assert (Hstop : stopsAt isNumberByte (ws +:+ String u unit)).
  { destruct ws as [| w ws]; simpl.
    - by apply letter_not_number.
    - simpl in Hws. apply andb_true_iff in Hws as [Hw _]. by apply space_not_number. }
  rewrite (span_complete _ _ _ Hnum Hstop).
  rewrite (span_complete isReSpace ws (String u unit) Hws);
    [| simpl; by apply letter_not_space].
  destruct number as [| n number]; [done |].
  rewrite !eqb_empty_false. simpl. by rewrite Hu1, Hu2.
Qed.

(** Only strings of that grammar match. *)
Lemma FindStringSubmatch_sound (s number unit : string) :
  FindStringSubmatch s = Some (number, unit) →
  ∃ ws, s = number +:+ ws +:+ unit
        ∧ number ≠ "" ∧ unit ≠ ""
        ∧ allBytes isNumberByte number = true
        ∧ allBytes isReSpace ws = true
        ∧ allBytes isLetter unit = true.
Proof.
  unfold FindStringSubmatch.
  destruct (span isNumberByte s) as [num r1] eqn:H1.
  destruct (span isReSpace r1) as [ws u] eqn:H2.
  destruct (String.eqb_spec num ""); [done |].
  destruct (String.eqb_spec u ""); [done |].
  destruct (allBytes isLetter u) eqn:Hl; [| done].
  intros [= <- <-]. exists ws.
  apply span_app in H1 as [-> Hn]. apply span_app in H2 as [-> Hw]. done.
Qed.

(** *** The unit table *)

Lemma unitMultiplier_unrecognized (unit : string) :
  unit ∉ recognizedUnits → Cli.unitMultiplier unit = 1%float.
Proof.
  unfold recognizedUnits. rewrite !not_elem_of_cons. intros H.
  unfold Cli.unitMultiplier.
  repeat match goal with
         | |- context [String.eqb unit ?u] =>
             destruct (String.eqb_spec unit u); [exfalso; intuition congruence |]
         end.
  reflexivity.
Qed.

(** *** The parser *)

Lemma parseBytes_unfold (go : GoImpl) (s number unit : string) :
  FindStringSubmatch (TrimSpace s) = Some (number, unit) →
  Cli.parseBytes go s
  = match ParseFloat number with
    | None => 0
    | Some value =>
        int64_of_float (int64_undef go) (value * Cli.unitMultiplier (ToLower unit))
    end.
Proof.
  intros Hm. unfold Cli.parseBytes.
  destruct (String.eqb_spec (TrimSpace s) "") as [He | _];
    [rewrite He in Hm; discriminate |].
  destruct (String.eqb_spec (TrimSpace s) "--") as [He | _];
    [rewrite He in Hm; discriminate |].
  simpl. by rewrite Hm.
Qed.

(** C7, as the code has it.  [parseBytes] is a total function into the
    integers.  The examples of the specification hold.  An input that,
    once trimmed, is a non-empty run of digits and dots, then white
    space, then a non-empty run of letters is split into number and unit;
    any other input yields 0, and so does a number that [ParseFloat]
    rejects.  Otherwise the result is the float64 product of the number
    and the multiplier, converted to [int64]; the multiplier is 1, 1024,
    1024^2, 1024^3, 1024^4 for b, kb/kib, mb/mib, gb/gib, tb/tib in any
    letter case, and 1 for every other unit: a number with an
    unrecognised unit yields the number, not 0. *)
Theorem parseBytes_spec (go : GoImpl) (s number ws unit : string) (value : float) :
  Cli.parseBytes go "1.5GiB" = 1610612736
  ∧ Cli.parseBytes go "0B" = 0
  ∧ Cli.parseBytes go "garbage" = 0
  ∧ (FindStringSubmatch (TrimSpace s) = None → Cli.parseBytes go s = 0)
  ∧ (TrimSpace s = number +:+ ws +:+ unit →
     number ≠ "" → unit ≠ "" →
     allBytes isNumberByte number = true →
     allBytes isReSpace ws = true →
     allBytes isLetter unit = true →
     (ParseFloat number = None → Cli.parseBytes go s = 0)
     ∧ (ParseFloat number = Some value →
        Cli.parseBytes go s
        = int64_of_float (int64_undef go)
            (value * Cli.unitMultiplier (ToLower unit))))
  ∧ Cli.unitMultiplier "b" = 1%float
  ∧ Cli.unitMultiplier "kb" = 1024%float
  ∧ Cli.unitMultiplier "kib" = 1024%float
  ∧ Cli.unitMultiplier "mb" = 1048576%float
  ∧ Cli.unitMultiplier "mib" = 1048576%float
  ∧ Cli.unitMultiplier "gb" = 1073741824%float
  ∧ Cli.unitMultiplier "gib" = 1073741824%float
  ∧ Cli.unitMultiplier "tb" = 1099511627776%float
  ∧ Cli.unitMultiplier "tib" = 1099511627776%float
  ∧ (ToLower unit ∉ recognizedUnits → Cli.unitMultiplier (ToLower unit) = 1%float).
Proof.
  repeat match goal with |- _ ∧ _ => split end; try reflexivity.
  - intros Hm. unfold Cli.parseBytes. rewrite Hm.
    by destruct (String.eqb (TrimSpace s) "" || String.eqb (TrimSpace s) "--").
  - intros Hs Hn Hu Hnum Hws Hunit.
    pose proof (FindStringSubmatch_complete number ws unit Hn Hu Hnum Hws Hunit) as Hm.
    rewrite <- Hs in Hm. rewrite (parseBytes_unfold go s number unit Hm).
    split; intros ->; reflexivity.
  - apply unitMultiplier_unrecognized.
Qed.

(** The general clauses at " 2.5 MiB " (trimmed, split at the blank,
    2.5 * 1024^2 = 2621440), at "1.2.3MB" (a number that does not parse)
    and at "12 parsecs". *)
Lemma parseBytes_spec_witness :
  Cli.parseBytes goAmd64 " 2.5 MiB " = 2621440
  ∧ Cli.parseBytes goAmd64 "1.2.3MB" = 0
  ∧ Cli.parseBytes goAmd64 "--" = 0
  ∧ Cli.unitMultiplier (ToLower "parsecs") = 1%float.
Proof.
  split; [| split; [| split]].
  - destruct (parseBytes_spec goAmd64 " 2.5 MiB " "2.5" " " "MiB" 2.5%float)
      as (_ & _ & _ & _ & H & _).
    specialize (H eq_refl ltac:(discriminate) ltac:(discriminate)
                  eq_refl eq_refl eq_refl) as [_ H].
    rewrite (H eq_refl). reflexivity.
  - destruct (parseBytes_spec goAmd64 "1.2.3MB" "1.2.3" "" "MB" 0%float)
      as (_ & _ & _ & _ & H & _).
    specialize (H eq_refl ltac:(discriminate) ltac:(discriminate)
                  eq_refl eq_refl eq_refl) as [H _].
    exact (H eq_refl).
  - destruct (parseBytes_spec goAmd64 "--" "" "" "" 0%float) as (_ & _ & _ & H & _).
    apply H. reflexivity.
  - destruct (parseBytes_spec goAmd64 "" "" "" "parsecs" 0%float)
      as (_ & _ & _ & _ & _ & _ & _ & _ & _ & _ & _ & _ & _ & _ & H).
    apply H. vm_compute. intros H'.
    repeat (apply elem_of_cons in H' as [H' | H']; [discriminate |]).
    by apply elem_of_nil in H'.
Defined.

(** C7 as stated fails: a number with an unrecognised unit is not mapped
    to 0. *)
Lemma parseBytes_unrecognized_unit :
  (ToLower "xyz" ∉ recognizedUnits)
  ∧ Cli.parseBytes goAmd64 "5xyz" = 5
  ∧ Cli.parseBytes goAmd64 "5xyz" ≠ 0.
Proof.
  split; [| split; [vm_compute; reflexivity | vm_compute; discriminate]].
  vm_compute. intros H'.
  repeat (apply elem_of_cons in H' as [H' | H']; [discriminate |]).
  by apply elem_of_nil in H'.
Qed.

End ByteSizes.

(** ** Container creation on the CLI and the daemon-based backend *)

Module ContainerCreation.
Import GoStrings GoText RuntimeTypes Props.

Lemma foldl_append {A B : Type} (f : B → list A) (init : list A) (l : list B) :
  foldl (fun acc x => acc ++ f x) init l = init ++ concat (f <$> l).
Proof.
  revert init. induction l as [| x l IH]; intros init; simpl.
  - by rewrite app_nil_r.
  - by rewrite IH, app_assoc.
Qed.

Lemma foldl_append_pairs {A B C : Type} (f : B → C → list A) (init : list A)
  (l : list (B * C)) :
  foldl (fun acc '(b, c) => acc ++ f b c) init l
  = init ++ concat ((fun '(b, c) => f b c) <$> l).
Proof.
  revert init. induction l as [| [b c] l IH]; intros init; simpl.
  - by rewrite app_nil_r.
  - by rewrite IH, app_assoc.
Qed.

(** The argument vector, flattened: the fixed head, the environment, the
    port bindings, the volumes, the limits, the labels and the fixed
    tail. *)
Lemma CreateContainerArgs_flat (go : GoImpl) (c : Cli.Client) (cfg : ContainerConfig) :
  Cli.CreateContainerArgs go c cfg
  = ["create"; "--name"; Name cfg; "--network"; Cli.network c]
    ++ concat ((fun env => ["-e"; env]) <$> Env cfg)
    ++ concat ((fun '(containerPort, hostPort) =>
                  ["-p"; hostPort +:+ ":" +:+ containerPort])
               <$> rangeOrder go (PortBindings cfg))
    ++ concat ((fun '(hostPath, containerPath) =>
                  ["-v"; hostPath +:+ ":" +:+ containerPath])
               <$> rangeOrder go (Volumes cfg))
    ++ (if 0 <? MemoryLimit cfg then ["--memory"; Sprintf_d (MemoryLimit cfg)] else [])
    ++ (if (0 <? CPULimit cfg)%float then ["--cpus"; Sprintf_2f (CPULimit cfg)] else [])
    ++ concat ((fun '(k, v) => ["--label"; k +:+ "=" +:+ v])
               <$> rangeOrder go (Labels cfg))
    ++ ["--restart"; "unless-stopped"; Image cfg]
    ++ Cmd cfg.
Proof.
  unfold Cli.CreateContainerArgs.
  rewrite (foldl_append (fun env => ["-e"; env])).
  rewrite (foldl_append_pairs (fun containerPort hostPort =>
                                 ["-p"; hostPort +:+ ":" +:+ containerPort])).
  rewrite (foldl_append_pairs (fun hostPath containerPath =>
                                 ["-v"; hostPath +:+ ":" +:+ containerPath])).
  destruct (0 <? MemoryLimit cfg), (0 <? CPULimit cfg)%float;
    rewrite (foldl_append_pairs (fun k v => ["--label"; k +:+ "=" +:+ v]));
    destruct (Cmd cfg) as [| x xs]; simpl;
    rewrite ?app_nil_r, <- ?app_assoc; simpl; reflexivity.
Qed.

Lemma foldl_pointwise {A B : Type} (f g : A → B → A) (init : A) (l : list B) :
  (∀ a b, f a b = g a b) → foldl f init l = foldl g init l.
Proof.
  intros Hfg. revert init. induction l as [| x l IH]; intros init; simpl; [done |].
  by rewrite Hfg, IH.
Qed.

Lemma portStep_fold (l : list (string * string)) (E0 : gset string)
  (P0 : gmap string (list Docker.PortBinding)) :
  ∀ cp,
    (cp ∈ (foldl portStep (E0, P0) l).1 ↔ cp ∈ l.*1 ∨ cp ∈ E0)
    ∧ ((∃ hp, (cp, hp) ∈ l
              ∧ (foldl portStep (E0, P0) l).2 !! cp
                = Some [Docker.mkPortBinding "0.0.0.0" hp])
       ∨ ((cp ∉ l.*1) ∧ (foldl portStep (E0, P0) l).2 !! cp = P0 !! cp)).
Proof.
  revert E0 P0. induction l as [| [k v] l IH]; intros E0 P0 cp; simpl.
  - split; [set_solver |]. right. split; [set_solver | done].
  - destruct (IH ({[k]} ∪ E0) (<[k := [Docker.mkPortBinding "0.0.0.0" v]]> P0) cp)
      as [IH1 IH2].
    split; [rewrite IH1; set_solver |].
    destruct IH2 as [(hp & Hin & Hl) | [Hnot Hl]].
    + left. exists hp. split; [set_solver | done].
    + destruct (decide (k = cp)) as [-> | Hne].
      * left. exists v. split; [set_solver |]. by rewrite Hl, lookup_insert_eq.
      * right. split; [set_solver |]. by rewrite Hl, lookup_insert_ne.
Qed.

Lemma CreateContainerRequest_ports (go : GoImpl) (c : Docker.Client)
  (cfg : ContainerConfig) :
  Docker.ExposedPorts (Docker.config (Docker.CreateContainerRequest go c cfg))
  = (foldl portStep (∅, ∅) (rangeOrder go (PortBindings cfg))).1
  ∧ Docker.hPortBindings (Docker.hostConfig (Docker.CreateContainerRequest go c cfg))
    = (foldl portStep (∅, ∅) (rangeOrder go (PortBindings cfg))).2.
Proof.
  unfold Docker.CreateContainerRequest.
  rewrite (foldl_pointwise _ portStep);
    [| by intros [e p] [k v]].
  by destruct (foldl portStep (∅, ∅) (rangeOrder go (PortBindings cfg))).
Qed.

(** C10.  Two configurations that differ only in [ExposePort] and
    [Network] give the same argument vector on the CLI backend and the
    same create request on the daemon-based backend, hence the same
    answer of the runtime.  Both backends attach the network the client
    was constructed with and publish every port binding of the
    configuration to the host. *)
Theorem create_ignores_network_and_exposePort
  (go : GoImpl) (cliClient : Cli.Client) (dockerClient : Docker.Client)
  (run : list string → string * error)
  (create : Docker.CreateRequest → string * error)
  (a b : ContainerConfig) :
  sameButNetworkAndExposePort a b →
  Cli.CreateContainerArgs go cliClient a = Cli.CreateContainerArgs go cliClient b
  ∧ Cli.CreateContainer go run cliClient a = Cli.CreateContainer go run cliClient b
  ∧ Docker.CreateContainerRequest go dockerClient a
    = Docker.CreateContainerRequest go dockerClient b
  ∧ Docker.CreateContainer go create dockerClient a
    = Docker.CreateContainer go create dockerClient b
  ∧ (∃ rest,
       Cli.CreateContainerArgs go cliClient a
       = ["create"; "--name"; Name a; "--network"; Cli.network cliClient] ++ rest)
  ∧ (∀ containerPort hostPort,
       (containerPort, hostPort) ∈ rangeOrder go (PortBindings a) →
       ∃ before after,
         Cli.CreateContainerArgs go cliClient a
         = before ++ ["-p"; hostPort +:+ ":" +:+ containerPort] ++ after)
  ∧ Docker.NetworkMode (Docker.hostConfig (Docker.CreateContainerRequest go dockerClient a))
    = Docker.network dockerClient
  ∧ (∀ containerPort,
       containerPort ∈ (rangeOrder go (PortBindings a)).*1 →
       containerPort
         ∈ Docker.ExposedPorts (Docker.config (Docker.CreateContainerRequest go dockerClient a))
       ∧ ∃ hostPort,
           (containerPort, hostPort) ∈ rangeOrder go (PortBindings a)
           ∧ Docker.hPortBindings
               (Docker.hostConfig (Docker.CreateContainerRequest go dockerClient a))
             !! containerPort
             = Some [Docker.mkPortBinding "0.0.0.0" hostPort]).
Proof.
  intros Hsame.
  assert (Hargs : Cli.CreateContainerArgs go cliClient a
                  = Cli.CreateContainerArgs go cliClient b).
  { destruct a, b. unfold sameButNetworkAndExposePort in Hsame. simpl in Hsame.
    destruct Hsame as (-> & -> & -> & -> & -> & -> & -> & -> & ->). reflexivity. }
  assert (Hreq : Docker.CreateContainerRequest go dockerClient a
                 = Docker.CreateContainerRequest go dockerClient b).
  { destruct a, b. unfold sameButNetworkAndExposePort in Hsame. simpl in Hsame.
    destruct Hsame as (-> & -> & -> & -> & -> & -> & -> & -> & ->). reflexivity. }
  repeat match goal with |- _ ∧ _ => split end.
  - exact Hargs.
  - unfold Cli.CreateContainer. by rewrite Hargs.
  - exact Hreq.
  - unfold Docker.CreateContainer. by rewrite Hreq.
  - rewrite CreateContainerArgs_flat. eexists. reflexivity.
  - intros cp hp Hin. rewrite CreateContainerArgs_flat.
    apply list_elem_of_split in Hin as (l1 & l2 & Hl). rewrite Hl.
    rewrite fmap_app, concat_app. cbn [fmap list_fmap concat].
    set (env := concat _). set (ports1 := concat _). set (ports2 := concat _).
    set (rest := concat _ ++ _).
    exists (["create"; "--name"; Name a; "--network"; Cli.network cliClient]
              ++ env ++ ports1), (ports2 ++ rest).
    rewrite <- !app_assoc. reflexivity.
  - unfold Docker.CreateContainerRequest.
    by destruct (foldl _ _ (rangeOrder go (PortBindings a))).
  - intros cp Hin.
    destruct (CreateContainerRequest_ports go dockerClient a) as [-> ->].
    destruct (portStep_fold (rangeOrder go (PortBindings a)) ∅ ∅ cp) as [H1 H2].
    split; [apply H1; by left |].
    destruct H2 as [(hp & Hhp & Hl) | [Hnot _]]; [by exists hp | done].
Qed.

(** Two configurations of one PostgreSQL container, one on network
    "frontend" with the port exposed, one on network "backend" with the
    port not exposed. *)
Lemma create_ignores_network_and_exposePort_witness :
  let cfg network expose :=
    mkContainerConfig "dbnest-db-1a2b3c4d" "postgres:16" []
      ["POSTGRES_USER=admin"] {[ "5432/tcp" := "5433" ]}
      {[ "dbnest-vol-db-1a2b3c4d" := "/var/lib/postgresql/data" ]}
      536870912 1 {[ "dbnest.managed" := "true" ]} network expose in
  Cli.CreateContainerArgs goAmd64 (Cli.mkClient "docker" "dbnest") (cfg "frontend" true)
  = Cli.CreateContainerArgs goAmd64 (Cli.mkClient "docker" "dbnest") (cfg "backend" false).
Proof.
  intros cfg.
  refine (proj1 (create_ignores_network_and_exposePort goAmd64
                   (Cli.mkClient "docker" "dbnest") (Docker.mkClient "dbnest")
                   (fun _ => ("", None)) (fun _ => ("", None))
                   (cfg "frontend" true) (cfg "backend" false) _)).
  repeat split.
Defined.

End ContainerCreation.

(** ** Proof steps shared by the manager's properties *)

Module ManagerTactics.
Import Database.

(** Unfold the monad and the primitive operations of the manager.  The
    state is best taken apart first, so that the projections reduce. *)
Ltac run :=
  cbv [mbind M_bind mret M_ret storeGetDatabase storeUpdateDatabase
       storeDeleteDatabase storeCreateDatabase storeDeleteBackup getStore putStore
       logCall spawn callPullImage callCreateContainer callStartContainer
       callRemoveContainer callGetContainerStatus callDeleteVolume callMkdirAll
       callRemoveAll isPortAvailable store calls goroutines
       Storage.GetDatabase Storage.UpdateDatabase Storage.DeleteDatabase
       Storage.CreateDatabase Storage.DeleteBackup Storage.databases Storage.backups
       Storage.dataDir Storage.DataDir Storage.with_databases Storage.with_backups].

(** Take the state apart. *)
Ltac open_world w :=
  let dbs := fresh "dbs" in
  let bks := fresh "bks" in
  let dir := fresh "dir" in
  let cs := fresh "cs" in
  let gs := fresh "gs" in
  destruct w as [[dbs bks dir] cs gs]; simpl in *.

End ManagerTactics.

(** ** The manager: resource limits *)

Module ResourceLimits.
Import Database Props ManagerTactics.

Lemma setters_sameButLimits (db : Storage.DatabaseInstance) (memoryLimit : Z)
  (cpuLimit : float) :
  let db1 := if 0 <? memoryLimit then Storage.set_MemoryLimit memoryLimit db else db in
  let db2 := if (0 <? cpuLimit)%float then Storage.set_CPULimit cpuLimit db1 else db1 in
  sameButLimits db db2
  ∧ Storage.MemoryLimit db2 = (if 0 <? memoryLimit then memoryLimit else Storage.MemoryLimit db)
  ∧ Storage.CPULimit db2 = (if (0 <? cpuLimit)%float then cpuLimit else Storage.CPULimit db).
Proof.
  destruct db. unfold sameButLimits.
  destruct (0 <? memoryLimit), (0 <? cpuLimit)%float; simpl; repeat split.
Qed.

(** C9.  [UpdateResources] always returns, and whatever it returns it
    makes no call through the runtime client (nor any other outside
    call), starts no goroutine and leaves the backups alone.  On an
    instance of the store it writes back the record with [MemoryLimit]
    replaced when the given memory is positive and [CPULimit] replaced
    when the given cpu is positive, every other field and every other
    instance as before; on an unknown identifier it returns the lookup's
    error and changes nothing. *)
Theorem UpdateResources_spec (host : Host) (id : string) (memoryLimit : Z)
  (cpuLimit : float) (w : World) :
  (∃ r w', UpdateResources host id memoryLimit cpuLimit w = Return r w'
           ∧ calls w' = calls w
           ∧ runtimeCalls (calls w') = runtimeCalls (calls w)
           ∧ goroutines w' = goroutines w
           ∧ Storage.backups (store w') = Storage.backups (store w))
  ∧ (∀ db,
       Storage.databases (store w) !! id = Some db →
       Storage.ID db = id →
       storeFault host (OpUpdateDatabase id) = None →
       ∃ db',
         UpdateResources host id memoryLimit cpuLimit w
         = Return (Some db', None)
             (mkWorld (Storage.with_databases
                         (<[id := db']> (Storage.databases (store w))) (store w))
                      (calls w) (goroutines w))
         ∧ sameButLimits db db'
         ∧ Storage.MemoryLimit db'
           = (if 0 <? memoryLimit then memoryLimit else Storage.MemoryLimit db)
         ∧ Storage.CPULimit db'
           = (if (0 <? cpuLimit)%float then cpuLimit else Storage.CPULimit db))
  ∧ (Storage.databases (store w) !! id = None →
     UpdateResources host id memoryLimit cpuLimit w
     = Return (None, Some ("database not found: " +:+ id)) w).
Proof.
  open_world w. split; [| split].
  - unfold UpdateResources. run.
    destruct (dbs !! id) as [db |] eqn:Hdb.
    + set (db2 := if (0 <? cpuLimit)%float then _ else _).
      destruct (storeFault host (OpUpdateDatabase (Storage.ID db2))).
      * by eexists _, _.
      * destruct (dbs !! Storage.ID db2); by eexists _, _.
    + by eexists _, _.
  - intros db Hdb Hid Hfault.
    destruct (setters_sameButLimits db memoryLimit cpuLimit) as (Hsame & Hmem & Hcpu).
    cbv zeta in Hsame, Hmem, Hcpu.
    set (db2 := if (0 <? cpuLimit)%float then _ else _) in *.
    assert (Hid2 : Storage.ID db2 = id) by (destruct Hsame as [<- _]; done).
    exists db2. split; [| done].
    unfold UpdateResources. run. rewrite Hdb. fold db2. by rewrite Hid2, Hfault, Hdb.
  - intros Hdb. unfold UpdateResources. run. by rewrite Hdb.
Qed.

(** A new memory limit and no new CPU limit for the stored instance
    "db-1": the memory limit is replaced, the CPU limit stays 1. *)
Lemma UpdateResources_spec_witness :
  let host := hostListening (fun _ => None) in
  let w := worldOf [instance "db-1" 5432 "running" "0123456789abcdef"] in
  ∃ db',
    UpdateResources host "db-1" 1073741824 0 w
    = Return (Some db', None)
        (mkWorld
           (Storage.with_databases
              (<["db-1" := db']> (Storage.databases (store w))) (store w))
           [] [])
    ∧ Storage.MemoryLimit db' = 1073741824
    ∧ Storage.CPULimit db' = 1%float.
Proof.
  intros host w.
  destruct (UpdateResources_spec host "db-1" 1073741824 0 w) as (_ & H & _).
  destruct (H (instance "db-1" 5432 "running" "0123456789abcdef")
              eq_refl eq_refl eq_refl) as (db' & Hrun & _ & Hmem & Hcpu).
  exists db'. split; [exact Hrun |]. split; [exact Hmem | exact Hcpu].
Defined.

End ResourceLimits.


(** ** The manager: deletion *)

Module Deletion.
Import Database Props ManagerTactics.

(** C5.  On an instance of the store, [Delete] removes the container
    when the record names one, removes the volume and removes the data
    directory, in this order and whatever the runtime and the operating
    system answer to each of them; it then deletes the record and
    returns no error.  A second [Delete] of the same identifier returns
    the lookup's "not found" error, makes no outside call and leaves the
    store as it is. *)
Theorem Delete_spec (client : Client) (host : Host) (id : string)
  (db : Storage.DatabaseInstance) (w : World) :
  Storage.databases (store w) !! id = Some db →
  storeFault host (OpDeleteDatabase id) = None →
  let w' :=
    mkWorld
      (Storage.with_databases (delete id (Storage.databases (store w))) (store w))
      (calls w ++ teardown host (store w) id db)
      (goroutines w) in
  Delete client host id w = Return None w'
  ∧ Storage.databases (store w') !! id = None
  ∧ Delete client host id w' = Return (Some ("database not found: " +:+ id)) w'.
Proof.
  intros Hdb Hfault w'. subst w'. open_world w. split; [| split].
  - unfold Delete, teardown. run. rewrite Hdb.
    destruct (String.eqb (Storage.ContainerID db) ""); simpl;
      destruct (filepathAbs host dir) as [base e]; simpl;
      rewrite Hfault, Hdb; rewrite <- ?app_assoc; reflexivity.
  - apply lookup_delete_eq.
  - unfold Delete. run. by rewrite lookup_delete_eq.
Qed.

(** An instance whose container removal, volume removal and directory
    removal all fail is deleted all the same. *)
Lemma Delete_spec_witness :
  let client :=
    mkClient (fun _ => None) (fun _ => ("", None)) (fun _ => None)
      (fun _ _ => Some "no such container") (fun _ => ("", None))
      (fun _ _ _ => None) (fun _ => Some "no such volume") in
  let host :=
    mkHost (fun _ => None) (fun p => (p, None)) (fun _ => "/data/databases/db-1")
      (fun _ => None) (fun _ => Some "permission denied") "" "" 0 (fun _ => None) in
  let db :=
    Storage.mkDatabaseInstance "db-1" "shop" "postgresql" "16" "running" "localhost"
      5432 "admin" "secret" "shop" "0123456789abcdef" 0 0 0 0 1 0 100 "" true ""
      false "" 0 None in
  let w := mkWorld (Storage.mkStore {[ "db-1" := db ]} ∅ "/data") [] [] in
  Delete client host "db-1" w
  = Return None
      (mkWorld (Storage.mkStore (delete "db-1" {[ "db-1" := db ]}) ∅ "/data")
         [CallRemoveContainer "0123456789abcdef" true;
          CallDeleteVolume "dbnest-vol-db-1";
          CallRemoveAll "/data/databases/db-1"] []).
Proof.
  intros client host db w.
  exact (proj1 (Delete_spec client host "db-1" db w eq_refl eq_refl)).
Defined.

End Deletion.


(** ** The manager: reconciliation *)

Module Reconciliation.
Import Database Props ManagerTactics.

Lemma ID_set_Status (v : string) (db : Storage.DatabaseInstance) :
  Storage.ID (Storage.set_Status v db) = Storage.ID db.
Proof. by destruct db. Qed.

Lemma ID_set_ErrorMessage (v : string) (db : Storage.DatabaseInstance) :
  Storage.ID (Storage.set_ErrorMessage v db) = Storage.ID db.
Proof. by destruct db. Qed.

Lemma ID_set_ContainerID (v : string) (db : Storage.DatabaseInstance) :
  Storage.ID (Storage.set_ContainerID v db) = Storage.ID db.
Proof. by destruct db. Qed.

Lemma reconciled_ID (answer : string * error) (db : Storage.DatabaseInstance) :
  Storage.ID (reconciled answer db) = Storage.ID db.
Proof.
  unfold reconciled. destruct answer as [actual [e |]].
  - destruct (String.eqb (Storage.Status db) "running"); [| done].
    by rewrite ID_set_ErrorMessage, ID_set_Status.
  - destruct (String.eqb actual (Storage.Status db)); [done |].
    destruct (String.eqb actual "running");
      by rewrite ?ID_set_ErrorMessage, ID_set_Status.
Qed.

Lemma reconciled_ContainerID (answer : string * error) (db : Storage.DatabaseInstance) :
  Storage.ContainerID (reconciled answer db) = Storage.ContainerID db.
Proof.
  unfold reconciled. destruct answer as [actual [e |]], db; simpl.
  - by destruct (String.eqb Status "running").
  - destruct (String.eqb actual Status); [done |].
    by destruct (String.eqb actual "running").
Qed.

(** A second pass over the reconciled record finds nothing to do,
    unless the first pass set the status to "creating", which the
    second pass skips. *)
Lemma reconciled_twice (answer : string * error) (db : Storage.DatabaseInstance) :
  reconciled answer (reconciled answer db) = reconciled answer db.
Proof.
  unfold reconciled. destruct answer as [actual [e |]], db; simpl.
  - destruct (String.eqb_spec Status "running") as [-> | Hne]; simpl; [done |].
    by destruct (String.eqb_spec Status "running").
  - destruct (String.eqb_spec actual Status) as [-> | Hne]; simpl.
    + by rewrite String.eqb_refl.
    + destruct (String.eqb actual "running"); simpl; by rewrite String.eqb_refl.
Qed.

(** One pass over a stored instance that has a container and is not
    being created: one status query, and the reconciled record written
    back unless it is the stored one. *)
Lemma syncStatus_run (client : Client) (host : Host) (db : Storage.DatabaseInstance)
  (w : World) :
  Storage.databases (store w) !! Storage.ID db = Some db →
  storeFault host (OpUpdateDatabase (Storage.ID db)) = None →
  Storage.ContainerID db ≠ "" →
  Storage.Status db ≠ "creating" →
  syncStatus client host db w
  = Return tt
      (mkWorld
         (Storage.with_databases
            (<[Storage.ID db :=
                 reconciled (GetContainerStatus client (Storage.ContainerID db)) db]>
               (Storage.databases (store w)))
            (store w))
         (calls w ++ [CallGetContainerStatus (Storage.ContainerID db)])
         (goroutines w)).
Proof.
  intros Hdb Hfault Hcid Hst. open_world w.
  unfold syncStatus.
  destruct (String.eqb_spec (Storage.ContainerID db) ""); [done |].
  destruct (String.eqb_spec (Storage.Status db) "creating"); [done |].
  cbn [orb]. unfold reconciled. run.
  destruct (GetContainerStatus client (Storage.ContainerID db)) as [actual [e |]].
  - destruct (String.eqb (Storage.Status db) "running").
    + by rewrite ID_set_ErrorMessage, ID_set_Status, Hfault, Hdb.
    + by rewrite (insert_id _ _ _ Hdb).
  - destruct (String.eqb actual (Storage.Status db)); cbn [negb].
    + by rewrite (insert_id _ _ _ Hdb).
    + destruct (String.eqb actual "running");
        by rewrite ?ID_set_ErrorMessage, ID_set_Status, Hfault, Hdb.
Qed.

Lemma reconciled_same (answer : string * error) (db : Storage.DatabaseInstance) :
  sameButStatusAndError db (reconciled answer db).
Proof.
  unfold sameButStatusAndError, reconciled. destruct answer as [actual [e |]], db; simpl.
  - by destruct (String.eqb Status "running").
  - destruct (String.eqb actual Status); [done |].
    by destruct (String.eqb actual "running").
Qed.

(** C4.  One reconciliation pass over a stored instance.  An instance
    without container identifier or with status "creating" is left
    untouched, without a query.  Otherwise the runtime is asked once for
    the container's status and only [Status] and [ErrorMessage] of the
    stored record can change: when the query fails and the stored status
    was "running", they become "error" and "Container not accessible";
    when the query fails on any other stored status, or answers the
    stored status, the record stays as it is; when the query answers a
    different status, the stored status becomes that status and the
    error message is cleared if it is "running".  A second pass with the
    same answer leaves the store as the first pass left it. *)
Theorem syncStatus_spec (client : Client) (host : Host) (db : Storage.DatabaseInstance)
  (w : World) :
  Storage.databases (store w) !! Storage.ID db = Some db →
  storeFault host (OpUpdateDatabase (Storage.ID db)) = None →
  (Storage.ContainerID db = "" ∨ Storage.Status db = "creating" →
   syncStatus client host db w = Return tt w)
  ∧ (Storage.ContainerID db ≠ "" →
     Storage.Status db ≠ "creating" →
     ∃ db1 w1,
       syncStatus client host db w = Return tt w1
       ∧ Storage.databases (store w1)
         = <[Storage.ID db := db1]> (Storage.databases (store w))
       ∧ Storage.backups (store w1) = Storage.backups (store w)
       ∧ goroutines w1 = goroutines w
       ∧ calls w1 = calls w ++ [CallGetContainerStatus (Storage.ContainerID db)]
       ∧ sameButStatusAndError db db1
       ∧ (∀ actual e,
            GetContainerStatus client (Storage.ContainerID db) = (actual, Some e) →
            Storage.Status db = "running" →
            Storage.Status db1 = "error"
            ∧ Storage.ErrorMessage db1 = "Container not accessible")
       ∧ (∀ actual e,
            GetContainerStatus client (Storage.ContainerID db) = (actual, Some e) →
            Storage.Status db ≠ "running" →
            db1 = db)
       ∧ (∀ actual,
            GetContainerStatus client (Storage.ContainerID db) = (actual, None) →
            actual ≠ Storage.Status db →
            Storage.Status db1 = actual
            ∧ Storage.ErrorMessage db1
              = (if String.eqb actual "running" then "" else Storage.ErrorMessage db))
       ∧ (∀ actual,
            GetContainerStatus client (Storage.ContainerID db) = (actual, None) →
            actual = Storage.Status db →
            db1 = db)
       ∧ ∃ w2, syncStatus client host db1 w1 = Return tt w2 ∧ store w2 = store w1).
Proof.
  intros Hdb Hfault. split.
  - intros Hskip. unfold syncStatus.
    destruct (String.eqb_spec (Storage.ContainerID db) ""); [done |].
    destruct (String.eqb_spec (Storage.Status db) "creating"); [done |].
    by destruct Hskip.
  - intros Hcid Hst.
    set (answer := GetContainerStatus client (Storage.ContainerID db)).
    exists (reconciled answer db). eexists.
    split; [apply (syncStatus_run client host db w Hdb Hfault Hcid Hst) |].
    fold answer. simpl.
    repeat match goal with |- _ ∧ _ => split end; try done.
    + apply reconciled_same.
    + intros actual e -> Hrun. unfold reconciled. rewrite Hrun. simpl.
      by destruct db.
    + intros actual e -> Hrun. unfold reconciled.
      by destruct (String.eqb_spec (Storage.Status db) "running").
    + intros actual -> Hne. unfold reconciled.
      destruct (String.eqb_spec actual (Storage.Status db)); [done |].
      destruct db; simpl. by destruct (String.eqb actual "running").
    + intros actual -> Heq. unfold reconciled.
      by destruct (String.eqb_spec actual (Storage.Status db)).
    + set (db1 := reconciled answer db).
      set (w1 := mkWorld _ _ _).
      destruct (String.eqb_spec (Storage.Status db1) "creating") as [Hc | Hc].
      * exists w1. split; [| done]. unfold syncStatus.
        rewrite Hc. simpl. by rewrite orb_true_r.
      * eexists. split.
        -- apply syncStatus_run; try done.
           ++ subst db1 w1. simpl. rewrite reconciled_ID. apply lookup_insert_eq.
           ++ subst db1. by rewrite reconciled_ID.
           ++ subst db1. by rewrite reconciled_ContainerID.
        -- subst db1 w1. simpl. rewrite reconciled_ID, reconciled_ContainerID.
           fold answer. rewrite reconciled_twice. unfold Storage.with_databases. simpl.
           by rewrite insert_insert_eq.
Qed.

(** A running instance whose container the runtime now reports as
    stopped: the first pass records "stopped". *)
Lemma syncStatus_spec_witness :
  let client :=
    mkClient (fun _ => None) (fun _ => ("", None)) (fun _ => None)
      (fun _ _ => None) (fun _ => ("stopped", None))
      (fun _ _ _ => None) (fun _ => None) in
  let host :=
    mkHost (fun _ => None) (fun p => (p, None)) (fun _ => "") (fun _ => None)
      (fun _ => None) "" "" 0 (fun _ => None) in
  let db :=
    Storage.mkDatabaseInstance "db-1" "shop" "postgresql" "16" "running" "localhost"
      5432 "admin" "secret" "shop" "0123456789abcdef" 0 0 0 0 1 0 100 "" true ""
      false "" 0 None in
  let w := mkWorld (Storage.mkStore {[ "db-1" := db ]} ∅ "/data") [] [] in
  ∃ db1 w1,
    syncStatus client host db w = Return tt w1
    ∧ Storage.databases (store w1) !! "db-1" = Some db1
    ∧ Storage.Status db1 = "stopped".
Proof.
  intros client host db w.
  destruct (syncStatus_spec client host db w eq_refl eq_refl) as [_ H].
  destruct (H ltac:(discriminate) ltac:(discriminate))
    as (db1 & w1 & Hrun & Hdbs & _ & _ & _ & _ & _ & _ & Hok & _).
  exists db1, w1. split; [exact Hrun |]. split.
  - rewrite Hdbs. apply lookup_insert_eq.
  - apply (Hok "stopped" eq_refl). discriminate.
Defined.

End Reconciliation.

(** ** The manager: port allocation *)

Module PortAllocation.
Import Database Props ManagerTactics.

Lemma portLoop_used (host : Host) (used : gset Z) (startPort : Z) (n : nat)
  (port : Z) (w : World) :
  port ∈ used →
  portLoop host used startPort (S n) port w
  = portLoop host used startPort n (nextCandidate used startPort port) w.
Proof.
  intros Hused. cbn [portLoop]. unfold nextCandidate.
  by rewrite (bool_decide_eq_true_2 _ Hused).
Qed.

Lemma portLoop_accept (host : Host) (used : gset Z) (startPort : Z) (n : nat)
  (port : Z) (w : World) :
  port ∉ used → netListen host port = None →
  portLoop host used startPort (S n) port w = Return port (logged (CallListen port) w).
Proof.
  intros Hused Hfree. cbn [portLoop].
  rewrite (bool_decide_eq_false_2 _ Hused). run. by rewrite Hfree.
Qed.

Lemma portLoop_reject (host : Host) (used : gset Z) (startPort : Z) (n : nat)
  (port : Z) (w : World) (e : string) :
  port ∉ used → netListen host port = Some e →
  portLoop host used startPort (S n) port w
  = portLoop host used startPort n (nextCandidate used startPort port)
      (logged (CallListen port) w).
Proof.
  intros Hused Hbusy. cbn [portLoop]. unfold nextCandidate.
  rewrite (bool_decide_eq_false_2 _ Hused). run. by rewrite Hbusy.
Qed.

Lemma probesOf_S (used : gset Z) (startPort : Z) (i k : nat) (accepted : bool) :
  probesOf used startPort i (S k) accepted
  = probeAt used startPort i ++ probesOf used startPort (S i) k accepted.
Proof.
  unfold probesOf. cbn [seq fmap list_fmap concat].
  replace (i + S k)%nat with (S i + k)%nat by lia.
  by rewrite <- app_assoc.
Qed.

Lemma probesOf_0 (used : gset Z) (startPort : Z) (i : nat) (accepted : bool) :
  probesOf used startPort i 0 accepted
  = if accepted then [candidate used startPort i] else [].
Proof. unfold probesOf. simpl. by rewrite Nat.add_0_r. Qed.

Lemma free_used (host : Host) (used : gset Z) (port : Z) :
  port ∈ used → free host used port = false.
Proof. intros H. unfold free. by rewrite bool_decide_eq_false_2; [| intros H']. Qed.

Lemma free_busy (host : Host) (used : gset Z) (port : Z) (e : string) :
  netListen host port = Some e → free host used port = false.
Proof. intros H. unfold free. rewrite H. apply andb_false_r. Qed.

Lemma free_accept (host : Host) (used : gset Z) (port : Z) :
  port ∉ used → netListen host port = None → free host used port = true.
Proof. intros H1 H2. unfold free. by rewrite H2, bool_decide_eq_true_2. Qed.

(** The loop with [n] iterations left, standing at candidate [i]: it
    stops at the first accepted candidate among the next [n], or at the
    candidate after them. *)
Lemma portLoop_candidates (host : Host) (used : gset Z) (startPort : Z) (n : nat) :
  ∀ (i : nat) (w : World),
    ∃ k : nat,
      (k ≤ n)%nat
      ∧ portLoop host used startPort n (candidate used startPort i) w
        = Return (candidate used startPort (i + k))
            (mkWorld (store w)
               (calls w ++ (CallListen <$> probesOf used startPort i k (k <? n)%nat))
               (goroutines w))
      ∧ ((k < n)%nat → free host used (candidate used startPort (i + k)) = true)
      ∧ (∀ j, (i ≤ j < i + k)%nat → free host used (candidate used startPort j) = false).
Proof.
  induction n as [| n IH]; intros i w.
  - exists 0%nat. split; [lia |]. split; [| split; [lia | intros j; lia]].
    cbn [portLoop]. rewrite probesOf_0, Nat.add_0_r. simpl. rewrite app_nil_r.
    by destruct w.
  - set (port := candidate used startPort i).
    destruct (decide (port ∈ used)) as [Hused | Hused].
    + destruct (IH (S i) w) as (k & Hk & Hrun & Hfree & Hnot).
      exists (S k). split; [lia |].
      replace (i + S k)%nat with (S i + k)%nat by lia.
      split; [| split].
      * rewrite (portLoop_used _ _ _ _ _ _ Hused). fold port in Hrun.
        cbn [candidate] in Hrun. fold port in Hrun. rewrite Hrun.
        rewrite probesOf_S. unfold probeAt. fold port.
        rewrite (bool_decide_eq_true_2 _ Hused). simpl.
        by replace (S k <? S n)%nat with (k <? n)%nat by done.
      * intros Hlt. apply Hfree. lia.
      * intros j Hj. destruct (decide (j = i)) as [-> | Hne].
        -- by apply free_used.
        -- apply Hnot. lia.
    + destruct (netListen host port) as [e |] eqn:Hlisten.
      * destruct (IH (S i) (logged (CallListen port) w))
          as (k & Hk & Hrun & Hfree & Hnot).
        exists (S k). split; [lia |].
        replace (i + S k)%nat with (S i + k)%nat by lia.
        split; [| split].
        -- rewrite (portLoop_reject _ _ _ _ _ _ e Hused Hlisten).
           cbn [candidate] in Hrun. fold port in Hrun. rewrite Hrun.
           rewrite probesOf_S. unfold probeAt. fold port.
           rewrite (bool_decide_eq_false_2 _ Hused). simpl.
           replace (S k <? S n)%nat with (k <? n)%nat by done.
           by rewrite <- app_assoc.
        -- intros Hlt. apply Hfree. lia.
        -- intros j Hj. destruct (decide (j = i)) as [-> | Hne].
           ++ by apply (free_busy _ _ _ e).
           ++ apply Hnot. lia.
      * exists 0%nat. split; [lia |]. rewrite Nat.add_0_r.
        split; [| split; [| intros j; lia]].
        -- rewrite (portLoop_accept _ _ _ _ _ _ Hused Hlisten).
           rewrite probesOf_0. simpl. by destruct w.
        -- intros _. by apply free_accept.
Qed.

Lemma wrap64_small (z : Z) : - 2 ^ 63 ≤ z < 2 ^ 63 → wrap64 z = z.
Proof. intros Hz. unfold wrap64. rewrite Z.mod_small; lia. Qed.

(** Below the upper bound the next candidate is the next port. *)
Lemma nextCandidate_succ (used : gset Z) (startPort port : Z) :
  - 2 ^ 63 ≤ port < 65535 → nextCandidate used startPort port = port + 1.
Proof.
  intros Hp. unfold nextCandidate. rewrite wrap64_small by lia.
  destruct (bool_decide (port ∈ used)); [done |].
  by rewrite (proj2 (Z.ltb_ge 65535 (port + 1))) by lia.
Qed.

(** From the upper bound on, a port that no instance records is
    followed by the start port. *)
Lemma nextCandidate_wrap (used : gset Z) (startPort port : Z) :
  port ∉ used → 65535 ≤ port < 2 ^ 63 - 1 →
  nextCandidate used startPort port = startPort.
Proof.
  intros Hused Hp. unfold nextCandidate. rewrite wrap64_small by lia.
  rewrite (bool_decide_eq_false_2 _ Hused).
  by rewrite (proj2 (Z.ltb_lt 65535 (port + 1))) by lia.
Qed.

Lemma candidate_linear (used : gset Z) (startPort : Z) (i : nat) :
  0 ≤ startPort → startPort + Z.of_nat i ≤ 65535 →
  candidate used startPort i = startPort + Z.of_nat i.
Proof.
  intros H0. induction i as [| i IH]; intros Hi; cbn [candidate].
  - lia.
  - rewrite IH by lia. rewrite nextCandidate_succ; lia.
Qed.

Lemma findAvailablePortLocked_candidates (host : Host) (startPort : Z) (w : World) :
  ∃ k : nat,
    (k ≤ maxAttempts)%nat
    ∧ findAvailablePortLocked host startPort w
      = Return (candidate (usedPorts (store w)) startPort k)
          (mkWorld (store w)
             (calls w
              ++ (CallListen
                    <$> probesOf (usedPorts (store w)) startPort 0 k
                          (k <? maxAttempts)%nat))
             (goroutines w))
    ∧ ((k < maxAttempts)%nat →
       free host (usedPorts (store w)) (candidate (usedPorts (store w)) startPort k)
       = true)
    ∧ (∀ j, (j < k)%nat →
         free host (usedPorts (store w)) (candidate (usedPorts (store w)) startPort j)
         = false).
Proof.
  destruct (portLoop_candidates host (usedPorts (store w)) startPort maxAttempts 0 w)
    as (k & Hk & Hrun & Hfree & Hnot).
  exists k. split; [done |]. split; [| split].
  - unfold findAvailablePortLocked. cbv [mbind M_bind getStore].
    exact Hrun.
  - exact Hfree.
  - intros j Hj. apply Hnot. lia.
Qed.

(** C2, as the code has it.  The allocation looks at up to 1000
    candidates, the first being the start port and each next one given
    by [nextCandidate]: the next port, or the start port again after a
    probe of a port at the upper bound 65535 has failed.  A candidate
    that an instance of the store records is passed over without a
    probe; any other candidate is probed with [net.Listen] and returned
    when the probe succeeds.  Hence a free port that lies at most 999
    ports above the start port (and not above 65535), with no free port
    between, is the port returned.  When none of the 1000 candidates is
    accepted the function still returns a port and no error: the
    candidate that a 1001st attempt would look at, which in general is
    not the port of the last probe. *)
Theorem findAvailablePortLocked_spec (host : Host) (startPort : Z) (w : World) :
  (∃ k : nat,
     (k ≤ maxAttempts)%nat
     ∧ findAvailablePortLocked host startPort w
       = Return (candidate (usedPorts (store w)) startPort k)
           (mkWorld (store w)
              (calls w
               ++ (CallListen
                     <$> probesOf (usedPorts (store w)) startPort 0 k
                           (k <? maxAttempts)%nat))
              (goroutines w))
     ∧ ((k < maxAttempts)%nat →
        free host (usedPorts (store w)) (candidate (usedPorts (store w)) startPort k)
        = true)
     ∧ (∀ j, (j < k)%nat →
          free host (usedPorts (store w)) (candidate (usedPorts (store w)) startPort j)
          = false))
  ∧ (∀ port,
       0 ≤ startPort ≤ port → port ≤ 65535 → port - startPort < 1000 →
       free host (usedPorts (store w)) port = true →
       (∀ q, startPort ≤ q < port → free host (usedPorts (store w)) q = false) →
       ∃ w', findAvailablePortLocked host startPort w = Return port w'
             ∧ store w' = store w ∧ goroutines w' = goroutines w)
  ∧ ((∀ j, (j < maxAttempts)%nat →
        free host (usedPorts (store w)) (candidate (usedPorts (store w)) startPort j)
        = false) →
     findAvailablePortLocked host startPort w
     = Return (candidate (usedPorts (store w)) startPort maxAttempts)
         (mkWorld (store w)
            (calls w
             ++ (CallListen
                   <$> probesOf (usedPorts (store w)) startPort 0 maxAttempts false))
            (goroutines w)))
  ∧ (∀ port, - 2 ^ 63 ≤ port < 65535 →
       nextCandidate (usedPorts (store w)) startPort port = port + 1)
  ∧ (∀ port, port ∉ usedPorts (store w) → 65535 ≤ port < 2 ^ 63 - 1 →
       nextCandidate (usedPorts (store w)) startPort port = startPort).
Proof.
  pose proof (findAvailablePortLocked_candidates host startPort w) as Hcand.
  split; [exact Hcand |]. split; [| split; [| split]].
  - intros port Hstart Hmax Hnear Hfree Hbelow.
    destruct Hcand as (k & Hk & Hrun & Hkfree & Hnot).
    set (i0 := Z.to_nat (port - startPort)).
    assert (Hi0 : candidate (usedPorts (store w)) startPort i0 = port).
    { rewrite candidate_linear; subst i0; lia. }
    assert (k = i0) as ->.
    { destruct (Nat.lt_trichotomy k i0) as [Hlt | [Heq | Hgt]]; [| done |].
      - exfalso. unfold maxAttempts in *.
        assert (Hkf := Hkfree ltac:(subst i0; lia)).
        rewrite candidate_linear in Hkf by (subst i0; lia).
        rewrite Hbelow in Hkf by (subst i0; lia). done.
      - exfalso. specialize (Hnot i0 Hgt). rewrite Hi0 in Hnot. congruence. }
    rewrite Hi0 in Hrun. eexists. split; [exact Hrun | done].
  - intros Hnone. destruct Hcand as (k & Hk & Hrun & Hkfree & Hnot).
    destruct (decide (k = maxAttempts)) as [-> | Hne].
    + by rewrite Nat.ltb_irrefl in Hrun.
    + exfalso. assert (Hlt : (k < maxAttempts)%nat) by lia.
      specialize (Hkfree Hlt). rewrite Hnone in Hkfree by done. done.
  - intros port Hp. by apply nextCandidate_succ.
  - intros port Hused Hp. by apply nextCandidate_wrap.
Qed.

(** With an instance on 5432 and a foreign listener on 5433, the
    allocation from 5432 returns 5434. *)
Lemma findAvailablePortLocked_spec_witness :
  let host := hostListening (fun port => if port =? 5433 then Some "in use" else None) in
  let w := worldOf [instance "db-1" 5432 "running" "0123456789abcdef"] in
  ∃ w', findAvailablePortLocked host 5432 w = Return 5434 w'
        ∧ store w' = store w ∧ goroutines w' = goroutines w.
Proof.
  intros host w.
  destruct (findAvailablePortLocked_spec host 5432 w) as (_ & H & _).
  apply (H 5434); [lia | lia | lia | by vm_compute |].
  intros q Hq. assert (q = 5432 ∨ q = 5433) as [-> | ->] by lia; by vm_compute.
Defined.

(** C2 as stated fails: when every probe fails, the port returned is not
    the last port tried.  From 5432, with no instance in the store, the
    1000 probes go from 5432 to 6431, and 6432 is returned, a port that
    was never probed. *)
Lemma findAvailablePortLocked_returns_untried_port :
  match findAvailablePortLocked (hostListening (fun _ => Some "in use")) 5432 emptyWorld with
  | Return port w' =>
      port = 6432
      ∧ length (probes (calls w')) = 1000%nat
      ∧ last (probes (calls w')) = Some 6431
      ∧ forallb (fun tried => negb (tried =? port)) (probes (calls w')) = true
  | Panic _ => False
  end.
Proof. vm_compute. repeat split. Qed.

End PortAllocation.

(** ** The manager: creation and provisioning *)

Module Provisioning.
Import Database Props ManagerTactics Reconciliation.

Lemma runtimeCalls_app (cs1 cs2 : list Call) :
  runtimeCalls (cs1 ++ cs2) = runtimeCalls cs1 ++ runtimeCalls cs2.
Proof. unfold runtimeCalls. apply List.filter_app. Qed.

Lemma runtimeCalls_listen (ports : list Z) : runtimeCalls (CallListen <$> ports) = [].
Proof. induction ports as [| p ports IH]; [done |]. exact IH. Qed.

Section Goroutine.
Context (client : Client) (host : Host).
Context (db : Storage.DatabaseInstance) (imageName dataDir : string) (port : Z).
Context (engine : Engine) (seedSource seedContent : string).
Context (w : World).
Hypothesis Hpresent : is_Some (Storage.databases (store w) !! Storage.ID db).
Hypothesis Hfault : storeFault host (OpUpdateDatabase (Storage.ID db)) = None.

Let provision :=
  provisionDedicatedDatabase client host db imageName dataDir port engine
    seedSource seedContent.

Let persisted (db' : Storage.DatabaseInstance) (made : list Call)
  (started : list Goroutine) : World :=
  mkWorld
    (Storage.with_databases
       (<[Storage.ID db := db']> (Storage.databases (store w))) (store w))
    (calls w ++ made) (goroutines w ++ started).

Lemma provision_pull_fails (e : string) :
  PullImage client imageName = Some e →
  provision w
  = Return tt
      (persisted
         (Storage.set_ErrorMessage ("Failed to pull image: " +:+ e)
            (Storage.set_Status "error" db))
         [CallPullImage imageName] []).
Proof.
  intros Hpull. subst provision persisted. destruct Hpresent as [old Hold].
  open_world w. unfold provisionDedicatedDatabase. run. rewrite Hpull.
  rewrite ?ID_set_ErrorMessage, ?ID_set_Status, ?ID_set_ContainerID, Hfault, Hold. by rewrite app_nil_r.
Qed.

Lemma provision_create_fails (containerID e : string) :
  PullImage client imageName = None →
  CreateContainer client (containerConfig db imageName port engine)
  = (containerID, Some e) →
  provision w
  = Return tt
      (persisted
         (Storage.set_ErrorMessage ("Failed to create container: " +:+ e)
            (Storage.set_Status "error" db))
         [CallPullImage imageName;
          CallCreateContainer (containerConfig db imageName port engine)] []).
Proof.
  intros Hpull Hcreate. subst provision persisted. destruct Hpresent as [old Hold].
  open_world w. unfold provisionDedicatedDatabase. run. rewrite Hpull, Hcreate.
  rewrite ?ID_set_ErrorMessage, ?ID_set_Status, ?ID_set_ContainerID, Hfault, Hold. by rewrite app_nil_r, <- app_assoc.
Qed.

Lemma provision_short_id (containerID : string) :
  PullImage client imageName = None →
  CreateContainer client (containerConfig db imageName port engine)
  = (containerID, None) →
  (String.length containerID < 12)%nat →
  provision w
  = Panic
      (mkWorld (store w)
         (calls w ++ [CallPullImage imageName;
                      CallCreateContainer (containerConfig db imageName port engine)])
         (goroutines w)).
Proof.
  intros Hpull Hcreate Hlen. subst provision persisted.
  open_world w. unfold provisionDedicatedDatabase, sliceTo. run.
  rewrite Hpull, Hcreate. rewrite (proj2 (Nat.ltb_lt _ _) Hlen).
  unfold panic. by rewrite <- app_assoc.
Qed.

Lemma provision_start_fails (containerID e : string) :
  PullImage client imageName = None →
  CreateContainer client (containerConfig db imageName port engine)
  = (containerID, None) →
  (12 ≤ String.length containerID)%nat →
  StartContainer client containerID = Some e →
  provision w
  = Return tt
      (persisted
         (Storage.set_ErrorMessage ("Failed to start container: " +:+ e)
            (Storage.set_Status "error" (Storage.set_ContainerID containerID db)))
         [CallPullImage imageName;
          CallCreateContainer (containerConfig db imageName port engine);
          CallStartContainer containerID] []).
Proof.
  intros Hpull Hcreate Hlen Hstart. subst provision persisted.
  destruct Hpresent as [old Hold].
  open_world w. unfold provisionDedicatedDatabase, sliceTo. run.
  rewrite Hpull, Hcreate. rewrite (proj2 (Nat.ltb_ge _ _) Hlen). run. rewrite Hstart.
  rewrite ?ID_set_ErrorMessage, ?ID_set_Status, ?ID_set_ContainerID, Hfault, Hold. by rewrite app_nil_r, <- !app_assoc.
Qed.

Lemma provision_succeeds (containerID : string) :
  PullImage client imageName = None →
  CreateContainer client (containerConfig db imageName port engine)
  = (containerID, None) →
  (12 ≤ String.length containerID)%nat →
  StartContainer client containerID = None →
  let db' :=
    Storage.set_ErrorMessage ""
      (Storage.set_Status "running" (Storage.set_ContainerID containerID db)) in
  provision w
  = Return tt
      (persisted db'
         [CallPullImage imageName;
          CallCreateContainer (containerConfig db imageName port engine);
          CallStartContainer containerID]
         (if negb (String.eqb seedSource "") && negb (String.eqb seedSource "none")
          then [GoApplySeed db' seedSource seedContent] else [])).
Proof.
  intros Hpull Hcreate Hlen Hstart db'. subst provision persisted db'.
  destruct Hpresent as [old Hold].
  open_world w. unfold provisionDedicatedDatabase, sliceTo. run.
  rewrite Hpull, Hcreate. rewrite (proj2 (Nat.ltb_ge _ _) Hlen). run. rewrite Hstart.
  rewrite ?ID_set_ErrorMessage, ?ID_set_Status, ?ID_set_ContainerID, Hfault, Hold.
  destruct (negb (String.eqb seedSource "") && negb (String.eqb seedSource "none"));
    run; by rewrite ?app_nil_r, <- !app_assoc.
Qed.

End Goroutine.

(** [Create] on a known engine, with a data directory that can be
    resolved and created and a store that takes the record. *)
Lemma Create_run (host : Host) (engines : gmap string Engine) (req : CreateRequest)
  (engine : Engine) (base : string) (w : World) :
  let id := "db-" +:+ substring 0 8 (uuidForID host) in
  let dataDir := filepathJoin host [base; "databases"; id] in
  engines !! rEngine req = Some engine →
  filepathAbs host (Storage.DataDir (store w)) = (base, None) →
  osMkdirAll host dataDir = None →
  storeFault host (OpCreateDatabase id) = None →
  ∃ db imageName port probed,
    Create host engines req w
    = Return (Some db, None)
        (mkWorld
           (Storage.with_databases (<[id := db]> (Storage.databases (store w))) (store w))
           (calls w ++ (CallListen <$> probed) ++ [CallMkdirAll dataDir])
           (goroutines w
            ++ [GoProvision db imageName dataDir port engine
                  (rSeedSource req) (rSeedContent req)]))
    ∧ Storage.ID db = id
    ∧ Storage.Status db = "creating"
    ∧ Storage.ContainerID db = ""
    ∧ Storage.ErrorMessage db = ""
    ∧ Storage.Port db = port
    ∧ (rPort req ≠ 0 → port = rPort req ∧ probed = []).
Proof.
  intros id dataDir Hengine Habs Hmkdir Hfault.
  unfold Create. set (req' := if String.eqb (rPassword req) "" then _ else req).
  assert (Hreq : rEngine req' = rEngine req ∧ rPort req' = rPort req
                 ∧ rSeedSource req' = rSeedSource req
                 ∧ rSeedContent req' = rSeedContent req).
  { subst req'. by destruct (String.eqb (rPassword req) ""). }
  destruct Hreq as (He & Hp & Hs1 & Hs2).
  unfold createDedicatedDatabase, GetEngine. rewrite He, Hengine, Hp, Hs1, Hs2.
  destruct (Z.eqb_spec (rPort req) 0) as [Hzero | Hnonzero].
  - destruct (PortAllocation.findAvailablePortLocked_candidates host (DefaultPort engine) w)
      as (k & _ & Hrun & _).
    cbv [mbind M_bind]. rewrite Hrun. open_world w. run.
    rewrite Habs. fold id. fold dataDir. rewrite Hmkdir. cbn [Storage.ID].
    fold id. rewrite Hfault. do 4 eexists.
    split; [rewrite <- app_assoc; reflexivity |].
    repeat (split; [reflexivity |]). intros Hn. by destruct Hn.
  - open_world w. run. rewrite Habs. fold id. fold dataDir. rewrite Hmkdir.
    cbn [Storage.ID]. fold id. rewrite Hfault. eexists _, _, _, [].
    split; [reflexivity |]. repeat split.
Qed.

Lemma provisioning_fields (status message containerID : string)
  (db : Storage.DatabaseInstance) :
  let failed := Storage.set_ErrorMessage message (Storage.set_Status status db) in
  let started :=
    Storage.set_ErrorMessage message
      (Storage.set_Status status (Storage.set_ContainerID containerID db)) in
  Storage.Status failed = status ∧ Storage.ErrorMessage failed = message
  ∧ Storage.ContainerID failed = Storage.ContainerID db
  ∧ sameButProvisioning db failed
  ∧ Storage.Status started = status ∧ Storage.ErrorMessage started = message
  ∧ Storage.ContainerID started = containerID
  ∧ sameButProvisioning db started.
Proof. by destruct db. Qed.

(** C3.  On a known engine, with a data directory that can be resolved
    and created and a store that takes the record, [Create] stores and
    returns the record with status "creating" and no container, makes no
    call through the runtime client and starts one provisioning
    goroutine.  Run in any later state that still holds the instance,
    that goroutine pulls the image, creates the container and starts it,
    each at most once and stopping at the first failure.  A failed step
    leaves the stored record with status "error" and the message "Failed
    to pull image: ...", "Failed to create container: ..." or "Failed to
    start container: ..." with the step's error text; three successful
    steps leave it with status "running", the container's identifier,
    which is not empty, and an empty error message.  Nothing else of the
    record changes.  (The identifier of a created container is taken to
    have at least 12 bytes, which the goroutine's log line relies
    on.) *)
Theorem provisioning_spec (client : Client) (host : Host)
  (engines : gmap string Engine) (req : CreateRequest) (engine : Engine)
  (base : string) (w : World) :
  let id := "db-" +:+ substring 0 8 (uuidForID host) in
  let dataDir := filepathJoin host [base; "databases"; id] in
  engines !! rEngine req = Some engine →
  filepathAbs host (Storage.DataDir (store w)) = (base, None) →
  osMkdirAll host dataDir = None →
  storeFault host (OpCreateDatabase id) = None →
  storeFault host (OpUpdateDatabase id) = None →
  ∃ db imageName port w1,
    let task :=
      GoProvision db imageName dataDir port engine (rSeedSource req) (rSeedContent req) in
    let cfg := containerConfig db imageName port engine in
    Create host engines req w = Return (Some db, None) w1
    ∧ Storage.ID db = id
    ∧ Storage.Status db = "creating"
    ∧ Storage.ContainerID db = ""
    ∧ Storage.databases (store w1) = <[id := db]> (Storage.databases (store w))
    ∧ runtimeCalls (calls w1) = runtimeCalls (calls w)
    ∧ goroutines w1 = goroutines w ++ [task]
    ∧ ∀ w2,
        is_Some (Storage.databases (store w2) !! id) →
        (∀ e,
           PullImage client imageName = Some e →
           ∃ db',
             leaves client host task w2 id db' [CallPullImage imageName]
             ∧ Storage.Status db' = "error"
             ∧ Storage.ErrorMessage db' = "Failed to pull image: " +:+ e
             ∧ sameButProvisioning db db')
        ∧ (∀ containerID e,
             PullImage client imageName = None →
             CreateContainer client cfg = (containerID, Some e) →
             ∃ db',
               leaves client host task w2 id db'
                 [CallPullImage imageName; CallCreateContainer cfg]
               ∧ Storage.Status db' = "error"
               ∧ Storage.ErrorMessage db' = "Failed to create container: " +:+ e
               ∧ sameButProvisioning db db')
        ∧ (∀ containerID e,
             PullImage client imageName = None →
             CreateContainer client cfg = (containerID, None) →
             (12 ≤ String.length containerID)%nat →
             StartContainer client containerID = Some e →
             ∃ db',
               leaves client host task w2 id db'
                 [CallPullImage imageName; CallCreateContainer cfg;
                  CallStartContainer containerID]
               ∧ Storage.Status db' = "error"
               ∧ Storage.ErrorMessage db' = "Failed to start container: " +:+ e
               ∧ sameButProvisioning db db')
        ∧ (∀ containerID,
             PullImage client imageName = None →
             CreateContainer client cfg = (containerID, None) →
             (12 ≤ String.length containerID)%nat →
             StartContainer client containerID = None →
             ∃ db',
               leaves client host task w2 id db'
                 [CallPullImage imageName; CallCreateContainer cfg;
                  CallStartContainer containerID]
               ∧ Storage.Status db' = "running"
               ∧ Storage.ContainerID db' = containerID
               ∧ containerID ≠ ""
               ∧ Storage.ErrorMessage db' = ""
               ∧ sameButProvisioning db db').
Proof.
  intros id dataDir Hengine Habs Hmkdir Hcreate Hupdate.
  destruct (Create_run host engines req engine base w Hengine Habs Hmkdir Hcreate)
    as (db & imageName & port & probed & Hrun & Hid & Hst & Hcid & Hmsg & _ & _).
  fold id in Hrun, Hid. fold dataDir in Hrun.
  exists db, imageName, port. eexists. cbv zeta.
  split; [exact Hrun |]. cbn [store calls goroutines].
  do 3 (split; [done |]).
  split; [by destruct (store w) |].
  split.
  { rewrite !runtimeCalls_app, runtimeCalls_listen. simpl. by rewrite app_nil_r. }
  split; [done |].
  intros w2 Hpresent. rewrite <- Hid in Hpresent, Hupdate.
  unfold leaves, runGoroutine. rewrite <- Hid.
  split; [| split; [| split]].
  - intros e Hpull.
    destruct (provisioning_fields "error" ("Failed to pull image: " +:+ e) "" db)
      as (H1 & H2 & _ & H3 & _).
    eexists. split; [| done]. eexists.
    apply (provision_pull_fails client host db imageName dataDir port engine
             _ _ w2 Hpresent Hupdate e Hpull).
  - intros containerID e Hpull Hcr.
    destruct (provisioning_fields "error" ("Failed to create container: " +:+ e) "" db)
      as (H1 & H2 & _ & H3 & _).
    eexists. split; [| done]. eexists.
    apply (provision_create_fails client host db imageName dataDir port engine
             _ _ w2 Hpresent Hupdate containerID e Hpull Hcr).
  - intros containerID e Hpull Hcr Hlen Hstart.
    destruct (provisioning_fields "error" ("Failed to start container: " +:+ e)
                containerID db) as (_ & _ & _ & _ & H1 & H2 & _ & H3).
    eexists. split; [| done]. eexists.
    apply (provision_start_fails client host db imageName dataDir port engine
             _ _ w2 Hpresent Hupdate containerID e Hpull Hcr Hlen Hstart).
  - intros containerID Hpull Hcr Hlen Hstart.
    destruct (provisioning_fields "running" "" containerID db)
      as (_ & _ & _ & _ & H1 & H2 & H4 & H3).
    eexists. split.
    + eexists.
      apply (provision_succeeds client host db imageName dataDir port engine
               _ _ w2 Hpresent Hupdate containerID Hpull Hcr Hlen Hstart).
    + repeat split; try done. intros ->. simpl in Hlen. lia.
Qed.

(** A PostgreSQL instance requested without a port on an idle host:
    created as "creating", then provisioned to "running". *)
Lemma provisioning_spec_witness :
  let client := clientReporting "running" in
  let host := hostListening (fun _ => None) in
  let engines : gmap string Engine := {[ "postgresql" := postgres ]} in
  ∃ db task w1 db',
    Create host engines (requestOn 0) emptyWorld = Return (Some db, None) w1
    ∧ Storage.Status db = "creating"
    ∧ goroutines w1 = [task]
    ∧ leaves client host task w1 (Storage.ID db) db'
        [CallPullImage "postgres:16";
         CallCreateContainer (containerConfig db "postgres:16" 5432 postgres);
         CallStartContainer "0123456789abcdef"]
    ∧ Storage.Status db' = "running"
    ∧ Storage.ContainerID db' = "0123456789abcdef".
Proof.
  intros client host engines.
  destruct (provisioning_spec client host engines (requestOn 0) postgres ""
              emptyWorld eq_refl eq_refl eq_refl eq_refl eq_refl)
    as (db & imageName & port & w1 & Hrun & Hid & Hst & Hcid & Hdbs & _ & Hgo & Hprov).
  assert (Hvalues : imageName = "postgres:16" ∧ port = 5432).
  { pose proof Hrun as Hc. vm_compute in Hc. injection Hc as _ Hw.
    rewrite <- Hw in Hgo. vm_compute in Hgo. injection Hgo as _ H1 H2. by subst. }
  destruct Hvalues as [-> ->].
  assert (Hpresent : is_Some (Storage.databases (store w1)
                                !! ("db-" +:+ substring 0 8 (uuidForID host)))).
  { rewrite Hdbs, lookup_insert_eq. by eexists. }
  destruct (Hprov w1 Hpresent) as (_ & _ & _ & Hok).
  destruct (Hok "0123456789abcdef" eq_refl eq_refl ltac:(simpl; lia) eq_refl)
    as (db' & Hleaves & Hrunning & Hcontainer & _).
  eexists db, _, w1, db'. rewrite Hid.
  split; [exact Hrun |]. split; [exact Hst |]. split; [exact Hgo |].
  split; [exact Hleaves |]. by split.
Defined.

End Provisioning.

(** ** The scheduler: retention *)

Module Retention.
Import Database Props ManagerTactics.

(** The deletion loop: every backup of the list whose own deletion does
    not fail is gone afterwards, whatever happened to the others. *)
Lemma delete_loop (host : Host) (l : list Storage.Backup) :
  ∀ w, ∃ bks',
    forEach (fun backup => storeDeleteBackup host (Storage.bID backup);; mret tt) l w
    = Return tt
        (mkWorld (Storage.with_backups bks' (store w)) (calls w) (goroutines w))
    ∧ ∀ k, bks' !! k
           = if bool_decide (k ∈ deletable host l) then None
             else Storage.backups (store w) !! k.
Proof.
  induction l as [| b l IH]; intros w.
  - exists (Storage.backups (store w)). split.
    + open_world w. reflexivity.
    + intros k. unfold deletable. cbn [filter list_filter fmap list_fmap].
      case_bool_decide as Hk; [by apply elem_of_nil in Hk | done].
  - cbn [forEach]. open_world w. run.
    unfold deletable. rewrite filter_cons.
    destruct (storeFault host (OpDeleteBackup (Storage.bID b))) as [e |] eqn:Hfault.
    + rewrite decide_False by done.
      destruct (IH (mkWorld (Storage.mkStore dbs bks dir) cs gs)) as (bks' & Hrun & Hl).
      exists bks'. split; [exact Hrun | exact Hl].
    + rewrite decide_True by done. cbn [fmap list_fmap]. fold (deletable host l).
      destruct (bks !! Storage.bID b) as [old |] eqn:Hold.
      * destruct (IH (mkWorld (Storage.mkStore dbs (delete (Storage.bID b) bks) dir) cs gs))
          as (bks' & Hrun & Hl).
        exists bks'. split; [exact Hrun |].
        intros k. rewrite Hl. simpl.
        destruct (decide (k = Storage.bID b)) as [-> | Hne].
        -- rewrite lookup_delete_eq. repeat case_bool_decide; set_solver.
        -- rewrite lookup_delete_ne by done. repeat case_bool_decide; set_solver.
      * destruct (IH (mkWorld (Storage.mkStore dbs bks dir) cs gs)) as (bks' & Hrun & Hl).
        exists bks'. split; [exact Hrun |].
        intros k. rewrite Hl. simpl.
        destruct (decide (k = Storage.bID b)) as [-> | Hne].
        -- rewrite Hold. repeat case_bool_decide; set_solver.
        -- repeat case_bool_decide; set_solver.
Qed.

Lemma elem_of_ListBackups (databaseID : string) (s : Storage.Store) (b : Storage.Backup) :
  b ∈ Storage.ListBackups databaseID s
  ↔ (∃ k, Storage.backups s !! k = Some b)
    ∧ (databaseID = "" ∨ Storage.DatabaseID b = databaseID).
Proof.
  unfold Storage.ListBackups. rewrite list_elem_of_filter, list_elem_of_fmap. split.
  - intros [HP ([k b'] & -> & Hin)]. apply elem_of_map_to_list in Hin. eauto.
  - intros [[k Hk] HP]. split; [done |]. exists (k, b). split; [done |].
    by apply elem_of_map_to_list.
Qed.

Lemma NoDup_ListBackups (databaseID : string) (s : Storage.Store) :
  keyedByID s → NoDup (Storage.ListBackups databaseID s).
Proof.
  intros [_ Hkey]. unfold Storage.ListBackups. apply NoDup_filter.
  apply NoDup_fmap_2_strong; [| apply NoDup_map_to_list].
  intros [k1 b1] [k2 b2] H1%elem_of_map_to_list H2%elem_of_map_to_list Heq.
  simpl in Heq. subst b2. by rewrite <- (Hkey _ _ H1), <- (Hkey _ _ H2).
Qed.

Section Pass.
Context (host : Host).
Context (sortSlice : (Storage.Backup → Storage.Backup → bool) →
                     list Storage.Backup → list Storage.Backup).
Context (databaseID : string) (db : Storage.DatabaseInstance) (w : World).
Hypothesis Hsort : sortsByCreation sortSlice.
Hypothesis Hkeyed : keyedByID (store w).
Hypothesis Hdb : Storage.databases (store w) !! databaseID = Some db.

Let N := Storage.BackupRetentionCount db.
Let all := Storage.ListBackups databaseID (store w).
Let sorted := sortSlice Scheduler.createdAfter all.
Let kept := take (Z.to_nat N) sorted.
Let dropped := drop (Z.to_nat N) sorted.

Lemma retention_skips :
  N ≤ 0 ∨ Z.of_nat (length all) ≤ N →
  Scheduler.applyRetention host sortSlice databaseID w = Return tt w.
Proof.
  intros Hskip. subst N all. clear Hkeyed. open_world w.
  unfold Scheduler.applyRetention. run. rewrite Hdb.
  destruct (Z.leb_spec (Storage.BackupRetentionCount db) 0); [done |].
  destruct (Z.leb_spec
              (Z.of_nat (length (Storage.ListBackups databaseID
                                   (Storage.mkStore dbs bks dir))))
              (Storage.BackupRetentionCount db)); [done | lia].
Qed.

Lemma retention_runs :
  0 < N < Z.of_nat (length all) →
  ∃ bks',
    Scheduler.applyRetention host sortSlice databaseID w
    = Return tt (mkWorld (Storage.with_backups bks' (store w)) (calls w) (goroutines w))
    ∧ ∀ k, bks' !! k
           = if bool_decide (k ∈ deletable host dropped) then None
             else Storage.backups (store w) !! k.
Proof.
  intros HN.
  destruct (delete_loop host dropped w) as (bks' & Hrun & Hl).
  exists bks'. split; [| exact Hl].
  rewrite <- Hrun. subst dropped kept sorted all N. clear Hkeyed Hrun Hl.
  open_world w. unfold Scheduler.applyRetention. run. rewrite Hdb.
  destruct (Z.leb_spec (Storage.BackupRetentionCount db) 0); [lia |].
  destruct (Z.leb_spec
              (Z.of_nat (length (Storage.ListBackups databaseID
                                   (Storage.mkStore dbs bks dir))))
              (Storage.BackupRetentionCount db)); [lia | done].
Qed.

Lemma sorted_all (b : Storage.Backup) : b ∈ sorted ↔ b ∈ all.
Proof. subst sorted. by rewrite (proj1 (Hsort all)). Qed.

Lemma all_stored (b : Storage.Backup) :
  b ∈ all → Storage.backups (store w) !! Storage.bID b = Some b.
Proof.
  intros [[k Hk] _]%elem_of_ListBackups.
  destruct Hkeyed as [_ Hkey]. by rewrite (Hkey _ _ Hk).
Qed.

Lemma all_bID_inj (b1 b2 : Storage.Backup) :
  b1 ∈ all → b2 ∈ all → Storage.bID b1 = Storage.bID b2 → b1 = b2.
Proof.
  intros H1%all_stored H2%all_stored Heq. rewrite Heq in H1. congruence.
Qed.

Lemma sorted_split : sorted = kept ++ dropped.
Proof. subst kept dropped. by rewrite take_drop. Qed.

Lemma NoDup_sorted : NoDup sorted.
Proof.
  subst sorted. rewrite (proj1 (Hsort all)). by apply NoDup_ListBackups.
Qed.

Lemma kept_not_dropped (b : Storage.Backup) : b ∈ kept → b ∉ dropped.
Proof.
  pose proof NoDup_sorted as Hnd. rewrite sorted_split in Hnd.
  apply NoDup_app in Hnd as (_ & Hdisj & _). apply Hdisj.
Qed.

Lemma deletable_dropped (k : string) :
  k ∈ deletable host dropped
  ↔ ∃ b, b ∈ dropped ∧ Storage.bID b = k
         ∧ storeFault host (OpDeleteBackup (Storage.bID b)) = None.
Proof.
  unfold deletable. rewrite list_elem_of_fmap. split.
  - intros (b & -> & [Hf Hb]%list_elem_of_filter). eauto.
  - intros (b & Hb & <- & Hf). exists b. split; [done |].
    by apply list_elem_of_filter.
Qed.

Lemma dropped_all (b : Storage.Backup) : b ∈ dropped → b ∈ all.
Proof. intros Hb. apply sorted_all. rewrite sorted_split. set_solver. Qed.

Lemma kept_all (b : Storage.Backup) : b ∈ kept → b ∈ all.
Proof. intros Hb. apply sorted_all. rewrite sorted_split. set_solver. Qed.

(** C6.  One application of retention to a database with retention
    count [N], on a store whose backups are keyed by their identifier.
    With [N <= 0], or with at most [N] backups of the database, nothing
    happens.  Otherwise the backups of the database are sorted by
    creation time, newest first; the first [N] of them are kept and each
    of the others is deleted unless its own deletion fails, in which
    case that one stays and the loop goes on with the next.  No kept
    backup is older than a deleted one.  Backups of other databases, the
    instances and the call log are untouched, and nothing is added.
    When no deletion fails, the backups of the database afterwards are
    exactly the [N] kept ones. *)
Theorem applyRetention_spec :
  (N ≤ 0 ∨ Z.of_nat (length all) ≤ N →
   Scheduler.applyRetention host sortSlice databaseID w = Return tt w)
  ∧ (0 < N < Z.of_nat (length all) →
     ∃ w',
       Scheduler.applyRetention host sortSlice databaseID w = Return tt w'
       ∧ Storage.databases (store w') = Storage.databases (store w)
       ∧ calls w' = calls w
       ∧ goroutines w' = goroutines w
       ∧ length kept = Z.to_nat N
       ∧ (∀ k d, k ∈ kept → d ∈ dropped →
            Storage.bCreatedAt d ≤ Storage.bCreatedAt k)
       ∧ (∀ b, b ∈ kept → Storage.backups (store w') !! Storage.bID b = Some b)
       ∧ (∀ b, b ∈ dropped →
            Storage.backups (store w') !! Storage.bID b
            = match storeFault host (OpDeleteBackup (Storage.bID b)) with
              | None => None
              | Some _ => Some b
              end)
       ∧ (∀ k b, Storage.backups (store w) !! k = Some b → b ∉ all →
            Storage.backups (store w') !! k = Some b)
       ∧ (∀ k b, Storage.backups (store w') !! k = Some b →
            Storage.backups (store w) !! k = Some b)
       ∧ ((∀ b, b ∈ dropped → storeFault host (OpDeleteBackup (Storage.bID b)) = None) →
          Storage.ListBackups databaseID (store w') ≡ₚ kept)).
Proof.
  split; [apply retention_skips |].
  intros HN. destruct (retention_runs HN) as (bks' & Hrun & Hl).
  eexists. split; [exact Hrun |]. cbn [store calls goroutines].
  assert (Hother : ∀ b, b ∈ all → Storage.bID b ∈ deletable host dropped →
                        b ∈ dropped
                        ∧ storeFault host (OpDeleteBackup (Storage.bID b)) = None).
  { intros b Hb (d & Hd & Heq & Hf)%deletable_dropped.
    assert (d = b) as -> by (apply all_bID_inj; [by apply dropped_all | done..]).
    done. }
  assert (Hlen : length sorted = length all).
  { subst sorted. by rewrite (proj1 (Hsort all)). }
  assert (Hkept : ∀ b, b ∈ kept → bks' !! Storage.bID b = Some b).
  { intros b Hb. rewrite Hl. case_bool_decide as Hin.
    - apply Hother in Hin as [Hin _]; [| by apply kept_all].
      by apply kept_not_dropped in Hb.
    - apply all_stored. by apply kept_all. }
  assert (Hsub : ∀ k b, bks' !! k = Some b → Storage.backups (store w) !! k = Some b).
  { intros k b. rewrite Hl. by case_bool_decide. }
  repeat match goal with |- _ ∧ _ => split end.
  - done.
  - done.
  - done.
  - subst kept. rewrite length_take_le; lia.
  - intros k d Hk Hd.
    apply (StronglySorted_app_1_elem_of
             (fun a b => Storage.bCreatedAt b ≤ Storage.bCreatedAt a) kept dropped);
      [| done | done].
    rewrite <- sorted_split. subst sorted. apply Hsort.
  - exact Hkept.
  - intros b Hb. cbn. rewrite Hl.
    destruct (storeFault host (OpDeleteBackup (Storage.bID b))) as [e |] eqn:Hf.
    + case_bool_decide as Hin.
      * apply Hother in Hin as [_ Hin]; [congruence | by apply dropped_all].
      * apply all_stored. by apply dropped_all.
    + rewrite bool_decide_eq_true_2; [done |].
      apply deletable_dropped. by exists b.
  - intros k b Hk Hb. cbn. rewrite Hl.
    case_bool_decide as Hin; [| done].
    apply deletable_dropped in Hin as (d & Hd & <- & _).
    apply dropped_all in Hd. pose proof (all_stored d Hd) as Hst. congruence.
  - exact Hsub.
  - intros Hnofault.
    assert (Hkeyed' : keyedByID (Storage.with_backups bks' (store w))).
    { destruct Hkeyed as [Hk1 Hk2]. split; [exact Hk1 |].
      cbn. intros k b Hk. apply Hsub in Hk. by apply Hk2. }
    apply NoDup_Permutation.
    + by apply NoDup_ListBackups.
    + pose proof NoDup_sorted as Hnd. rewrite sorted_split in Hnd.
      by apply NoDup_app in Hnd as (Hnd & _ & _).
    + intros b. rewrite elem_of_ListBackups. split.
      * intros [[k Hk'] HP]. cbn in Hk'.
        pose proof (Hsub _ _ Hk') as Hold.
        assert (Hall : b ∈ all).
        { subst all. apply elem_of_ListBackups. eauto. }
        assert (Hkb : Storage.bID b = k) by (by apply (proj2 Hkeyed k b)).
        apply sorted_all in Hall as Hs. rewrite sorted_split in Hs.
        apply elem_of_app in Hs as [Hs | Hs]; [done |]. exfalso.
        rewrite Hl in Hk'. rewrite bool_decide_eq_true_2 in Hk'; [done |].
        apply deletable_dropped. exists b. eauto.
      * intros Hb. pose proof (kept_all b Hb) as Hall.
        apply elem_of_ListBackups in Hall as [_ HP]. split; [| done].
        exists (Storage.bID b). cbn. by apply Hkept.
Qed.

End Pass.

(** Sorting by straight insertion meets the contract of [sort.Slice]. *)
Lemma insertBy_perm (x : Storage.Backup) (l : list Storage.Backup) :
  Scheduler.insertBy Scheduler.createdAfter x l ≡ₚ x :: l.
Proof.
  induction l as [| y l IH]; simpl; [done |].
  destruct (Scheduler.createdAfter y x); [| done].
  rewrite IH. apply Permutation_swap.
Qed.

Lemma insertBy_sorted (x : Storage.Backup) (l : list Storage.Backup) :
  StronglySorted (fun a b => Storage.bCreatedAt b ≤ Storage.bCreatedAt a) l →
  StronglySorted (fun a b => Storage.bCreatedAt b ≤ Storage.bCreatedAt a)
    (Scheduler.insertBy Scheduler.createdAfter x l).
Proof.
  induction l as [| y l IH]; simpl; intros Hl.
  - by repeat constructor.
  - apply StronglySorted_cons in Hl as [Hy Hl].
    unfold Scheduler.createdAfter at 1.
    destruct (Z.ltb_spec (Storage.bCreatedAt x) (Storage.bCreatedAt y)).
    + apply StronglySorted_cons. split; [| by apply IH].
      rewrite insertBy_perm. constructor; [lia | done].
    + apply StronglySorted_cons. split.
      * constructor; [done |]. eapply Forall_impl; [exact Hy |]. simpl. lia.
      * by apply StronglySorted_cons.
Qed.

Lemma insertionSort_sorts : sortsByCreation (@Scheduler.insertionSort Storage.Backup).
Proof.
  intros l. induction l as [| x l [IHp IHs]]; simpl.
  - split; [done | constructor].
  - split.
    + by rewrite insertBy_perm, IHp.
    + by apply insertBy_sorted.
Qed.

Lemma keyedByID_backups (dbs : gmap string Storage.DatabaseInstance)
  (l : list Storage.Backup) (dir : string) :
  (∀ k db, dbs !! k = Some db → Storage.ID db = k) →
  keyedByID (Storage.mkStore dbs (list_to_map ((fun b => (Storage.bID b, b)) <$> l)) dir).
Proof.
  intros Hdbs. split; [exact Hdbs |]. cbn. intros k b Hk.
  apply elem_of_list_to_map_2 in Hk. apply list_elem_of_fmap in Hk as (b' & Heq & _).
  by inversion Heq.
Qed.

(** Retention count 3 and five backups created at the times 1 to 5:
    the backups of the times 5, 4 and 3 remain. *)
Lemma applyRetention_spec_witness :
  ∃ w',
    Scheduler.applyRetention (hostListening (fun _ => None))
      (@Scheduler.insertionSort Storage.Backup) "db-1" retentionWorld
    = Return tt w'
    ∧ Storage.ListBackups "db-1" (store w')
      ≡ₚ [backupAt "backup-e" 5; backupAt "backup-d" 4; backupAt "backup-c" 3].
Proof.
  assert (Hkeyed : keyedByID (store retentionWorld)).
  { apply keyedByID_backups. intros k db Hk.
    apply lookup_singleton_Some in Hk as [<- <-]. reflexivity. }
  destruct (applyRetention_spec (hostListening (fun _ => None))
              (@Scheduler.insertionSort Storage.Backup) "db-1" _ retentionWorld
              insertionSort_sorts Hkeyed eq_refl) as [_ H].
  destruct H as (w' & Hrun & _ & _ & _ & _ & _ & _ & _ & _ & _ & Hperm).
  { by vm_compute. }
  exists w'. split; [exact Hrun |].
  rewrite Hperm by (intros; reflexivity).
  by vm_compute.
Defined.

End Retention.

(** ** More on creation and provisioning *)

Module CreationProperties.
Import Database Props MoreProps ManagerTactics Reconciliation.

(** [Create], whatever the engine registry, the file system and the store
    answer: it returns, and what it returns tells what it did. *)
Lemma Create_outcomes (host : Host) (engines : gmap string Engine)
  (req : CreateRequest) (w : World) :
  ∃ r w' probed made,
    Create host engines req w = Return r w'
    ∧ calls w' = calls w ++ (CallListen <$> probed) ++ made
    ∧ (made = [] ∨ ∃ dir, made = [CallMkdirAll dir])
    ∧ (rPort req ≠ 0 → probed = [])
    ∧ ((∃ db task,
          r = (Some db, None)
          ∧ Storage.Status db = "creating"
          ∧ Storage.ContainerID db = ""
          ∧ (rPort req ≠ 0 → Storage.Port db = rPort req)
          ∧ store w'
            = Storage.with_databases
                (<[Storage.ID db := db]> (Storage.databases (store w))) (store w)
          ∧ goroutines w' = goroutines w ++ [task])
       ∨ (∃ e, r = (None, Some e) ∧ store w' = store w ∧ goroutines w' = goroutines w)).
Proof.
  unfold Create. set (req' := if String.eqb (rPassword req) "" then _ else req).
  assert (Hp : rPort req' = rPort req).
  { subst req'. by destruct (String.eqb (rPassword req) ""). }
  unfold createDedicatedDatabase, GetEngine.
  destruct (engines !! rEngine req') as [engine |].
  2:{ exists (None, Some ("unsupported engine: " +:+ rEngine req')), w, [], [].
      split; [done |]. split; [by rewrite app_nil_r |]. split; [by left |].
      split; [done |]. right. by eexists. }
  rewrite Hp.
  assert (Hport : ∃ port probed,
             (if rPort req =? 0 then findAvailablePortLocked host (DefaultPort engine)
              else mret (rPort req)) w
             = Return port (mkWorld (store w) (calls w ++ (CallListen <$> probed))
                              (goroutines w))
             ∧ (rPort req ≠ 0 → probed = [] ∧ port = rPort req)).
  { destruct (Z.eqb_spec (rPort req) 0) as [Hz | Hnz].
    - destruct (PortAllocation.findAvailablePortLocked_candidates
                  host (DefaultPort engine) w) as (k & _ & Hrun & _).
      eexists _, _. split; [exact Hrun | done].
    - exists (rPort req), []. split; [| done]. simpl. rewrite app_nil_r. by destruct w. }
  destruct Hport as (port & probed & Hrun & Hexplicit).
  cbv [mbind M_bind]. rewrite Hrun. clear Hrun. open_world w. run.
  destruct (filepathAbs host dir) as [base [e |]].
  { eexists _, _, probed, []. split; [reflexivity |]. rewrite app_nil_r.
    split; [done |]. split; [by left |]. split; [naive_solver |].
    right. by eexists. }
  destruct (osMkdirAll host _) as [e |] eqn:Hmk.
  { eexists _, _, probed, [_]. split; [reflexivity |].
    split; [by rewrite <- app_assoc |]. split; [right; by eexists |].
    split; [naive_solver |]. right. by eexists. }
  cbn [Storage.ID].
  destruct (storeFault host _) as [e |].
  { eexists _, _, probed, [_]. split; [reflexivity |].
    split; [by rewrite <- app_assoc |]. split; [right; by eexists |].
    split; [naive_solver |]. right. by eexists. }
  eexists _, _, probed, [_]. split; [reflexivity |].
  split; [by rewrite <- app_assoc |]. split; [right; by eexists |].
  split; [naive_solver |]. left. eexists _, _.
  repeat split. intros Hn. by destruct (Hexplicit Hn) as [_ ->].
Qed.

(** [Create] is all or nothing: it never panics and never calls the
    container runtime; either it stores the new record with status
    "creating" and no container and starts exactly one goroutine, or it
    returns an error and leaves the store and the goroutines as they
    were. *)
Theorem Create_all_or_nothing (host : Host) (engines : gmap string Engine)
  (req : CreateRequest) (w : World) :
  ∃ r w',
    Create host engines req w = Return r w'
    ∧ runtimeCalls (calls w') = runtimeCalls (calls w)
    ∧ ((∃ db task,
          r = (Some db, None)
          ∧ Storage.Status db = "creating"
          ∧ Storage.ContainerID db = ""
          ∧ Storage.databases (store w') !! Storage.ID db = Some db
          ∧ Storage.backups (store w') = Storage.backups (store w)
          ∧ goroutines w' = goroutines w ++ [task])
       ∨ (∃ e, r = (None, Some e) ∧ store w' = store w ∧ goroutines w' = goroutines w)).
Proof.
  destruct (Create_outcomes host engines req w)
    as (r & w' & probed & made & Hrun & Hcalls & Hmade & _ & Hcases).
  exists r, w'. split; [exact Hrun |]. split.
  - rewrite Hcalls, !Provisioning.runtimeCalls_app, Provisioning.runtimeCalls_listen.
    destruct Hmade as [-> | [dir ->]]; simpl; by rewrite app_nil_r.
  - destruct Hcases as [(db & task & -> & Hst & Hcid & _ & Hstore & Hgo) | Herr].
    + left. exists db, task. repeat split; try done.
      * rewrite Hstore. simpl. apply lookup_insert_eq.
      * by rewrite Hstore.
    + by right.
Qed.

(** A port given in the request is taken as it is: [Create] neither
    probes it nor looks in the store for an instance that has it. *)
Theorem Create_explicit_port_unchecked (host : Host) (engines : gmap string Engine)
  (req : CreateRequest) (w : World) (db : Storage.DatabaseInstance) (w' : World) :
  rPort req ≠ 0 →
  Create host engines req w = Return (Some db, None) w' →
  Storage.Port db = rPort req ∧ probes (calls w') = probes (calls w).
Proof.
  intros Hport Hrun.
  destruct (Create_outcomes host engines req w)
    as (r & w1 & probed & made & Hrun1 & Hcalls & Hmade & Hprobed & Hcases).
  rewrite Hrun in Hrun1. injection Hrun1 as <- <-.
  destruct Hcases as [(db1 & task & [= <-] & _ & _ & Hp & _) | (e & [=] & _)].
  split; [by apply Hp |].
  rewrite Hcalls, (Hprobed Hport). unfold probes. rewrite !omap_app. simpl.
  destruct Hmade as [-> | [dir ->]]; simpl; by rewrite app_nil_r.
Qed.

(** With an instance already on 5432, a request for port 5432 is
    stored with port 5432, without a probe. *)
Lemma Create_explicit_port_unchecked_witness :
  let host := hostListening (fun _ => Some "in use") in
  let engines : gmap string Engine := {[ "postgresql" := postgres ]} in
  let w := worldOf [instance "db-1" 5432 "running" "0123456789abcdef"] in
  match Create host engines (requestOn 5432) w with
  | Return (Some db, None) w' => Storage.Port db = 5432 ∧ probes (calls w') = []
  | _ => False
  end.
Proof.
  intros host engines w.
  destruct (Create host engines (requestOn 5432) w) as [[[db |] [e |]] w' | w'] eqn:Hrun;
    try (vm_compute in Hrun; discriminate).
  exact (Create_explicit_port_unchecked host engines (requestOn 5432) w db w'
           ltac:(discriminate) Hrun).
Defined.

(** A successful [Create] without a port in the request stores the port
    at which the allocation loop stopped. *)
Lemma Create_allocates (host : Host) (engines : gmap string Engine)
  (req : CreateRequest) (engine : Engine) (w : World)
  (db : Storage.DatabaseInstance) (w' : World) :
  rPort req = 0 →
  engines !! rEngine req = Some engine →
  Create host engines req w = Return (Some db, None) w' →
  ∃ k : nat,
    (k ≤ maxAttempts)%nat
    ∧ Storage.Port db = candidate (usedPorts (store w)) (DefaultPort engine) k
    ∧ ((k < maxAttempts)%nat →
       free host (usedPorts (store w))
         (candidate (usedPorts (store w)) (DefaultPort engine) k) = true)
    ∧ (∀ j, (j < k)%nat →
         free host (usedPorts (store w))
           (candidate (usedPorts (store w)) (DefaultPort engine) j) = false)
    ∧ store w'
      = Storage.with_databases
          (<[Storage.ID db := db]> (Storage.databases (store w))) (store w).
Proof.
  intros Hport Hengine. unfold Create.
  set (req' := if String.eqb (rPassword req) "" then _ else req).
  assert (Hreq : rEngine req' = rEngine req ∧ rPort req' = rPort req).
  { subst req'. by destruct (String.eqb (rPassword req) ""). }
  destruct Hreq as [He Hp].
  unfold createDedicatedDatabase, GetEngine. rewrite He, Hengine, Hp, Hport. simpl.
  destruct (PortAllocation.findAvailablePortLocked_candidates host (DefaultPort engine) w)
    as (k & Hk & Hrun & Hfree & Hnot).
  cbv [mbind M_bind]. rewrite Hrun. clear Hrun. open_world w. run.
  destruct (filepathAbs host dir) as [base [e |]]; [done |].
  destruct (osMkdirAll host _) as [e |]; [done |].
  cbn [Storage.ID]. destruct (storeFault host _) as [e |]; [done |].
  intros [= <- <-]. exists k. done.
Qed.

Lemma elem_of_usedPorts (s : Storage.Store) (port : Z) :
  port ∈ usedPorts s
  ↔ ∃ k db, Storage.databases s !! k = Some db ∧ Storage.Port db = port.
Proof.
  unfold usedPorts, Storage.ListDatabases.
  rewrite elem_of_list_to_set, list_elem_of_fmap. split.
  - intros (db & -> & ([k db'] & -> & Hin%elem_of_map_to_list)%list_elem_of_fmap).
    by exists k, db'.
  - intros (k & db & Hdb & <-). exists db. split; [done |].
    apply list_elem_of_fmap. exists (k, db). split; [done |].
    by apply elem_of_map_to_list.
Qed.

(** When [Create] picks the port itself and one of the 1000 candidates
    is free, the port of the new instance is recorded on no instance
    that was in the store and a listener could be opened on it; so
    instances with pairwise distinct ports stay so, provided the new
    identifier is new. *)
Theorem Create_allocated_port_fresh (host : Host) (engines : gmap string Engine)
  (req : CreateRequest) (engine : Engine) (w : World)
  (db : Storage.DatabaseInstance) (w' : World) (j : nat) :
  rPort req = 0 →
  engines !! rEngine req = Some engine →
  (j < maxAttempts)%nat →
  free host (usedPorts (store w))
    (candidate (usedPorts (store w)) (DefaultPort engine) j) = true →
  Create host engines req w = Return (Some db, None) w' →
  (Storage.Port db ∉ usedPorts (store w))
  ∧ netListen host (Storage.Port db) = None
  ∧ (distinctPorts (store w) →
     Storage.databases (store w) !! Storage.ID db = None →
     distinctPorts (store w')).
Proof.
  intros Hport Hengine Hj Hfreej Hrun.
  destruct (Create_allocates host engines req engine w db w' Hport Hengine Hrun)
    as (k & Hk & Hpk & Hfree & Hnot & Hstore).
  assert (Hlt : (k < maxAttempts)%nat).
  { destruct (decide (k ≤ j)%nat); [lia |].
    rewrite (Hnot j) in Hfreej by lia. done. }
  specialize (Hfree Hlt). rewrite <- Hpk in Hfree.
  unfold free in Hfree. apply andb_true_iff in Hfree as [Hused Hlisten].
  apply bool_decide_eq_true in Hused.
  split; [done |]. split; [by destruct (netListen host (Storage.Port db)) |].
  intros Hdistinct Hnew. rewrite Hstore. unfold distinctPorts. simpl.
  intros k1 k2 d1 d2 H1 H2 Heq.
  destruct (decide (k1 = Storage.ID db)) as [-> | Hn1];
    destruct (decide (k2 = Storage.ID db)) as [-> | Hn2]; [done | | |].
  - rewrite lookup_insert_eq in H1. rewrite lookup_insert_ne in H2 by done.
    injection H1 as <-. exfalso. apply Hused. apply elem_of_usedPorts. eauto.
  - rewrite lookup_insert_eq in H2. rewrite lookup_insert_ne in H1 by done.
    injection H2 as <-. exfalso. apply Hused. apply elem_of_usedPorts. eauto.
  - rewrite lookup_insert_ne in H1, H2 by done. by apply (Hdistinct k1 k2 d1 d2).
Qed.

Lemma Create_allocated_port_fresh_witness :
  let host := hostListening (fun _ => None) in
  let engines : gmap string Engine := {[ "postgresql" := postgres ]} in
  let w := worldOf [instance "db-1" 5432 "running" "0123456789abcdef"] in
  match Create host engines (requestOn 0) w with
  | Return (Some db, None) w' =>
      (Storage.Port db ∉ usedPorts (store w))
      ∧ netListen host (Storage.Port db) = None
      ∧ (distinctPorts (store w) →
         Storage.databases (store w) !! Storage.ID db = None →
         distinctPorts (store w'))
  | _ => False
  end.
Proof.
  intros host engines w.
  destruct (Create host engines (requestOn 0) w) as [[[db |] [e |]] w' | w'] eqn:Hrun;
    try (vm_compute in Hrun; discriminate).
  exact (Create_allocated_port_fresh host engines (requestOn 0) postgres w db w' 1%nat
           ltac:(reflexivity) ltac:(vm_compute; reflexivity) ltac:(unfold maxAttempts; lia)
           ltac:(vm_compute; reflexivity) Hrun).
Defined.

End CreationProperties.

(** ** The manager: edges of provisioning *)

Module ProvisioningEdges.
Import Database Props MoreProps ManagerTactics Reconciliation.

(** What a successful [Create] leaves behind, read back from its
    result. *)
Lemma Create_success (host : Host) (engines : gmap string Engine) (req : CreateRequest)
  (w : World) (db : Storage.DatabaseInstance) (w1 : World) :
  Create host engines req w = Return (Some db, None) w1 →
  ∃ engine imageName dataDir probed,
    engines !! rEngine req = Some engine
    ∧ w1 = mkWorld
             (Storage.with_databases
                (<[Storage.ID db := db]> (Storage.databases (store w))) (store w))
             (calls w ++ (CallListen <$> probed) ++ [CallMkdirAll dataDir])
             (goroutines w
              ++ [GoProvision db imageName dataDir (Storage.Port db) engine
                    (rSeedSource req) (rSeedContent req)])
    ∧ Storage.Status db = "creating"
    ∧ Storage.ContainerID db = ""
    ∧ Storage.Engine db = rEngine req
    ∧ Storage.Version db = rVersion req
    ∧ imageName = (if negb (String.eqb (rVersion req) "")
                   then Image engine +:+ ":" +:+ rVersion req else Image engine).
Proof.
  unfold Create. set (req' := if String.eqb (rPassword req) "" then _ else req).
  assert (Hreq : rEngine req' = rEngine req ∧ rPort req' = rPort req
                 ∧ rSeedSource req' = rSeedSource req
                 ∧ rSeedContent req' = rSeedContent req
                 ∧ rVersion req' = rVersion req).
  { subst req'. by destruct (String.eqb (rPassword req) ""). }
  destruct Hreq as (He & Hp & Hs1 & Hs2 & Hv).
  unfold createDedicatedDatabase, GetEngine. rewrite He, Hp, Hs1, Hs2, Hv.
  destruct (engines !! rEngine req) as [engine |]; [| done].
  assert (Hport : ∃ port probed,
             (if rPort req =? 0 then findAvailablePortLocked host (DefaultPort engine)
              else mret (rPort req)) w
             = Return port (mkWorld (store w) (calls w ++ (CallListen <$> probed))
                              (goroutines w))).
  { destruct (Z.eqb_spec (rPort req) 0) as [Hz | Hnz].
    - destruct (PortAllocation.findAvailablePortLocked_candidates
                  host (DefaultPort engine) w) as (k & _ & Hrun & _).
      eexists _, _. exact Hrun.
    - exists (rPort req), []. simpl. rewrite app_nil_r. by destruct w. }
  destruct Hport as (port & probed & Hrun).
  cbv [mbind M_bind]. rewrite Hrun. clear Hrun. open_world w. run.
  destruct (filepathAbs host dir) as [base [e |]]; [done |].
  destruct (osMkdirAll host _) as [e |]; [done |].
  cbn [Storage.ID]. destruct (storeFault host _) as [e |]; [done |].
  intros [= <- <-]. eexists engine, _, _, probed.
  split; [done |]. split; [by rewrite <- app_assoc |]. done.
Qed.

(** The deletion of an instance that has no container yet. *)
Lemma Delete_without_container (client : Client) (host : Host) (id : string)
  (db : Storage.DatabaseInstance) (w : World) :
  Storage.databases (store w) !! id = Some db →
  Storage.ContainerID db = "" →
  storeFault host (OpDeleteDatabase id) = None →
  Delete client host id w
  = Return None
      (mkWorld
         (Storage.with_databases (delete id (Storage.databases (store w))) (store w))
         (calls w
          ++ [CallDeleteVolume ("dbnest-vol-" +:+ id);
              CallRemoveAll
                (filepathJoin host
                   [(filepathAbs host (Storage.DataDir (store w))).1; "databases"; id])])
         (goroutines w)).
Proof.
  intros Hdb Hcid Hfault. open_world w. unfold Delete. run. rewrite Hdb, Hcid. simpl.
  destruct (filepathAbs host dir) as [base e]. simpl.
  rewrite Hfault, Hdb. by rewrite <- ?app_assoc.
Qed.

(** A provisioning goroutine whose record is no longer in the store
    goes through all the same: the container is created and started,
    and nothing is written. *)
Lemma provision_absent (client : Client) (host : Host) (db : Storage.DatabaseInstance)
  (imageName dataDir : string) (port : Z) (engine : Engine)
  (seedSource seedContent containerID : string) (w : World) :
  Storage.databases (store w) !! Storage.ID db = None →
  PullImage client imageName = None →
  CreateContainer client (containerConfig db imageName port engine)
  = (containerID, None) →
  (12 ≤ String.length containerID)%nat →
  ∃ started,
    provisionDedicatedDatabase client host db imageName dataDir port engine
      seedSource seedContent w
    = Return tt
        (mkWorld (store w)
           (calls w
            ++ [CallPullImage imageName;
                CallCreateContainer (containerConfig db imageName port engine);
                CallStartContainer containerID])
           (goroutines w ++ started)).
Proof.
  intros Habsent Hpull Hcreate Hlen. open_world w.
  unfold provisionDedicatedDatabase, sliceTo. run.
  rewrite Hpull, Hcreate. rewrite (proj2 (Nat.ltb_ge _ _) Hlen). run.
  destruct (StartContainer client containerID) as [e |].
  - rewrite ?ID_set_ErrorMessage, ?ID_set_Status, ?ID_set_ContainerID.
    destruct (storeFault host _); rewrite ?Habsent; exists [];
      by rewrite app_nil_r, <- !app_assoc.
  - rewrite ?ID_set_ErrorMessage, ?ID_set_Status, ?ID_set_ContainerID.
    destruct (negb (String.eqb seedSource "") && negb (String.eqb seedSource "none"));
      destruct (storeFault host _); rewrite ?Habsent; run;
      eexists; rewrite <- ?app_assoc; simpl; try reflexivity.
    all: by rewrite app_nil_r.
Qed.

(** A container identifier shorter than 12 bytes stops the provisioning
    goroutine with a panic, at the slice [containerID[:12]] of its log
    line: the container has been created, it is never started, its
    identifier is never stored, and the record stays as [Create] wrote
    it. *)
Theorem provisioning_panics_on_short_container_id (client : Client) (host : Host)
  (db : Storage.DatabaseInstance) (imageName dataDir : string) (port : Z)
  (engine : Engine) (seedSource seedContent containerID : string) (w : World) :
  PullImage client imageName = None →
  CreateContainer client (containerConfig db imageName port engine)
  = (containerID, None) →
  (String.length containerID < 12)%nat →
  ∃ w',
    runGoroutine client host
      (GoProvision db imageName dataDir port engine seedSource seedContent) w
    = Panic w'
    ∧ store w' = store w
    ∧ goroutines w' = goroutines w
    ∧ calls w'
      = calls w ++ [CallPullImage imageName;
                    CallCreateContainer (containerConfig db imageName port engine)].
Proof.
  intros Hpull Hcreate Hlen. open_world w. eexists. split.
  - unfold provisionDedicatedDatabase, sliceTo. run.
    rewrite Hpull, Hcreate. rewrite (proj2 (Nat.ltb_lt _ _) Hlen). reflexivity.
  - simpl. by rewrite <- app_assoc.
Qed.

(** A runtime that answers the creation of a container with an empty
    identifier. *)
Lemma provisioning_panics_on_short_container_id_witness :
  let client :=
    mkClient (fun _ => None) (fun _ => ("", None)) (fun _ => None)
      (fun _ _ => None) (fun _ => ("running", None)) (fun _ _ _ => None)
      (fun _ => None) in
  let host := hostListening (fun _ => None) in
  let db := instance "db-1" 5432 "creating" "" in
  let w := worldOf [db] in
  ∃ w',
    runGoroutine client host (GoProvision db "postgres:16" "/data/databases/db-1" 5432
                                postgres "" "") w
    = Panic w'
    ∧ store w' = store w
    ∧ goroutines w' = goroutines w
    ∧ calls w'
      = calls w ++ [CallPullImage "postgres:16";
                    CallCreateContainer (containerConfig db "postgres:16" 5432 postgres)].
Proof.
  intros client host db w.
  apply (provisioning_panics_on_short_container_id client host db "postgres:16"
           "/data/databases/db-1" 5432 postgres "" "" "" w);
    [reflexivity | reflexivity | simpl; lia].
Defined.

(** An instance deleted before its provisioning goroutine has run
    leaves a container behind.  [Delete] finds no container to remove;
    the goroutine then pulls the image, creates the container and starts
    it, and its write of the record fails unseen.  No record of the
    instance is left, and nothing ever removes the container. *)
Theorem delete_before_provisioning_leaves_container (client : Client) (host : Host)
  (engines : gmap string Engine) (req : CreateRequest) (w : World)
  (db : Storage.DatabaseInstance) (w1 : World) (containerID : string) :
  Create host engines req w = Return (Some db, None) w1 →
  storeFault host (OpDeleteDatabase (Storage.ID db)) = None →
  (∀ image, PullImage client image = None) →
  (∀ cfg, CreateContainer client cfg = (containerID, None)) →
  (12 ≤ String.length containerID)%nat →
  ∃ task w2 w3 imageName cfg,
    goroutines w1 = goroutines w ++ [task]
    ∧ Delete client host (Storage.ID db) w1 = Return None w2
    ∧ runGoroutine client host task w2 = Return tt w3
    ∧ Storage.databases (store w3) !! Storage.ID db = None
    ∧ runtimeCalls (calls w3)
      = runtimeCalls (calls w)
        ++ [CallDeleteVolume ("dbnest-vol-" +:+ Storage.ID db);
            CallPullImage imageName; CallCreateContainer cfg;
            CallStartContainer containerID].
Proof.
  intros Hrun Hfault Hpull Hcreate Hlen.
  destruct (Create_success host engines req w db w1 Hrun)
    as (engine & imageName & dataDir & probed & _ & -> & _ & Hcid & _).
  eexists _, _. cbn [goroutines].
  pose proof (Delete_without_container client host (Storage.ID db) db
                (mkWorld
                   (Storage.with_databases
                      (<[Storage.ID db := db]> (Storage.databases (store w))) (store w))
                   (calls w ++ (CallListen <$> probed) ++ [CallMkdirAll dataDir])
                   (goroutines w
                    ++ [GoProvision db imageName dataDir (Storage.Port db) engine
                          (rSeedSource req) (rSeedContent req)])))
    as Hdel.
  cbn [store calls goroutines] in Hdel.
  specialize (Hdel ltac:(destruct (store w); apply lookup_insert_eq) Hcid Hfault).
  match type of Hdel with _ = Return None ?w2 =>
    destruct (provision_absent client host db imageName dataDir (Storage.Port db) engine
                (rSeedSource req) (rSeedContent req) containerID w2)
      as (started & Hgo)
  end.
  { destruct (store w). apply lookup_delete_eq. }
  { apply Hpull. }
  { apply Hcreate. }
  { exact Hlen. }
  eexists _, imageName, _. split; [reflexivity |]. split; [exact Hdel |].
  split; [exact Hgo |]. cbn [store calls]. split.
  - destruct (store w). apply lookup_delete_eq.
  - rewrite !Provisioning.runtimeCalls_app, Provisioning.runtimeCalls_listen.
    simpl. by rewrite <- !app_assoc.
Qed.

Lemma delete_before_provisioning_leaves_container_witness :
  let client := clientReporting "running" in
  let host := hostListening (fun _ => None) in
  let engines : gmap string Engine := {[ "postgresql" := postgres ]} in
  match Create host engines (requestOn 0) emptyWorld with
  | Return (Some db, None) w1 =>
      ∃ task w2 w3 imageName cfg,
        goroutines w1 = goroutines emptyWorld ++ [task]
        ∧ Delete client host (Storage.ID db) w1 = Return None w2
        ∧ runGoroutine client host task w2 = Return tt w3
        ∧ Storage.databases (store w3) !! Storage.ID db = None
        ∧ runtimeCalls (calls w3)
          = runtimeCalls (calls emptyWorld)
            ++ [CallDeleteVolume ("dbnest-vol-" +:+ Storage.ID db);
                CallPullImage imageName; CallCreateContainer cfg;
                CallStartContainer "0123456789abcdef"]
  | _ => False
  end.
Proof.
  intros client host engines.
  destruct (Create host engines (requestOn 0) emptyWorld)
    as [[[db |] [e |]] w1 | w1] eqn:Hrun; try (vm_compute in Hrun; discriminate).
  apply (delete_before_provisioning_leaves_container client host engines (requestOn 0)
           emptyWorld db w1 "0123456789abcdef" Hrun);
    [reflexivity | reflexivity | reflexivity | simpl; lia].
Defined.

End ProvisioningEdges.

(** ** The manager: deletion when the store fails *)

Module DeletionEdges.
Import Database Props MoreProps ManagerTactics.

(** [Delete] is not atomic.  When the store cannot delete the record,
    the container, the volume and the data directory have been removed
    all the same; the record stays as it was and the store's error is
    returned. *)
Theorem Delete_keeps_record_when_store_fails (client : Client) (host : Host)
  (id : string) (db : Storage.DatabaseInstance) (w : World) (e : string) :
  Storage.databases (store w) !! id = Some db →
  storeFault host (OpDeleteDatabase id) = Some e →
  Delete client host id w
  = Return (Some e)
      (mkWorld (store w) (calls w ++ teardown host (store w) id db) (goroutines w)).
Proof.
  intros Hdb Hfault. open_world w. unfold Delete, teardown. run. rewrite Hdb.
  destruct (String.eqb (Storage.ContainerID db) ""); simpl;
    destruct (filepathAbs host dir) as [base e']; simpl;
    rewrite Hfault; rewrite <- ?app_assoc; reflexivity.
Qed.

Lemma Delete_keeps_record_when_store_fails_witness :
  let client := clientReporting "running" in
  let host :=
    mkHost (fun _ => None) (fun p => (p, None)) (fun _ => "/data/databases/db-1")
      (fun _ => None) (fun _ => None) "" "" 0
      (fun op => match op with OpDeleteDatabase _ => Some "disk full" | _ => None end) in
  let db := instance "db-1" 5432 "running" "0123456789abcdef" in
  let w := worldOf [db] in
  Delete client host "db-1" w
  = Return (Some "disk full")
      (mkWorld (store w) (calls w ++ teardown host (store w) "db-1" db) (goroutines w)).
Proof.
  intros client host db w.
  apply (Delete_keeps_record_when_store_fails client host "db-1" db w "disk full");
    reflexivity.
Defined.

End DeletionEdges.

(** ** The manager: a whole reconciliation pass *)

Module ReconciliationPass.
Import Database Props MoreProps ManagerTactics Reconciliation.

Lemma passed_ID (client : Client) (db : Storage.DatabaseInstance) :
  Storage.ID (passed client db) = Storage.ID db.
Proof. unfold passed. destruct (tracked db); [apply reconciled_ID | done]. Qed.

(** One step of the pass on a record of the store. *)
Lemma syncStatus_step (client : Client) (host : Host) (db : Storage.DatabaseInstance)
  (w : World) :
  Storage.databases (store w) !! Storage.ID db = Some db →
  storeFault host (OpUpdateDatabase (Storage.ID db)) = None →
  syncStatus client host db w
  = Return tt
      (mkWorld
         (Storage.with_databases
            (<[Storage.ID db := passed client db]> (Storage.databases (store w)))
            (store w))
         (calls w ++ statusQueries [db])
         (goroutines w)).
Proof.
  intros Hdb Hfault. unfold passed, statusQueries, tracked. cbn [List.filter].
  destruct (String.eqb_spec (Storage.ContainerID db) "") as [Hc | Hc].
  { unfold syncStatus. rewrite (proj2 (String.eqb_eq _ _) Hc). simpl.
    rewrite (insert_id _ _ _ Hdb), app_nil_r. by destruct w as [[] ? ?]. }
  destruct (String.eqb_spec (Storage.Status db) "creating") as [Hs | Hs].
  { unfold syncStatus. rewrite (proj2 (String.eqb_eq _ _) Hs), orb_true_r. simpl.
    rewrite (insert_id _ _ _ Hdb), app_nil_r. by destruct w as [[] ? ?]. }
  simpl. by apply syncStatus_run.
Qed.

Lemma writes_other (client : Client) (dbs : list Storage.DatabaseInstance) :
  ∀ m k, k ∉ Storage.ID <$> dbs → writes client dbs m !! k = m !! k.
Proof.
  induction dbs as [| db dbs IH]; intros m k Hk; [done |].
  cbn in *. apply not_elem_of_cons in Hk as [Hne Hk].
  unfold writes in IH. rewrite IH by done. by apply lookup_insert_ne.
Qed.

Lemma writes_one (client : Client) (dbs : list Storage.DatabaseInstance) :
  ∀ m db, NoDup (Storage.ID <$> dbs) → db ∈ dbs →
          writes client dbs m !! Storage.ID db = Some (passed client db).
Proof.
  induction dbs as [| d dbs IH]; intros m db Hnd Hin; [by apply elem_of_nil in Hin |].
  cbn in Hnd. apply NoDup_cons in Hnd as [Hd Hnd].
  apply elem_of_cons in Hin as [-> | Hin].
  - cbn. fold (writes client dbs (<[Storage.ID d := passed client d]> m)).
    rewrite writes_other by done. apply lookup_insert_eq.
  - cbn. by apply IH.
Qed.

Lemma forEach_syncStatus (client : Client) (host : Host)
  (dbs : list Storage.DatabaseInstance) :
  (∀ id, storeFault host (OpUpdateDatabase id) = None) →
  NoDup (Storage.ID <$> dbs) →
  ∀ w,
    (∀ db, db ∈ dbs → Storage.databases (store w) !! Storage.ID db = Some db) →
    forEach (syncStatus client host) dbs w
    = Return tt
        (mkWorld
           (Storage.with_databases (writes client dbs (Storage.databases (store w)))
              (store w))
           (calls w ++ statusQueries dbs)
           (goroutines w)).
Proof.
  intros Hfault. induction dbs as [| db dbs IH]; intros Hnd w Hin.
  - cbn. unfold statusQueries. cbn. rewrite app_nil_r. by destruct w as [[] ? ?].
  - cbn in Hnd. apply NoDup_cons in Hnd as [Hd Hnd].
    cbn [forEach]. cbv [mbind M_bind].
    rewrite (syncStatus_step client host db w) by (first [apply Hin; apply elem_of_cons; by left | apply Hfault]).
    rewrite IH; [| done |].
    + cbn [store calls goroutines Storage.with_databases Storage.databases
           Storage.backups Storage.dataDir].
      f_equal. f_equal.
      unfold statusQueries. cbn [List.filter].
      destruct (tracked db); cbn; by rewrite <- ?app_assoc, ?app_nil_r.
    + intros d Hdin. cbn.
      rewrite lookup_insert_ne.
      * apply Hin. apply elem_of_cons. by right.
      * intros Heq. apply Hd. rewrite Heq. by apply list_elem_of_fmap_2.
Qed.

(** A whole pass of [SyncAllStatuses], on a store whose records are
    keyed by their identifier and whose writes go through.  Every
    instance with a container that is not being created is asked about
    once, in the order of the listing, and nothing else is called; every
    record is replaced by its reconciled record, and the pass adds no
    instance, removes none and leaves backups and goroutines alone. *)
Theorem SyncAllStatuses_pass (client : Client) (host : Host) (w : World) :
  keyedByID (store w) →
  (∀ id, storeFault host (OpUpdateDatabase id) = None) →
  ∃ w',
    SyncAllStatuses client host w = Return tt w'
    ∧ Storage.databases (store w') = passed client <$> Storage.databases (store w)
    ∧ Storage.backups (store w') = Storage.backups (store w)
    ∧ goroutines w' = goroutines w
    ∧ calls w' = calls w ++ statusQueries (Storage.ListDatabases (store w)).
Proof.
  intros [Hkey _] Hfault.
  assert (Hin : ∀ db, db ∈ Storage.ListDatabases (store w) →
                      Storage.databases (store w) !! Storage.ID db = Some db).
  { intros db Hdb.
    apply list_elem_of_fmap in Hdb as ([k d] & -> & Hkd%elem_of_map_to_list).
    cbn. by rewrite (Hkey _ _ Hkd). }
  assert (Hnd : NoDup (Storage.ID <$> Storage.ListDatabases (store w))).
  { unfold Storage.ListDatabases. rewrite <- list_fmap_compose.
    eapply NoDup_fmap_2_strong; [| apply NoDup_map_to_list].
    intros [k1 d1] [k2 d2] H1%elem_of_map_to_list H2%elem_of_map_to_list Heq.
    cbn in Heq. rewrite (Hkey _ _ H1), (Hkey _ _ H2) in Heq. subst k2.
    rewrite H1 in H2. by injection H2 as ->. }
  eexists. split.
  - unfold SyncAllStatuses. cbv [mbind M_bind getStore].
    apply (forEach_syncStatus client host _ Hfault Hnd w Hin).
  - cbn [store calls goroutines]. split; [| by destruct (store w)].
    destruct (store w) as [dbs bks dir] eqn:Hs. cbn in *.
    apply map_eq. intros k. rewrite lookup_fmap.
    destruct (dbs !! k) as [db |] eqn:Hk.
    + pose proof (Hkey _ _ Hk) as <-. cbn.
      apply writes_one; [done |].
      apply list_elem_of_fmap. exists (Storage.ID db, db). split; [done |].
      by apply elem_of_map_to_list.
    + cbn. rewrite writes_other; [done |].
      intros Hdb. apply list_elem_of_fmap in Hdb as (db & -> & Hdb).
      apply Hin in Hdb. cbn in Hdb. congruence.
Qed.

(** Two instances, one running with a container that has stopped, one
    still being created. *)
Lemma SyncAllStatuses_pass_witness :
  let client := clientReporting "stopped" in
  let host := hostListening (fun _ => None) in
  let w := worldOf [instance "db-1" 5432 "running" "0123456789abcdef";
                    instance "db-2" 5433 "creating" ""] in
  ∃ w',
    SyncAllStatuses client host w = Return tt w'
    ∧ Storage.databases (store w') = passed client <$> Storage.databases (store w)
    ∧ Storage.backups (store w') = Storage.backups (store w)
    ∧ goroutines w' = goroutines w
    ∧ calls w' = calls w ++ statusQueries (Storage.ListDatabases (store w)).
Proof.
  intros client host w.
  apply (SyncAllStatuses_pass client host w); [| reflexivity].
  split.
  - intros k db Hk. cbn in Hk.
    apply lookup_insert_Some in Hk as [[<- <-] | [_ Hk]]; [done |].
    apply lookup_insert_Some in Hk as [[<- <-] | [_ Hk]]; [done |].
    by rewrite lookup_empty in Hk.
  - intros k b Hk. cbn in Hk. by rewrite lookup_empty in Hk.
Defined.

(** Once a pass has recorded the status "creating" for an instance,
    because its container was reported as created or restarting, no
    later pass looks at the instance again, whatever the runtime would
    answer: the recorded status stays "creating". *)
Theorem syncStatus_creating_is_final (client : Client) (host : Host)
  (db : Storage.DatabaseInstance) (w : World) :
  Storage.databases (store w) !! Storage.ID db = Some db →
  storeFault host (OpUpdateDatabase (Storage.ID db)) = None →
  Storage.ContainerID db ≠ "" →
  Storage.Status db ≠ "creating" →
  GetContainerStatus client (Storage.ContainerID db) = ("creating", None) →
  ∃ db1 w1,
    syncStatus client host db w = Return tt w1
    ∧ Storage.databases (store w1) !! Storage.ID db = Some db1
    ∧ Storage.Status db1 = "creating"
    ∧ Storage.ContainerID db1 = Storage.ContainerID db
    ∧ ∀ client2 w2, syncStatus client2 host db1 w2 = Return tt w2.
Proof.
  intros Hdb Hfault Hcid Hst Hanswer.
  rewrite (syncStatus_run client host db w Hdb Hfault Hcid Hst), Hanswer.
  eexists _, _. split; [reflexivity |]. cbn [store Storage.databases Storage.with_databases].
  split; [apply lookup_insert_eq |].
  assert (Hrec : reconciled ("creating", None) db = Storage.set_Status "creating" db).
  { unfold reconciled.
    destruct (String.eqb_spec "creating" (Storage.Status db)) as [Heq | _]; [congruence |].
    done. }
  rewrite Hrec. split; [by destruct db |]. split; [by destruct db |].
  intros client2 w2. unfold syncStatus.
  replace (Storage.Status (Storage.set_Status "creating" db)) with "creating"
    by (by destruct db).
  by rewrite orb_true_r.
Qed.

Lemma syncStatus_creating_is_final_witness :
  let client := clientReporting "creating" in
  let host := hostListening (fun _ => None) in
  let db := instance "db-1" 5432 "running" "0123456789abcdef" in
  let w := worldOf [db] in
  ∃ db1 w1,
    syncStatus client host db w = Return tt w1
    ∧ Storage.databases (store w1) !! Storage.ID db = Some db1
    ∧ Storage.Status db1 = "creating"
    ∧ Storage.ContainerID db1 = Storage.ContainerID db
    ∧ ∀ client2 w2, syncStatus client2 host db1 w2 = Return tt w2.
Proof.
  intros client host db w.
  apply (syncStatus_creating_is_final client host db w);
    [reflexivity | reflexivity | discriminate | discriminate | reflexivity].
Defined.

End ReconciliationPass.

(** ** The manager: names, start and repair *)

Module LifecycleProperties.
Import GoText Database Lifecycle Props MoreProps ManagerTactics Reconciliation.

Lemma allBytes_Forall (p : ascii → bool) (s : string) :
  allBytes p s = true ↔ ∀ c, c ∈ list_ascii_of_string s → p c = true.
Proof.
  induction s as [| c s IH]; cbn.
  - split; [| done]. intros _ c Hc. by apply elem_of_nil in Hc.
  - rewrite andb_true_iff, IH. split.
    + intros [Hc Hs] d [-> | Hd]%elem_of_cons; auto.
    + intros H. split; [apply H; by left |]. intros d Hd. apply H. by right.
Qed.

Lemma isLetter_isNameByte (c : ascii) : isLetter c = true → isNameByte c = true.
Proof. unfold isNameByte. by intros ->. Qed.

Lemma isNameByte_safe (c : ascii) : isNameByte c = true → c ∉ unsafeBytes.
Proof.
  intros Hc Hin. unfold unsafeBytes in Hin.
  repeat (apply elem_of_cons in Hin as [-> | Hin]; [by vm_compute in Hc |]).
  by apply elem_of_nil in Hin.
Qed.

(** [sanitizeName] accepts exactly the names of 1 to 63 bytes that start
    with an ASCII letter and go on with ASCII letters, digits,
    underscores and hyphens, and returns an accepted name as it is.  An
    accepted name therefore has no space, quote, semicolon, backslash,
    slash, dot, dollar or control byte.  A rejected name is answered
    with the empty string and an error. *)
Theorem sanitizeName_spec (name : string) :
  (sanitizeName name = (name, None)
   ↔ (1 ≤ String.length name ≤ 63)%nat
     ∧ (∃ c rest, name = String c rest ∧ isLetter c = true
                  ∧ ∀ d, d ∈ list_ascii_of_string rest → isNameByte d = true))
  ∧ (∀ r, sanitizeName name = (r, None) →
          r = name ∧ ∀ c, c ∈ list_ascii_of_string name → c ∉ unsafeBytes)
  ∧ (∀ r e, sanitizeName name = (r, Some e) → r = "").
Proof.
  unfold sanitizeName.
  destruct (Nat.ltb_spec (String.length name) 1) as [Hl1 | Hl1]; cbn [orb].
  { split; [| split]; [| done | by intros r e [= <- _]].
    split; [done |]. intros [Hlen _]. lia. }
  destruct (Nat.ltb_spec 63 (String.length name)) as [Hl2 | Hl2].
  { split; [| split]; [| done | by intros r e [= <- _]].
    split; [done |]. intros [Hlen _]. lia. }
  destruct (validNameRegex name) eqn:Hre; cbn [negb].
  - assert (Hshape : ∃ c rest, name = String c rest ∧ isLetter c = true
                               ∧ ∀ d, d ∈ list_ascii_of_string rest → isNameByte d = true).
    { destruct name as [| c rest]; [done |]. cbn in Hre.
      apply andb_true_iff in Hre as [Hc Hrest]. exists c, rest.
      split; [done |]. split; [done |]. by apply allBytes_Forall. }
    split; [| split]; [| | done].
    + split; [| done]. intros _. split; [lia | done].
    + intros r [= <-]. split; [done |].
      destruct Hshape as (c & rest & -> & Hc & Hrest). cbn.
      intros d [-> | Hd]%elem_of_cons; apply isNameByte_safe;
        [by apply isLetter_isNameByte | by apply Hrest].
  - split; [| split]; [| done | by intros r e [= <- _]].
    split; [done |]. intros (_ & c & rest & -> & Hc & Hrest).
    cbn in Hre. rewrite Hc in Hre. cbn in Hre.
    by rewrite (proj2 (allBytes_Forall isNameByte rest) Hrest) in Hre.
Qed.

(** [Start] never panics and changes nothing but the status.  When it
    returns an error, the store is as before.  When it returns none, the
    instance has a container, that container was started, and the
    stored record is the old one with status "running": in particular
    its error message is the old one. *)
Theorem Start_spec (client : Client) (host : Host) (id : string) (w : World) :
  keyedByID (store w) →
  ∃ r w',
    Start client host id w = Return r w'
    ∧ goroutines w' = goroutines w
    ∧ match r with
      | Some _ => store w' = store w
      | None =>
          ∃ db,
            Storage.databases (store w) !! id = Some db
            ∧ Storage.ContainerID db ≠ ""
            ∧ calls w' = calls w ++ [CallStartContainer (Storage.ContainerID db)]
            ∧ store w'
              = Storage.with_databases
                  (<[id := Storage.set_Status "running" db]> (Storage.databases (store w)))
                  (store w)
      end
    ∧ (∀ db, Storage.databases (store w) !! id = Some db →
             Storage.ContainerID db = "" →
             r = Some "no container associated with database" ∧ calls w' = calls w).
Proof.
  intros [Hkey _]. open_world w. unfold Start. run.
  destruct (dbs !! id) as [db |] eqn:Hdb.
  2:{ eexists _, _. split; [reflexivity |]. by repeat split. }
  pose proof (Hkey _ _ Hdb) as Hid.
  assert (Hlast : ∀ (P : Prop), Storage.ContainerID db ≠ "" →
                    ∀ db0, Some db = Some db0 → Storage.ContainerID db0 = "" → P).
  { intros P Hc db0 [= <-] Hc0. by destruct Hc. }
  destruct (String.eqb_spec (Storage.ContainerID db) "") as [Hc | Hc].
  { eexists _, _. split; [reflexivity |]. by repeat split. }
  destruct (StartContainer client (Storage.ContainerID db)) as [e |].
  { eexists _, _. split; [reflexivity |]. split; [done |]. split; [done |].
    by apply Hlast. }
  rewrite ID_set_Status, Hid.
  destruct (storeFault host (OpUpdateDatabase id)) as [e |].
  { eexists _, _. split; [reflexivity |]. split; [done |]. split; [done |].
    by apply Hlast. }
  rewrite Hdb. eexists _, _. split; [reflexivity |]. split; [done |]. split.
  - by exists db.
  - by apply Hlast.
Qed.

Lemma Start_spec_witness :
  let client := clientReporting "running" in
  let host := hostListening (fun _ => None) in
  let w := worldOf [instance "db-1" 5432 "stopped" "0123456789abcdef"] in
  ∃ r w',
    Start client host "db-1" w = Return r w'
    ∧ goroutines w' = goroutines w
    ∧ match r with
      | Some _ => store w' = store w
      | None =>
          ∃ db,
            Storage.databases (store w) !! "db-1" = Some db
            ∧ Storage.ContainerID db ≠ ""
            ∧ calls w' = calls w ++ [CallStartContainer (Storage.ContainerID db)]
            ∧ store w'
              = Storage.with_databases
                  (<["db-1" := Storage.set_Status "running" db]>
                     (Storage.databases (store w)))
                  (store w)
      end
    ∧ (∀ db, Storage.databases (store w) !! "db-1" = Some db →
             Storage.ContainerID db = "" →
             r = Some "no container associated with database" ∧ calls w' = calls w).
Proof.
  intros client host w. apply (Start_spec client host "db-1" w). split.
  - intros k db Hk. cbn in Hk.
    apply lookup_insert_Some in Hk as [[<- <-] | [_ Hk]]; [done |].
    by rewrite lookup_empty in Hk.
  - intros k b Hk. cbn in Hk. by rewrite lookup_empty in Hk.
Defined.

(** The error message of an instance outlives its restart.  [Start]
    sets the status to "running" and leaves the message; a
    reconciliation pass that then finds the container running sees no
    difference and leaves the record, message included. *)
Theorem Start_keeps_error_message (client : Client) (host : Host)
  (db : Storage.DatabaseInstance) (w : World) :
  Storage.databases (store w) !! Storage.ID db = Some db →
  storeFault host (OpUpdateDatabase (Storage.ID db)) = None →
  Storage.ContainerID db ≠ "" →
  StartContainer client (Storage.ContainerID db) = None →
  GetContainerStatus client (Storage.ContainerID db) = ("running", None) →
  ∃ db' w1 w2,
    Start client host (Storage.ID db) w = Return None w1
    ∧ Storage.databases (store w1) !! Storage.ID db = Some db'
    ∧ Storage.Status db' = "running"
    ∧ Storage.ErrorMessage db' = Storage.ErrorMessage db
    ∧ syncStatus client host db' w1 = Return tt w2
    ∧ store w2 = store w1.
Proof.
  intros Hdb Hfault Hcid Hstart Hstatus. open_world w.
  set (db' := Storage.set_Status "running" db).
  set (w1 := mkWorld (Storage.mkStore (<[Storage.ID db := db']> dbs) bks dir)
               (cs ++ [CallStartContainer (Storage.ContainerID db)]) gs).
  exists db', w1,
    (mkWorld (store w1) (calls w1 ++ [CallGetContainerStatus (Storage.ContainerID db)])
       (goroutines w1)).
  assert (Hc' : Storage.ContainerID db' = Storage.ContainerID db) by (by destruct db).
  assert (Hs' : Storage.Status db' = "running") by (by destruct db).
  split.
  { unfold Start. run. rewrite Hdb.
    destruct (String.eqb_spec (Storage.ContainerID db) ""); [done |].
    rewrite Hstart, ID_set_Status, Hfault, Hdb. reflexivity. }
  split; [apply lookup_insert_eq |]. split; [done |]. split; [by destruct db |].
  split; [| done].
  unfold syncStatus. rewrite Hc', Hs'.
  destruct (String.eqb_spec (Storage.ContainerID db) ""); [done |].
  cbn [orb]. change (String.eqb "running" "creating") with false. cbv iota.
  run. rewrite Hstatus. reflexivity.
Qed.

Lemma Start_keeps_error_message_witness :
  let client := clientReporting "running" in
  let host := hostListening (fun _ => None) in
  let db :=
    Storage.set_ErrorMessage "Container not accessible"
      (instance "db-1" 5432 "error" "0123456789abcdef") in
  let w := worldOf [db] in
  ∃ db' w1 w2,
    Start client host (Storage.ID db) w = Return None w1
    ∧ Storage.databases (store w1) !! Storage.ID db = Some db'
    ∧ Storage.Status db' = "running"
    ∧ Storage.ErrorMessage db' = Storage.ErrorMessage db
    ∧ syncStatus client host db' w1 = Return tt w2
    ∧ store w2 = store w1.
Proof.
  intros client host db w.
  apply (Start_keeps_error_message client host db w);
    [reflexivity | reflexivity | discriminate | reflexivity | reflexivity].
Defined.

(** [Repair] on a stored instance of a known engine, on a host whose
    data directory can be resolved and created and a runtime that
    creates the new container.  The old container, if the record names
    one, is removed first, whatever the runtime answers; no image is
    pulled.  When the new container starts, the record is written back
    with the new container, status "running" and no error message.
    When it does not start, [Repair] returns the error and the store is
    as before: the record still names the container that was removed,
    and nothing names the container that was created. *)
Theorem Repair_spec (client : Client) (host : Host) (engines : gmap string Engine)
  (db : Storage.DatabaseInstance) (engine : Engine) (base containerID : string)
  (w : World) :
  let imageName :=
    if negb (String.eqb (Storage.Version db) "")
    then Image engine +:+ ":" +:+ Storage.Version db else Image engine in
  let dataDir := filepathJoin host [base; "databases"; Storage.ID db] in
  let cfg := containerConfig db imageName (Storage.Port db) engine in
  let made :=
    (if String.eqb (Storage.ContainerID db) "" then []
     else [CallRemoveContainer (Storage.ContainerID db) true])
    ++ [CallMkdirAll dataDir; CallCreateContainer cfg; CallStartContainer containerID] in
  Storage.databases (store w) !! Storage.ID db = Some db →
  engines !! Storage.Engine db = Some engine →
  filepathAbs host (Storage.DataDir (store w)) = (base, None) →
  osMkdirAll host dataDir = None →
  CreateContainer client cfg = (containerID, None) →
  storeFault host (OpUpdateDatabase (Storage.ID db)) = None →
  Repair client host engines (Storage.ID db) w
  = match StartContainer client containerID with
    | Some e =>
        Return (Some ("failed to start container: " +:+ e))
          (mkWorld (store w) (calls w ++ made) (goroutines w))
    | None =>
        Return None
          (mkWorld
             (Storage.with_databases
                (<[Storage.ID db :=
                     Storage.set_ErrorMessage ""
                       (Storage.set_Status "running"
                          (Storage.set_ContainerID containerID db))]>
                   (Storage.databases (store w)))
                (store w))
             (calls w ++ made) (goroutines w))
    end.
Proof.
  intros imageName dataDir cfg made Hdb Hengine Habs Hmkdir Hcreate Hfault.
  subst made cfg dataDir imageName. open_world w. unfold Repair, GetEngine. run.
  rewrite Hdb.
  destruct (String.eqb (Storage.ContainerID db) ""); cbn [negb];
    rewrite Hengine, Habs, Hmkdir, Hcreate;
    destruct (StartContainer client containerID) as [e |];
    rewrite ?ID_set_ErrorMessage, ?ID_set_Status, ?ID_set_ContainerID, ?Hfault, ?Hdb;
    by rewrite <- ?app_assoc.
Qed.

(** The repair of an instance whose container was created and did not
    start, on a runtime that still refuses to start it. *)
Lemma Repair_spec_witness :
  let client :=
    mkClient (fun _ => None) (fun _ => ("fedcba9876543210", None))
      (fun _ => Some "port is already allocated") (fun _ _ => None)
      (fun _ => ("stopped", None)) (fun _ _ _ => None) (fun _ => None) in
  let host := hostListening (fun _ => None) in
  let engines : gmap string Engine := {[ "postgresql" := postgres ]} in
  let db := instance "db-1" 5432 "error" "0123456789abcdef" in
  let w := worldOf [db] in
  Repair client host engines "db-1" w
  = Return (Some "failed to start container: port is already allocated")
      (mkWorld (store w)
         (calls w
          ++ [CallRemoveContainer "0123456789abcdef" true;
              CallMkdirAll (filepathJoin host ["/data"; "databases"; "db-1"]);
              CallCreateContainer (containerConfig db "postgres:16" 5432 postgres);
              CallStartContainer "fedcba9876543210"])
         (goroutines w)).
Proof.
  intros client host engines db w.
  apply (Repair_spec client host engines db postgres "/data" "fedcba9876543210" w);
    reflexivity.
Defined.

Lemma sameButProvisioning_config (a b : Storage.DatabaseInstance) (imageName : string)
  (port : Z) (engine : Engine) :
  sameButProvisioning a b →
  containerConfig b imageName port engine = containerConfig a imageName port engine
  ∧ Storage.ID b = Storage.ID a ∧ Storage.Port b = Storage.Port a
  ∧ Storage.Engine b = Storage.Engine a ∧ Storage.Version b = Storage.Version a.
Proof.
  unfold sameButProvisioning. destruct a, b. cbn. intros [=]. by subst.
Qed.

(** [Repair] recreates the container that provisioning would have
    created.  For an instance made by [Create] whose stored record has
    since changed in status, error message and container at most,
    [Repair] hands the runtime exactly the container configuration that
    the provisioning goroutine of that [Create] hands it, and pulls no
    image. *)
Theorem Repair_uses_provisioning_config (client : Client) (host : Host)
  (engines : gmap string Engine) (req : CreateRequest) (w w1 w2 : World)
  (db db2 : Storage.DatabaseInstance) (base : string) :
  Create host engines req w = Return (Some db, None) w1 →
  Storage.databases (store w2) !! Storage.ID db = Some db2 →
  sameButProvisioning db db2 →
  filepathAbs host (Storage.DataDir (store w2)) = (base, None) →
  osMkdirAll host (filepathJoin host [base; "databases"; Storage.ID db]) = None →
  ∃ imageName dataDir engine seedSource seedContent r w3 made,
    goroutines w1
    = goroutines w
      ++ [GoProvision db imageName dataDir (Storage.Port db) engine seedSource seedContent]
    ∧ Repair client host engines (Storage.ID db) w2 = Return r w3
    ∧ calls w3 = calls w2 ++ made
    ∧ CallCreateContainer (containerConfig db imageName (Storage.Port db) engine) ∈ made
    ∧ ∀ image, CallPullImage image ∉ made.
Proof.
  intros Hrun Hdb2 Hsame Habs Hmkdir.
  destruct (ProvisioningEdges.Create_success host engines req w db w1 Hrun)
    as (engine & imageName & dataDir & probed & Hengine & -> & _ & _ & He & Hv & Himage).
  destruct (sameButProvisioning_config db db2 imageName (Storage.Port db) engine Hsame)
    as (Hcfg & Hid & Hport & He2 & Hv2).
  exists imageName, dataDir, engine, (rSeedSource req), (rSeedContent req).
  cbn [goroutines].
  assert (Hrepair : ∃ r w3 tail,
             Repair client host engines (Storage.ID db) w2 = Return r w3
             ∧ calls w3
               = calls w2
                 ++ (if String.eqb (Storage.ContainerID db2) "" then []
                     else [CallRemoveContainer (Storage.ContainerID db2) true])
                 ++ [CallMkdirAll (filepathJoin host [base; "databases"; Storage.ID db]);
                     CallCreateContainer
                       (containerConfig db imageName (Storage.Port db) engine)]
                 ++ tail
             ∧ ∀ image, CallPullImage image ∉ tail).
  { open_world w2. unfold Repair, GetEngine. run. rewrite Hdb2.
    destruct (String.eqb (Storage.ContainerID db2) ""); cbn [negb];
      rewrite He2, He, Hengine, Habs, Hid, Hmkdir, Hv2, Hv, <- Himage, Hport, Hcfg;
      destruct (CreateContainer client _) as [cid [e |]].
    1,3: eexists _, _, []; split; [reflexivity |];
         split; [simpl; by rewrite <- ?app_assoc | intros ? []%elem_of_nil].
    all: destruct (StartContainer client cid) as [e |].
    1,3: eexists _, _, [_]; split; [reflexivity |];
         split; [simpl; by rewrite <- ?app_assoc |];
         by intros ? [[=] | []%elem_of_nil]%elem_of_cons.
    all: rewrite ?ID_set_ErrorMessage, ?ID_set_Status, ?ID_set_ContainerID, ?Hid;
         destruct (storeFault host _); rewrite ?Hdb2;
         eexists _, _, [_]; (split; [reflexivity |]);
         (split; [simpl; by rewrite <- ?app_assoc |]);
         by intros ? [[=] | []%elem_of_nil]%elem_of_cons. }
  destruct Hrepair as (r & w3 & tail & Hrep & Hcalls & Htail).
  eexists r, w3, _. split; [reflexivity |]. split; [exact Hrep |].
  split; [exact Hcalls |]. split.
  - rewrite !elem_of_app. right. left. apply elem_of_cons. right.
    apply elem_of_cons. by left.
  - intros image. rewrite !elem_of_app. intros [H | [H | H]].
    + destruct (String.eqb (Storage.ContainerID db2) "");
        [by apply elem_of_nil in H |].
      by apply elem_of_cons in H as [[=] | []%elem_of_nil].
    + apply elem_of_cons in H as [[=] | H].
      by apply elem_of_cons in H as [[=] | []%elem_of_nil].
    + by apply (Htail image).
Qed.

Lemma Repair_uses_provisioning_config_witness :
  let client := clientReporting "running" in
  let host := hostListening (fun _ => None) in
  let engines : gmap string Engine := {[ "postgresql" := postgres ]} in
  match Create host engines (requestOn 0) emptyWorld with
  | Return (Some db, None) w1 =>
      ∃ imageName dataDir engine seedSource seedContent r w3 made,
        goroutines w1
        = goroutines emptyWorld
          ++ [GoProvision db imageName dataDir (Storage.Port db) engine
                seedSource seedContent]
        ∧ Repair client host engines (Storage.ID db) w1 = Return r w3
        ∧ calls w3 = calls w1 ++ made
        ∧ CallCreateContainer (containerConfig db imageName (Storage.Port db) engine)
          ∈ made
        ∧ ∀ image, CallPullImage image ∉ made
  | _ => False
  end.
Proof.
  intros client host engines.
  destruct (Create host engines (requestOn 0) emptyWorld)
    as [[[db |] [e |]] w1 | w1] eqn:Hrun; try (vm_compute in Hrun; discriminate).
  destruct (ProvisioningEdges.Create_success host engines (requestOn 0) emptyWorld db w1
              Hrun) as (engine & imageName & dataDir & probed & _ & Hw1 & _).
  apply (Repair_uses_provisioning_config client host engines (requestOn 0) emptyWorld
           w1 w1 db db "" Hrun).
  - rewrite Hw1. cbn. apply lookup_insert_eq.
  - reflexivity.
  - rewrite Hw1. reflexivity.
  - reflexivity.
Defined.

End LifecycleProperties.

(** ** Metrics history *)

Module MetricsProperties.
Import Metrics MoreProps.

Lemma lastN_short {A : Type} (n : nat) (l : list A) :
  (length l ≤ n)%nat → lastN n l = l.
Proof. intros Hl. unfold lastN. by replace (length l - n)%nat with 0%nat by lia. Qed.

Lemma lastN_length {A : Type} (n : nat) (l : list A) : (length (lastN n l) ≤ n)%nat.
Proof. unfold lastN. rewrite length_drop. lia. Qed.

Lemma lastN_snoc {A : Type} (n : nat) (l : list A) (x : A) :
  lastN n (lastN n l ++ [x]) = lastN n (l ++ [x]).
Proof.
  destruct (decide (length l ≤ n)%nat) as [Hl | Hl].
  { by rewrite (lastN_short n l Hl). }
  destruct (decide (n = 0)%nat) as [-> | Hn].
  { unfold lastN. rewrite !Nat.sub_0_r. by rewrite !drop_all. }
  unfold lastN. rewrite !length_app, !length_drop. cbn [length].
  replace (length l - (length l - n) + 1 - n)%nat with 1%nat by lia.
  rewrite !drop_app_le by (rewrite ?length_drop; lia).
  rewrite drop_drop. f_equal. f_equal. lia.
Qed.

Lemma Get_Record (dbID other : string) (point : MetricsPoint) (mh : MetricsHistory) :
  Get dbID (Record_ other point mh)
  = if String.eqb other dbID then lastN MaxHistoryPoints (Get dbID mh ++ [point])
    else Get dbID mh.
Proof.
  unfold Get, Record_, MetricsHistory in *. cbv zeta.
  destruct (String.eqb_spec other dbID) as [-> | Hne].
  - rewrite lookup_insert_eq.
    set (points := default [] (mh !! dbID) ++ [point]).
    replace (match mh !! dbID with Some points => points | None => [] end ++ [point])
      with points by (subst points; by destruct (mh !! dbID)).
    destruct (Nat.ltb_spec MaxHistoryPoints (length points)); [done |].
    by rewrite lastN_short.
  - by rewrite lookup_insert_ne.
Qed.

(** The history of a database is the last 60 points recorded for it, in
    the order they were recorded, whatever was recorded for other
    databases in between; it never has more than 60 points, and that of
    a database nothing was recorded for is empty. *)
Theorem MetricsHistory_keeps_last_points (evs : list (string * MetricsPoint))
  (dbID : string) :
  Get dbID (recordAll evs NewMetricsHistory)
  = lastN MaxHistoryPoints (pointsOf dbID evs)
  ∧ (length (Get dbID (recordAll evs NewMetricsHistory)) ≤ MaxHistoryPoints)%nat
  ∧ (pointsOf dbID evs = [] → Get dbID (recordAll evs NewMetricsHistory) = []).
Proof.
  assert (H : Get dbID (recordAll evs NewMetricsHistory)
              = lastN MaxHistoryPoints (pointsOf dbID evs)).
  { induction evs as [| [other point] evs IH] using rev_ind; [done |].
    unfold recordAll. rewrite foldl_app. cbn [foldl fst snd].
    fold (recordAll evs NewMetricsHistory). rewrite Get_Record, IH.
    unfold pointsOf. rewrite List.filter_app, fmap_app. cbn [List.filter fst].
    destruct (String.eqb other dbID); cbn.
    - apply lastN_snoc.
    - by rewrite app_nil_r. }
  rewrite H. split; [done |]. split; [apply lastN_length |]. by intros ->.
Qed.

End MetricsProperties.
